(** * NetBox DCIM models: rack space allocation, elevations and placement validation

    A shallow embedding of [netbox/dcim/models.py].  Python integers are [Z],
    nullable columns are [option], querysets are lists in the order the default
    manager yields them, and a raised exception is a value of [Result]. *)

From Stdlib Require Import ZArith Lia Ascii.
From Stdlib Require Import Floats.SpecFloat.
From stdpp Require Import base option list strings pretty sorting gmap.

Open Scope Z_scope.

(** ** Exceptions *)

Inductive Exception :=
  | KeyError (key : Z)
  | ValueError
  | ZeroDivisionError
  | OverflowError
  | IntegrityError
  | DataError
  | DoesNotExist (model : string)
  | ValidationError (field : string) (message : string).

Inductive Result (A : Type) :=
  | Ok (a : A)
  | Raise (e : Exception).
Arguments Ok {A} a.
Arguments Raise {A} e.

#[global] Instance Exception_eq_dec : EqDecision Exception.
Proof. solve_decision. Defined.
#[global] Instance Result_eq_dec {A} `{EqDecision A} : EqDecision (Result A).
Proof. solve_decision. Defined.

#[global] Instance Result_ret : MRet Result := λ A a, Ok a.
#[global] Instance Result_bind : MBind Result := λ A B f m,
  match m with
  | Ok a => f a
  | Raise e => Raise e
  end.

(** [for x in l: s = body(s, x)], stopping at the first exception. *)
Fixpoint for_in {S A : Type} (l : list A) (body : S → A → Result S) (s : S) : Result S :=
  match l with
  | [] => Ok s
  | x :: l' => s' ← body s x; for_in l' body s'
  end.

(** [try: body / except ValueError: pass], the state staying as it was. *)
Definition try_except_ValueError {S : Type} (body : Result S) (s : S) : Result S :=
  match body with
  | Raise ValueError => Ok s
  | r => r
  end.

(** [try: body / except <model>.DoesNotExist: pass] *)
Definition try_except_DoesNotExist (model : string) (body : Result unit) : Result unit :=
  match body with
  | Raise (DoesNotExist m) => if decide (m = model) then Ok () else body
  | r => r
  end.

(** Reading a foreign key of an instance: an unset one raises
    [<model>.DoesNotExist]. *)
Definition related {A} (model : string) (x : option A) : Result A :=
  match x with
  | Some a => Ok a
  | None => Raise (DoesNotExist model)
  end.

(** Python truthiness of the values the models test with [if x:]. *)
Definition truthy (x : option Z) : bool :=
  match x with
  | Some n => bool_decide (n ≠ 0)
  | None => false
  end.

(** [range(a, b)] *)
Definition range (a b : Z) : list Z := seqZ a (b - a).

(** ** Choice constants *)

Inductive Face := RACK_FACE_FRONT | RACK_FACE_REAR.

#[global] Instance Face_eq_dec : EqDecision Face.
Proof. solve_decision. Defined.

Definition SUBDEVICE_ROLE_PARENT : option bool := Some true.
Definition SUBDEVICE_ROLE_CHILD : option bool := Some false.

(** ** Model objects

    A related object reached through a non-null foreign key is held inline, as
    the ORM hands it over with [select_related]. *)

Record Rack := {
  rack_pk : option Z;
  rack_name : string;
  facility_id : option string;
  rack_u_height : Z;
  desc_units : bool;
}.

Record DeviceType := {
  dt_pk : option Z;
  model : string;
  u_height : Z;
  is_full_depth : bool;
  is_console_server : bool;
  is_pdu : bool;
  is_network_device : bool;
  subdevice_role : option bool;
  _original_u_height : Z;
}.

(** A stored row of [dcim_device]: its key and its two foreign keys are
    non-null. *)
Record Device := {
  pk : Z;
  name : option string;
  asset_tag : option string;
  device_type : DeviceType;
  rack : Rack;
  position : option Z;
  face : option Face;
}.

#[global] Instance Rack_eq_dec : EqDecision Rack.
Proof. solve_decision. Defined.
#[global] Instance DeviceType_eq_dec : EqDecision DeviceType.
Proof. solve_decision. Defined.
#[global] Instance Device_eq_dec : EqDecision Device.
Proof. solve_decision. Defined.

(** ** Rack *)

Section rack.
(** [Device.objects.all()] *)
Variable objects : list Device.

(** The reverse relation [self.devices] (and [filter(rack=self)]). *)
Definition rack_devices (self : Rack) : list Device :=
  filter (λ d, is_Some (rack_pk self) ∧ rack_pk (rack d) = rack_pk self) objects.

Definition position_gte (n : Z) (d : Device) : Prop :=
  match position d with
  | Some p => n ≤ p
  | None => False
  end.

#[global] Instance position_gte_dec n d : Decision (position_gte n d).
Proof. unfold position_gte. destruct (position d); apply _. Defined.

(** The units [range(d.position, d.position + d.device_type.u_height)]. *)
Definition device_units (d : Device) : list Z :=
  match position d with
  | Some p => range p (p + u_height (device_type d))
  | None => []
  end.

(** [units.remove(u)]: drops the first [u], [ValueError] when there is none. *)
Fixpoint list_remove (u : Z) (units : list Z) : Result (list Z) :=
  match units with
  | [] => Raise ValueError
  | x :: units' =>
      if decide (x = u) then Ok units'
      else units'' ← list_remove u units'; Ok (x :: units'')
  end.

Definition face_consumed (rack_face : option Face) (d : Device) : bool :=
  bool_decide (rack_face = None) || bool_decide (face d = rack_face)
  || is_full_depth (device_type d).

(** [set(range(u, u + u_height)).issubset(units)] *)
Definition issubset (window units : list Z) : bool :=
  forallb (λ v, bool_decide (v ∈ units)) window.

Definition get_available_units (self : Rack) (u_height : Z) (rack_face : option Face)
    (exclude : list Z) : Result (list Z) :=
  (* Gather all devices which consume U space within the rack *)
  let devices :=
    filter (λ d, pk d ∉ exclude) (filter (position_gte 1) (rack_devices self)) in
  (* Initialize the rack unit skeleton *)
  let units := range 1 (rack_u_height self + 1) in
  (* Remove units consumed by installed devices *)
  units ← for_in devices (λ units d,
    if face_consumed rack_face d then
      for_in (device_units d) (λ units u,
        try_except_ValueError (list_remove u units) units) units
    else Ok units) units;
  (* Remove units without enough space above them *)
  let available_units :=
    filter (λ u, issubset (range u (u + u_height)) units = true) units in
  Ok (reverse available_units).

End rack.

(** ** Elevations *)

(** One entry of the elevation: [{'id': u, 'name': 'U<u>', 'face': face, 'device': ...}]. *)
Record RackUnit := {
  ru_id : Z;
  ru_name : string;
  ru_face : Face;
  ru_device : option Device;
}.

(** [OrderedDict]: keys in insertion order, each key once. *)
Definition OrderedDict (V : Type) := list (Z * V).

Fixpoint od_setitem {V} (k : Z) (v : V) (od : OrderedDict V) : OrderedDict V :=
  match od with
  | [] => [(k, v)]
  | (k', v') :: od' =>
      if decide (k' = k) then (k, v) :: od' else (k', v') :: od_setitem k v od'
  end.

Fixpoint od_getitem {V} (k : Z) (od : OrderedDict V) : Result V :=
  match od with
  | [] => Raise (KeyError k)
  | (k', v') :: od' => if decide (k' = k) then Ok v' else od_getitem k od'
  end.

(** [od.pop(k, None)] *)
Fixpoint od_pop {V} (k : Z) (od : OrderedDict V) : OrderedDict V :=
  match od with
  | [] => []
  | (k', v') :: od' => if decide (k' = k) then od' else (k', v') :: od_pop k od'
  end.

Definition od_values {V} (od : OrderedDict V) : list V := snd <$> od.

(** [elevation[u]['device'] = device]: the dictionary stored under [u] is
    changed in place, a missing [u] is a [KeyError]. *)
Definition set_unit_device (u : Z) (d : Device) (elevation : OrderedDict RackUnit)
    : Result (OrderedDict RackUnit) :=
  r ← od_getitem u elevation;
  Ok (od_setitem u {| ru_id := ru_id r; ru_name := ru_name r; ru_face := ru_face r;
                      ru_device := Some d |} elevation).

Section elevation.
Variable objects : list Device.

Definition units (self : Rack) : list Z :=
  if desc_units self then range 1 (rack_u_height self + 1)
  else reverse (range 1 (rack_u_height self + 1)).

(** The queryset of [get_rack_units]: [exclude(pk=exclude)],
    [filter(rack=self, position__gt=0)], then face or full depth. *)
Definition elevation_devices (self : Rack) (face' : Face) (exclude : option Z)
    : list Device :=
  filter (λ d, face d = Some face' ∨ is_full_depth (device_type d) = true)
    (filter (position_gte 1)
      (rack_devices (filter (λ d, Some (pk d) ≠ exclude) objects) self)).

(** The loop body of [get_rack_units] for one device of that queryset (its
    position is set). *)
Definition place_device (remove_redundant : bool) (elevation : OrderedDict RackUnit)
    (d : Device) : Result (OrderedDict RackUnit) :=
  match position d with
  | Some p =>
      if remove_redundant then
        elevation ← set_unit_device p d elevation;
        Ok (foldl (λ elevation u, od_pop u elevation) elevation
              (range (p + 1) (p + u_height (device_type d))))
      else
        for_in (range p (p + u_height (device_type d)))
          (λ elevation u, set_unit_device u d elevation) elevation
  | None => Ok elevation
  end.

Definition get_rack_units (self : Rack) (face' : Face) (exclude : option Z)
    (remove_redundant : bool) : Result (list RackUnit) :=
  let elevation : OrderedDict RackUnit :=
    foldl (λ elevation u,
      od_setitem u {| ru_id := u; ru_name := "U" +:+ pretty u; ru_face := face';
                      ru_device := None |} elevation) [] (units self) in
  (* Add devices to rack units list *)
  elevation ←
    (if truthy (rack_pk self) then
       for_in (elevation_devices self face' exclude) (place_device remove_redundant)
         elevation
     else Ok elevation);
  Ok (od_values elevation).

Definition get_front_elevation (self : Rack) : Result (list RackUnit) :=
  get_rack_units self RACK_FACE_FRONT None true.

Definition get_rear_elevation (self : Rack) : Result (list RackUnit) :=
  get_rack_units self RACK_FACE_REAR None true.

Definition get_0u_devices (self : Rack) : list Device :=
  filter (λ d, position d = Some 0) (rack_devices objects self).

End elevation.

(** ** Utilization

    Python floats are IEEE 754 binary64 numbers; the operations below are the
    correctly rounded ones of [SpecFloat] at precision 53. *)

Definition float : Type := spec_float.

(** [float(n)] *)
Definition float_of_int (n : Z) : float := binary_normalize 53 1024 n 0 false.

(** [x / y], a zero divisor raising. *)
Definition float_truediv (x y : float) : Result float :=
  match y with
  | S754_zero _ => Raise ZeroDivisionError
  | _ => Ok (SFdiv 53 1024 x y)
  end.

Definition float_mul (x y : float) : float := SFmul 53 1024 x y.

(** [int(x)]: truncation towards zero. *)
Definition int_of_float (x : float) : Result Z :=
  match x with
  | S754_zero _ => Ok 0
  | S754_finite s m (Zneg k) => Ok (cond_Zopp s (Z.shiftr (Zpos m) (Zpos k)))
  | S754_finite s m e => Ok (cond_Zopp s (Z.shiftl (Zpos m) e))
  | S754_infinity _ => Raise OverflowError
  | S754_nan => Raise ValueError
  end.

Section utilization.
Variable objects : list Device.

Definition get_utilization (self : Rack) : Result Z :=
  available ← get_available_units objects self 1 None [];
  let u_available := Z.of_nat (length available) in
  ratio ← float_truediv (float_of_int (rack_u_height self - u_available))
                        (float_of_int (rack_u_height self));
  int_of_float (float_mul ratio (float_of_int 100)).

End utilization.

(** ** Validation of a rack *)

Definition position_desc (d1 d2 : Device) : Prop :=
  default 0 (position d2) ≤ default 0 (position d1).

#[global] Instance position_desc_dec d1 d2 : Decision (position_desc d1 d2).
Proof. unfold position_desc. apply _. Defined.

Section rack_clean.
Variable objects : list Device.

(** [Device.objects.filter(rack=self).exclude(position__isnull=True)
      .order_by('-position').first()] *)
Definition top_device (self : Rack) : option Device :=
  head (merge_sort position_desc
          (filter (λ d, position d ≠ None) (rack_devices objects self))).

Definition Rack_clean (self : Rack) : Result unit :=
  (* Validate that Rack is tall enough to house the installed Devices *)
  if truthy (rack_pk self) then
    match top_device self with
    | Some top =>
        let min_height := default 0 (position top) + u_height (device_type top) - 1 in
        if bool_decide (rack_u_height self < min_height) then
          Raise (ValidationError "u_height"
            ("Rack must be at least " +:+ pretty min_height
             +:+ "U tall to house currently installed devices."))
        else Ok ()
    | None => Ok ()
    end
  else Ok ().

End rack_clean.

(** ** Ordering of interface names

    [order_interfaces] sorts on four integers that SQL cuts out of the name with
    [SUBSTRING(col FROM pattern)].  The patterns use literal characters,
    [[0-9]+], an optional group and the end anchor. *)

Inductive regex :=
  | Chr (c : ascii)
  | Digits
  | Seq (r1 r2 : regex)
  | Opt (r : regex)
  | Group (n : nat) (r : regex)
  | EndOfString.

Definition is_digit (c : ascii) : bool :=
  (48 <=? nat_of_ascii c)%nat && (nat_of_ascii c <=? 57)%nat.

(** [[0-9]+], the longest run first. *)
Fixpoint digits_plus {X} (s : list ascii) (k : list ascii → option X) : option X :=
  match s with
  | c :: s' =>
      if is_digit c then
        match digits_plus s' k with
        | Some x => Some x
        | None => k s'
        end
      else None
  | [] => None
  end.

Definition captures : Type := list (nat * list ascii).

(** A match of [r] at the head of [s]; [k] receives what is left of [s] and the
    groups closed so far. *)
Fixpoint rmatch (r : regex) (s : list ascii) (caps : captures)
    (k : list ascii → captures → option captures) : option captures :=
  match r with
  | Chr c =>
      match s with
      | c' :: s' => if decide (c' = c) then k s' caps else None
      | [] => None
      end
  | Digits => digits_plus s (λ s', k s' caps)
  | Seq r1 r2 => rmatch r1 s caps (λ s' caps', rmatch r2 s' caps' k)
  | Opt r' =>
      match rmatch r' s caps k with
      | Some c => Some c
      | None => k s caps
      end
  | Group n r' =>
      rmatch r' s caps (λ s' caps',
        k s' ((n, take (length s - length s') s) :: caps'))
  | EndOfString =>
      match s with
      | [] => k s caps
      | _ :: _ => None
      end
  end.

(** The leftmost place of [s] where [r] matches. *)
Fixpoint search (r : regex) (s : list ascii) : option captures :=
  match rmatch r s [] (λ _ caps, Some caps) with
  | Some caps => Some caps
  | None =>
      match s with
      | [] => None
      | _ :: s' => search r s'
      end
  end.

(** [SUBSTRING(col FROM pattern)]: the text of the first group, NULL without a
    match. *)
Definition SUBSTRING (col : string) (pattern : regex) : option (list ascii) :=
  match search pattern (String.list_ascii_of_string col) with
  | Some caps => snd <$> head (filter (λ c : nat * list ascii, c.1 = 1%nat) caps)
  | None => None
  end.

Definition digit_value (c : ascii) : Z := Z.of_nat (nat_of_ascii c) - 48.

(** [CAST(text AS integer)] on a run of digits; [integer] has 32 bits and a
    larger value is an error of the query. *)
Definition CAST_integer (text : option (list ascii)) : Result (option Z) :=
  match text with
  | None => Ok None
  | Some ds =>
      let n := foldl (λ n c, 10 * n + digit_value c) 0 ds in
      if bool_decide (n ≤ 2147483647) then Ok (Some n) else Raise DataError
  end.

Definition slash : regex := Chr "/"%char.
Definition subchannel : regex := Opt (Group 2 (Seq (Chr ":"%char) Digits)).

(** [([0-9]+)\/[0-9]+\/[0-9]+(:[0-9]+)?$] *)
Definition pattern_id1 : regex :=
  Seq (Group 1 Digits) (Seq slash (Seq Digits (Seq slash (Seq Digits
    (Seq subchannel EndOfString))))).
(** [([0-9]+)\/[0-9]+(:[0-9]+)?$] *)
Definition pattern_id2 : regex :=
  Seq (Group 1 Digits) (Seq slash (Seq Digits (Seq subchannel EndOfString))).
(** [([0-9]+)(:[0-9]+)?$] *)
Definition pattern_id3 : regex :=
  Seq (Group 1 Digits) (Seq subchannel EndOfString).
(** [:([0-9]+)$] *)
Definition pattern_id4 : regex :=
  Seq (Chr ":"%char) (Seq (Group 1 Digits) EndOfString).

(** The selected columns [_id1], [_id2], [_id3], [_id4]. *)
Definition interface_ids (col : string) : Result (list (option Z)) :=
  id1 ← CAST_integer (SUBSTRING col pattern_id1);
  id2 ← CAST_integer (SUBSTRING col pattern_id2);
  id3 ← CAST_integer (SUBSTRING col pattern_id3);
  id4 ← CAST_integer (SUBSTRING col pattern_id4);
  Ok [id1; id2; id3; id4].

(** Ascending order of one column, NULL after every value. *)
Definition nulls_last_lt (x y : option Z) : Prop :=
  match x, y with
  | Some a, Some b => a < b
  | Some _, None => True
  | None, _ => False
  end.

#[global] Instance nulls_last_lt_dec x y : Decision (nulls_last_lt x y).
Proof. destruct x, y; simpl; apply _. Defined.

(** [ORDER BY] on the columns in turn. *)
Fixpoint ordering_le (k1 k2 : list (option Z)) : Prop :=
  match k1, k2 with
  | x :: k1', y :: k2' => nulls_last_lt x y ∨ (x = y ∧ ordering_le k1' k2')
  | _, _ => True
  end.

#[global] Instance ordering_le_dec k1 k2 : Decision (ordering_le k1 k2).
Proof.
  revert k2. induction k1 as [|x k1 IH]; intros [|y k2]; simpl; try apply _.
Defined.

Definition row_le {A} (r1 r2 : list (option Z) * A) : Prop := ordering_le r1.1 r2.1.

#[global] Instance row_le_dec {A} (r1 r2 : list (option Z) * A) : Decision (row_le r1 r2).
Proof. unfold row_le. apply _. Defined.

(** [mapM] over the rows of a queryset. *)
Fixpoint for_each {A B} (f : A → Result B) (l : list A) : Result (list B) :=
  match l with
  | [] => Ok []
  | x :: l' => y ← f x; ys ← for_each f l'; Ok (y :: ys)
  end.

Definition order_interfaces {A} (queryset : list A) (sql_col : A → string)
    (primary_ordering : list (A → Z)) : Result (list A) :=
  rows ← for_each (λ row,
            ids ← interface_ids (sql_col row);
            Ok (((λ field, Some (field row)) <$> primary_ordering) ++ ids, row)) queryset;
  Ok (snd <$> merge_sort row_le rows).

(** ** Component templates, components and the database *)

Record ComponentTemplate := {
  tpl_device_type : Z;
  tpl_name : string;
}.

Record InterfaceTemplate := {
  itpl_device_type : Z;
  itpl_name : string;
  itpl_form_factor : Z;
  itpl_mgmt_only : bool;
}.

Record Component := {
  cmp_device : Z;
  cmp_name : string;
}.

Record Interface := {
  if_device : Z;
  if_name : string;
  form_factor : Z;
  mgmt_only : bool;
}.

Record DeviceBay := {
  bay_device : Z;
  bay_name : string;
  installed_device : option Z;
}.

Record Database := {
  Device_objects : list Device;
  DeviceBay_objects : list DeviceBay;
  ConsolePortTemplate_objects : list ComponentTemplate;
  ConsoleServerPortTemplate_objects : list ComponentTemplate;
  PowerPortTemplate_objects : list ComponentTemplate;
  PowerOutletTemplate_objects : list ComponentTemplate;
  InterfaceTemplate_objects : list InterfaceTemplate;
  DeviceBayTemplate_objects : list ComponentTemplate;
  ConsolePort_objects : list Component;
  ConsoleServerPort_objects : list Component;
  PowerPort_objects : list Component;
  PowerOutlet_objects : list Component;
  Interface_objects : list Interface;
  (** The collation of the database: [text_le a b] when [ORDER BY] on a text
      column puts [a] no later than [b]. *)
  text_le : string → string → bool;
}.

(** The templates of a device type, through its reverse relations. *)
Definition templates_of (self : DeviceType) (table : list ComponentTemplate)
    : list ComponentTemplate :=
  filter (λ t, dt_pk self = Some (tpl_device_type t)) table.

Definition interface_templates_of (self : DeviceType) (table : list InterfaceTemplate)
    : list InterfaceTemplate :=
  filter (λ t, dt_pk self = Some (itpl_device_type t)) table.

(** ** Display names, used in the validation messages *)

Definition nonempty (s : option string) : option string :=
  match s with
  | Some "" => None
  | s => s
  end.

Definition Rack_display_name (self : Rack) : string :=
  match nonempty (facility_id self) with
  | Some f => rack_name self +:+ " (" +:+ f +:+ ")"
  | None => rack_name self
  end.

Definition Device_display_name (self : Device) : string :=
  match nonempty (name self) with
  | Some n => n
  | None =>
      if truthy (position self) then
        model (device_type self) +:+ " (" +:+ rack_name (rack self) +:+ " U"
        +:+ pretty (default 0 (position self)) +:+ ")"
      else model (device_type self) +:+ " (" +:+ rack_name (rack self) +:+ ")"
  end.

(** ** Validation of a device type *)

Definition is_parent_device (self : DeviceType) : bool :=
  bool_decide (subdevice_role self = Some true).

Definition is_child_device (self : DeviceType) : bool :=
  bool_decide (subdevice_role self = Some false).

Definition member (x : option Z) (l : list Z) : bool :=
  match x with
  | Some p => bool_decide (p ∈ l)
  | None => false
  end.

Section device_type_clean.
Variable db : Database.

(** [Device.objects.filter(device_type=self, position__isnull=False)] *)
Definition instances_with_position (self : DeviceType) : list Device :=
  filter (λ d, (is_Some (dt_pk self) ∧ dt_pk (device_type d) = dt_pk self)
               ∧ position d ≠ None) (Device_objects db).

(** The check of one instance in the loop of [DeviceType.clean]. *)
Definition check_room_to_expand (self : DeviceType) (_ : unit) (d : Device) : Result unit :=
  let face_required := if is_full_depth self then None else face d in
  u_available ← get_available_units (Device_objects db) (rack d) (u_height self)
                   face_required [pk d];
  if negb (member (position d) u_available) then
    Raise (ValidationError "u_height"
      ("Device " +:+ Device_display_name d +:+ " in rack " +:+ Rack_display_name (rack d)
       +:+ " does not have sufficient space to accommodate a height of "
       +:+ pretty (u_height self) +:+ "U"))
  else Ok ().

Definition DeviceType_clean (self : DeviceType) : Result unit :=
  (* If editing an existing DeviceType to have a larger u_height, first
     validate that *all* instances of it have room to expand within their
     racks. *)
  _ ← (if bool_decide (dt_pk self ≠ None)
          && bool_decide (u_height self > _original_u_height self) then
         for_in (instances_with_position self) (check_room_to_expand self) ()
       else Ok ());
  _ ← (if negb (is_console_server self)
          && bool_decide (templates_of self (ConsoleServerPortTemplate_objects db) ≠ []) then
         Raise (ValidationError "is_console_server"
           "Must delete all console server port templates associated with this device before declassifying it as a console server.")
       else Ok ());
  _ ← (if negb (is_pdu self)
          && bool_decide (templates_of self (PowerOutletTemplate_objects db) ≠ []) then
         Raise (ValidationError "is_pdu"
           "Must delete all power outlet templates associated with this device before declassifying it as a PDU.")
       else Ok ());
  _ ← (if negb (is_network_device self)
          && bool_decide (filter (λ t, itpl_mgmt_only t = false)
               (interface_templates_of self (InterfaceTemplate_objects db)) ≠ []) then
         Raise (ValidationError "is_network_device"
           "Must delete all non-management-only interface templates associated with this device before declassifying it as a network device.")
       else Ok ());
  _ ← (if bool_decide (subdevice_role self ≠ SUBDEVICE_ROLE_PARENT)
          && bool_decide (templates_of self (DeviceBayTemplate_objects db) ≠ []) then
         Raise (ValidationError "subdevice_role"
           "Must delete all device bay templates associated with this device before declassifying it as a parent device.")
       else Ok ());
  if bool_decide (u_height self ≠ 0)
     && bool_decide (subdevice_role self = SUBDEVICE_ROLE_CHILD) then
    Raise (ValidationError "u_height" "Child device types must be 0U.")
  else Ok ().

End device_type_clean.

(** ** Devices

    A [Device] object in memory, as a form or a caller builds it: the key is
    unset until the first save, and a foreign key can still be missing. *)

Record DeviceInstance := {
  self_pk : option Z;
  self_name : option string;
  self_asset_tag : option string;
  self_device_type : option DeviceType;
  self_rack : option Rack;
  self_position : option Z;
  self_face : option Face;
}.

Section device_clean.
Variable objects : list Device.

Definition exclude_list (self : DeviceInstance) : list Z :=
  if truthy (self_pk self) then [default 0 (self_pk self)] else [].

Definition Device_clean (self : DeviceInstance) : Result unit :=
  (* Validate position/face combination *)
  _ ← (if truthy (self_position self) && bool_decide (self_face self = None) then
         Raise (ValidationError "face"
           "Must specify rack face when defining rack position.")
       else Ok ());
  try_except_DoesNotExist "DeviceType" (
    dt ← related "DeviceType" (self_device_type self);
    (* Child devices cannot be assigned to a rack face/unit *)
    _ ← (if is_child_device dt && bool_decide (self_face self ≠ None) then
           Raise (ValidationError "face"
             "Child device types cannot be assigned to a rack face. This is an attribute of the parent device.")
         else Ok ());
    _ ← (if is_child_device dt && truthy (self_position self) then
           Raise (ValidationError "position"
             "Child device types cannot be assigned to a rack position. This is an attribute of the parent device.")
         else Ok ());
    (* Validate rack space *)
    let rack_face := if negb (is_full_depth dt) then self_face self else None in
    try_except_DoesNotExist "Rack" (
      r ← related "Rack" (self_rack self);
      available_units ← get_available_units objects r (u_height dt) rack_face
                           (exclude_list self);
      if truthy (self_position self)
         && negb (member (self_position self) available_units) then
        Raise (ValidationError "position"
          ("U" +:+ pretty (default 0 (self_position self))
           +:+ " is already occupied or does not have sufficient space to accommodate a(n) "
           +:+ model dt +:+ " (" +:+ pretty (u_height dt) +:+ "U)."))
      else Ok ())).

End device_clean.

(** *** Saving a device *)

(** The cell of the [unique_together] constraint; SQL compares no row that has
    a null in it. *)
Definition placement (d : Device) : option (Z * Z * Face) :=
  k ← rack_pk (rack d); p ← position d; f ← face d; Some (k, p, f).

(** The constraints of [dcim_device]: primary key, unique name and asset tag,
    unique [(rack, position, face)]. *)
Definition constraints_hold (rows : list Device) : Prop :=
  NoDup (pk <$> rows) ∧ NoDup (omap name rows) ∧ NoDup (omap asset_tag rows)
  ∧ NoDup (omap placement rows).

#[global] Instance constraints_hold_dec rows : Decision (constraints_hold rows).
Proof. unfold constraints_hold. apply _. Defined.

(** The next value of the key sequence. *)
Definition next_pk (rows : list Device) : Z :=
  foldr (λ d k, Z.max (pk d + 1) k) 1 rows.

Definition with_rack (r : Rack) (d : Device) : Device :=
  {| pk := pk d; name := name d; asset_tag := asset_tag d; device_type := device_type d;
     rack := r; position := position d; face := face d |}.

Definition with_devices (rows : list Device) (db : Database) : Database :=
  {| Device_objects := rows;
     DeviceBay_objects := DeviceBay_objects db;
     ConsolePortTemplate_objects := ConsolePortTemplate_objects db;
     ConsoleServerPortTemplate_objects := ConsoleServerPortTemplate_objects db;
     PowerPortTemplate_objects := PowerPortTemplate_objects db;
     PowerOutletTemplate_objects := PowerOutletTemplate_objects db;
     InterfaceTemplate_objects := InterfaceTemplate_objects db;
     DeviceBayTemplate_objects := DeviceBayTemplate_objects db;
     ConsolePort_objects := ConsolePort_objects db;
     ConsoleServerPort_objects := ConsoleServerPort_objects db;
     PowerPort_objects := PowerPort_objects db;
     PowerOutlet_objects := PowerOutlet_objects db;
     Interface_objects := Interface_objects db;
     text_le := text_le db |}.

(** [super(Device, self).save()]: an instance with a key updates its row, or is
    inserted under that key when there is no such row; one without a key is
    inserted under the next key.  A new row goes last. *)
Definition Model_save (db : Database) (self : DeviceInstance) : Result (Database * Device) :=
  match self_device_type self, self_rack self with
  | Some dt, Some r =>
      let rows := Device_objects db in
      let k := default (next_pk rows) (self_pk self) in
      let row := {| pk := k; name := self_name self; asset_tag := self_asset_tag self;
                    device_type := dt; rack := r; position := self_position self;
                    face := self_face self |} in
      let rows' :=
        if bool_decide (k ∈ pk <$> rows) then
          (λ d, if decide (pk d = k) then row else d) <$> rows
        else rows ++ [row] in
      if decide (constraints_hold rows') then Ok (with_devices rows' db, row)
      else Raise IntegrityError
  | _, _ => Raise IntegrityError
  end.

(** The name order of two templates, for [ORDER BY name]. *)
Definition name_le (db : Database) (t1 t2 : ComponentTemplate) : Prop :=
  text_le db (tpl_name t1) (tpl_name t2) = true.

#[global] Instance name_le_dec db t1 t2 : Decision (name_le db t1 t2).
Proof. unfold name_le. apply _. Defined.

(** [self.console_port_templates.all()] and the like, for the template models
    without a manager of their own: the templates of the type in the order of
    [Meta.ordering], [['device_type', 'name']]; the rows have one device type,
    so they come in the order of their names. *)
Definition templates_all (db : Database) (self : DeviceType)
    (table : list ComponentTemplate) : list ComponentTemplate :=
  merge_sort (name_le db) (templates_of self table).

(** [self.interface_templates.all()]: the related manager is built on
    [InterfaceTemplateManager], whose [get_queryset] is [order_interfaces] with
    the primary ordering [('device_type',)]; the rows selected have one device
    type, on which that ordering ties.  The cast of the query can fail. *)
Definition interface_templates_all (db : Database) (self : DeviceType)
    : Result (list InterfaceTemplate) :=
  order_interfaces (interface_templates_of self (InterfaceTemplate_objects db))
    itpl_name [itpl_device_type].

(** [bulk_create] of the components a new device gets from its type, each
    list built from the templates as their manager returns them.  The query
    of the interface templates is the one step that can fail, and the save
    fails with it. *)
Definition create_components (self : Device) (db : Database) : Result Database :=
  let dt := device_type self in
  let component t := {| cmp_device := pk self; cmp_name := tpl_name t |} in
  interface_templates ← interface_templates_all db dt;
  Ok {| Device_objects := Device_objects db;
        DeviceBay_objects := DeviceBay_objects db ++
          ((λ t, {| bay_device := pk self; bay_name := tpl_name t;
                    installed_device := None |})
             <$> templates_all db dt (DeviceBayTemplate_objects db));
        ConsolePortTemplate_objects := ConsolePortTemplate_objects db;
        ConsoleServerPortTemplate_objects := ConsoleServerPortTemplate_objects db;
        PowerPortTemplate_objects := PowerPortTemplate_objects db;
        PowerOutletTemplate_objects := PowerOutletTemplate_objects db;
        InterfaceTemplate_objects := InterfaceTemplate_objects db;
        DeviceBayTemplate_objects := DeviceBayTemplate_objects db;
        ConsolePort_objects := ConsolePort_objects db ++
          (component <$> templates_all db dt (ConsolePortTemplate_objects db));
        ConsoleServerPort_objects := ConsoleServerPort_objects db ++
          (component <$> templates_all db dt (ConsoleServerPortTemplate_objects db));
        PowerPort_objects := PowerPort_objects db ++
          (component <$> templates_all db dt (PowerPortTemplate_objects db));
        PowerOutlet_objects := PowerOutlet_objects db ++
          (component <$> templates_all db dt (PowerOutletTemplate_objects db));
        Interface_objects := Interface_objects db ++
          ((λ t, {| if_device := pk self; if_name := itpl_name t;
                    form_factor := itpl_form_factor t; mgmt_only := itpl_mgmt_only t |})
             <$> interface_templates);
        text_le := text_le db |}.

(** [parent_bay__device=self]: the device sits in a bay of [self]. *)
Definition in_bay_of (db : Database) (parent : Z) (d : Device) : Prop :=
  Exists (λ b, installed_device b = Some (pk d) ∧ bay_device b = parent)
         (DeviceBay_objects db).

#[global] Instance in_bay_of_dec db parent d : Decision (in_bay_of db parent d).
Proof. unfold in_bay_of. apply _. Defined.

(** [Device.get_children] *)
Definition get_children (db : Database) (self : Device) : list Device :=
  filter (in_bay_of db (pk self)) (Device_objects db).

Definition Device_save (db : Database) (self : DeviceInstance) : Result (Database * Device) :=
  let is_new := negb (truthy (self_pk self)) in
  '(db, saved) ← Model_save db self;
  (* If this is a new Device, instantiate all of the related components *)
  db ← (if is_new then create_components saved db else Ok db);
  (* Update Rack assignment for any child Devices *)
  let rows' :=
    (λ d, if decide (in_bay_of db (pk saved) d) then with_rack (rack saved) d else d)
      <$> Device_objects db in
  if decide (constraints_hold rows') then Ok (with_devices rows' db, saved)
  else Raise IntegrityError.

(** ** The occupancy of a rack, for the statements below *)

Section occupancy.
Variable objects : list Device.

(** Device [d] fills unit [u] of face [f]: it has a position of 1 or more,
    [u] lies in its span, and it is mounted on [f] or is full depth. *)
Definition occupies_cell (d : Device) (f : Face) (u : Z) : Prop :=
  ∃ p, position d = Some p ∧ 1 ≤ p ∧ p ≤ u < p + u_height (device_type d)
       ∧ (is_full_depth (device_type d) = true ∨ face d = Some f).

(** Unit [u] is free for a query on [rack_face], the devices of [exclude]
    set aside; no face asked means free on both faces. *)
Definition free_on (self : Rack) (rack_face : option Face) (exclude : list Z) (u : Z)
    : Prop :=
  ∀ d, d ∈ rack_devices objects self → pk d ∉ exclude →
    match rack_face with
    | Some f => ¬ occupies_cell d f u
    | None => ∀ f, ¬ occupies_cell d f u
    end.

(** No two devices of the rack share a cell. *)
Definition no_overlap (self : Rack) : Prop :=
  ∀ i j d1 d2 f u,
    rack_devices objects self !! i = Some d1 →
    rack_devices objects self !! j = Some d2 →
    i ≠ j → ¬ (occupies_cell d1 f u ∧ occupies_cell d2 f u).

(** A placement is a position with a face. *)
Definition faces_given (self : Rack) : Prop :=
  ∀ d, d ∈ rack_devices objects self → position_gte 1 d → is_Some (face d).

(** The devices [get_available_units] takes into account. *)
Definition consuming_devices (self : Rack) (rack_face : option Face) (exclude : list Z)
    : list Device :=
  filter (λ d, face_consumed rack_face d = true)
    (filter (λ d, pk d ∉ exclude) (filter (position_gte 1) (rack_devices objects self))).

(** The union of their spans. *)
Definition occupied_units (self : Rack) (rack_face : option Face) (exclude : list Z)
    : gset Z :=
  ⋃ ((λ d, list_to_set (device_units d)) <$> consuming_devices self rack_face exclude).

(** The free units of the rack, lowest first. *)
Definition free_units (self : Rack) (rack_face : option Face) (exclude : list Z)
    : list Z :=
  filter (λ u, u ∉ occupied_units self rack_face exclude)
         (range 1 (rack_u_height self + 1)).

(** The starting units computed from the union of the spans: a free unit
    whose window of [u_height] units is free, highest first. *)
Definition available_over_union (self : Rack) (u_height : Z) (rack_face : option Face)
    (exclude : list Z) : list Z :=
  reverse (filter (λ u, Forall (λ v, v ∈ free_units self rack_face exclude)
                               (range u (u + u_height)))
                  (free_units self rack_face exclude)).

End occupancy.

(** ** A small installation, for the examples *)

Module Example.

Definition rack_of (k h : Z) : Rack :=
  {| rack_pk := Some k; rack_name := "R" +:+ pretty k; facility_id := None;
     rack_u_height := h; desc_units := false |}.

Definition type_of (k h : Z) (full_depth : bool) : DeviceType :=
  {| dt_pk := Some k; model := "T" +:+ pretty k; u_height := h;
     is_full_depth := full_depth; is_console_server := false; is_pdu := false;
     is_network_device := true; subdevice_role := None; _original_u_height := h |}.

Definition device_of (k : Z) (t : DeviceType) (r : Rack) (p : option Z) (f : option Face)
    : Device :=
  {| pk := k; name := Some ("d" +:+ pretty k); asset_tag := None; device_type := t;
     rack := r; position := p; face := f |}.

Definition database_of (rows : list Device) (bays : list DeviceBay) : Database :=
  {| Device_objects := rows; DeviceBay_objects := bays;
     ConsolePortTemplate_objects := []; ConsoleServerPortTemplate_objects := [];
     PowerPortTemplate_objects := []; PowerOutletTemplate_objects := [];
     InterfaceTemplate_objects := []; DeviceBayTemplate_objects := [];
     ConsolePort_objects := []; ConsoleServerPort_objects := [];
     PowerPort_objects := []; PowerOutlet_objects := []; Interface_objects := [];
     text_le := String.leb |}.

(** A 4U rack with a 1U front device at U2 and a 1U rear device at U4. *)
Definition rack4 : Rack := rack_of 1 4.
Definition half_1u : DeviceType := type_of 1 1 false.
Definition half_2u : DeviceType := type_of 2 2 false.
Definition full_1u : DeviceType := type_of 3 1 true.
Definition tidy : list Device :=
  [ device_of 1 half_1u rack4 (Some 2) (Some RACK_FACE_FRONT);
    device_of 2 half_1u rack4 (Some 4) (Some RACK_FACE_REAR) ].

(** The same rack with a 2U front device at U1 and a 1U front device inside
    its span, at U2. *)
Definition overlapping : list Device :=
  [ device_of 1 half_2u rack4 (Some 1) (Some RACK_FACE_FRONT);
    device_of 2 half_1u rack4 (Some 2) (Some RACK_FACE_FRONT) ].

End Example.

(** ** The arithmetic of [get_utilization], for the statements below *)

(** [int(float(used) / height * 100)] *)
Definition float_percent (used height : Z) : Result Z :=
  ratio ← float_truediv (float_of_int used) (float_of_int height);
  int_of_float (float_mul ratio (float_of_int 100)).

(** The occupancies [(used, height)] of a rack of at most 100U at which the
    product in binary64 falls just under the exact percentage. *)
Definition rounded_down : list (Z * Z) := [(29, 50); (29, 100); (57, 100); (58, 100)].

Definition percent_agrees (height used : Z) : bool :=
  bool_decide ((used, height) ∈ rounded_down)
  || bool_decide (float_percent used height = Ok (used * 100 / height)).


Module Example_utilization.
Import Example.

(** A 100U rack, 29 units of it taken by one full-depth device. *)
Definition rack100 : Rack := rack_of 7 100.
Definition chassis_29u : DeviceType := type_of 9 29 true.
Definition one_chassis : list Device :=
  [ device_of 1 chassis_29u rack100 (Some 1) (Some RACK_FACE_FRONT) ].

End Example_utilization.

Module Example_resize.
Import Example.

(** A rack holding a 4U front device at U1 (units 1 to 4) and a 1U rear device
    at U3, asked to shrink from 4U to 3U. *)
Definition half_4u : DeviceType := type_of 4 4 false.
Definition stored_rack : Rack := rack_of 2 4.
Definition resized_rack : Rack := rack_of 2 3.
Definition installed : list Device :=
  [ device_of 1 half_4u stored_rack (Some 1) (Some RACK_FACE_FRONT);
    device_of 2 half_1u stored_rack (Some 3) (Some RACK_FACE_REAR) ].

End Example_resize.

(** ** The elevation as a function of the units, for the statements below *)

Definition unit_record (face' : Face) (u : Z) (occupant : option Device) : RackUnit :=
  {| ru_id := u; ru_name := "U" +:+ pretty u; ru_face := face'; ru_device := occupant |}.

(** The dictionary that holds, for each unit of [us] in turn, the record of the
    unit with the occupant [g] gives it. *)
Definition elevation_of (face' : Face) (us : list Z) (g : Z → option Device)
    : OrderedDict RackUnit :=
  (λ u, (u, unit_record face' u (g u))) <$> us.

(** Writing device [d] on the units [ws]. *)
Definition write_units (d : Device) (ws : list Z) (g : Z → option Device)
    : Z → option Device :=
  λ u, if decide (u ∈ ws) then Some d else g u.

(** Writing the devices in turn, each on its span. *)
Definition write_devices (ds : list Device) (g : Z → option Device) : Z → option Device :=
  foldl (λ g d, write_units d (device_units d) g) g ds.

(** The devices [get_rack_units] goes through: none for a rack without a key. *)
Definition placed_devices (objects : list Device) (self : Rack) (face' : Face)
    (exclude : option Z) : list Device :=
  if truthy (rack_pk self) then elevation_devices objects self face' exclude else [].

(** The last of the devices, in the order of the queryset, whose span holds
    [u]. *)
Definition occupant (ds : list Device) (u : Z) : option Device :=
  last (filter (λ d, u ∈ device_units d) ds).

(** One record per unit, in the order of [units], each with its occupant. *)
Definition full_elevation (objects : list Device) (self : Rack) (face' : Face)
    (exclude : option Z) : list RackUnit :=
  (λ u, unit_record face' u (occupant (placed_devices objects self face' exclude) u))
    <$> units self.

Module Example_names.

(** The names of the docstring of [order_interfaces], in its order. *)
Definition slotted : list string :=
  [ "et-0/0/0"; "et-0/0/1"; "et-0/1/0"; "xe-0/1/1:0"; "xe-0/1/1:1"; "et-0/1/2";
    "et-0/1/10"; "et-1/0/0"; "vlan1"; "vlan10" ].

Definition vlans : list string := [ "vlan10"; "vlan1"; "vlan2" ].

End Example_names.

(** Strictly before, in the order of [ORDER BY]: no tie. *)
Definition ordering_lt (k1 k2 : list (option Z)) : Prop :=
  ordering_le k1 k2 ∧ ¬ ordering_le k2 k1.

#[global] Instance ordering_lt_dec k1 k2 : Decision (ordering_lt k1 k2).
Proof. unfold ordering_lt. apply _. Defined.

Module Example_placement.
Import Example.

Definition instance_of (k : option Z) (t : DeviceType) (r : Rack) (p : option Z)
    (f : option Face) : DeviceInstance :=
  {| self_pk := k; self_name := None; self_asset_tag := None;
     self_device_type := Some t; self_rack := Some r; self_position := p;
     self_face := f |}.

(** A new 1U device for U3 of the front face of the 4U rack. *)
Definition newcomer : DeviceInstance :=
  instance_of None half_1u rack4 (Some 3) (Some RACK_FACE_FRONT).

(** The same device with position 0, without a face and with one. *)
Definition zero_faceless : DeviceInstance := instance_of None half_1u rack4 (Some 0) None.
Definition zero_front : DeviceInstance :=
  instance_of None half_1u rack4 (Some 0) (Some RACK_FACE_FRONT).

End Example_placement.

(** ** Growing a device type, for the statements below *)

(** Instance [d] keeps its place when the type [self] takes its new height:
    its position is among the units available in its own rack for that
    height, on its face (none for a full-depth type), [d] itself excluded. *)
Definition has_room (db : Database) (self : DeviceType) (d : Device) : Prop :=
  ∃ available p,
    get_available_units (Device_objects db) (rack d) (u_height self)
      (if is_full_depth self then None else face d) [pk d] = Ok available
    ∧ position d = Some p ∧ p ∈ available.

(** An instance of the type [self] with a position, spelled on the table. *)
Definition positioned_instance (db : Database) (self : DeviceType) (d : Device) : Prop :=
  d ∈ Device_objects db ∧ dt_pk (device_type d) = dt_pk self ∧ is_Some (position d).

(** The error of the height check for the instance [d]. *)
Definition no_room_error (self : DeviceType) (d : Device) : Exception :=
  ValidationError "u_height"
    ("Device " +:+ Device_display_name d +:+ " in rack " +:+ Rack_display_name (rack d)
     +:+ " does not have sufficient space to accommodate a height of "
     +:+ pretty (u_height self) +:+ "U").

(** The type as edited, had its height not been raised. *)
Definition same_height (self : DeviceType) : DeviceType :=
  {| dt_pk := dt_pk self; model := model self; u_height := u_height self;
     is_full_depth := is_full_depth self; is_console_server := is_console_server self;
     is_pdu := is_pdu self; is_network_device := is_network_device self;
     subdevice_role := subdevice_role self; _original_u_height := u_height self |}.

Module Example_growth.
Import Example.

(** A 42U rack with a 1U device at U42, whose type is edited to 2U. *)
Definition rack42 : Rack := rack_of 5 42.
Definition stored_type : DeviceType := type_of 6 1 true.
Definition edited_type : DeviceType :=
  {| dt_pk := Some 6; model := "T6"; u_height := 2; is_full_depth := true;
     is_console_server := false; is_pdu := false; is_network_device := true;
     subdevice_role := None; _original_u_height := 1 |}.
Definition top_of_rack : Device :=
  device_of 1 stored_type rack42 (Some 42) (Some RACK_FACE_FRONT).
Definition stored : Database := database_of [top_of_rack] [].

End Example_growth.

Module Example_declassified.
Import Example.

(** A console server of 1U at U1 of a 42U rack, its type with one console
    server port template; the type is edited to 2U and, in the same edit, is
    no longer marked as a console server. *)
Definition rack42 : Rack := rack_of 5 42.
Definition stored_type : DeviceType :=
  {| dt_pk := Some 6; model := "T6"; u_height := 1; is_full_depth := true;
     is_console_server := true; is_pdu := false; is_network_device := true;
     subdevice_role := None; _original_u_height := 1 |}.
Definition edited_type : DeviceType :=
  {| dt_pk := Some 6; model := "T6"; u_height := 2; is_full_depth := true;
     is_console_server := false; is_pdu := false; is_network_device := true;
     subdevice_role := None; _original_u_height := 1 |}.
Definition at_bottom : Device :=
  device_of 1 stored_type rack42 (Some 1) (Some RACK_FACE_FRONT).
Definition stored : Database :=
  {| Device_objects := [at_bottom]; DeviceBay_objects := [];
     ConsolePortTemplate_objects := [];
     ConsoleServerPortTemplate_objects := [ {| tpl_device_type := 6; tpl_name := "Port 1" |} ];
     PowerPortTemplate_objects := []; PowerOutletTemplate_objects := [];
     InterfaceTemplate_objects := []; DeviceBayTemplate_objects := [];
     ConsolePort_objects := [];
     ConsoleServerPort_objects := [ {| cmp_device := 1; cmp_name := "Port 1" |} ];
     PowerPort_objects := []; PowerOutlet_objects := []; Interface_objects := [];
     text_le := String.leb |}.

End Example_declassified.

Module Example_bays.
Import Example.

(** A parent chassis in rack A with one bay, and a child device in that bay;
    rack B stands next to it. *)
Definition rack_a : Rack := rack_of 10 42.
Definition rack_b : Rack := rack_of 11 42.
Definition chassis_type : DeviceType :=
  {| dt_pk := Some 20; model := "Chassis"; u_height := 4; is_full_depth := true;
     is_console_server := false; is_pdu := false; is_network_device := true;
     subdevice_role := SUBDEVICE_ROLE_PARENT; _original_u_height := 4 |}.
Definition blade_type : DeviceType :=
  {| dt_pk := Some 21; model := "Blade"; u_height := 0; is_full_depth := true;
     is_console_server := false; is_pdu := false; is_network_device := true;
     subdevice_role := SUBDEVICE_ROLE_CHILD; _original_u_height := 0 |}.
Definition chassis : Device :=
  device_of 1 chassis_type rack_a (Some 1) (Some RACK_FACE_FRONT).
Definition blade : Device := device_of 2 blade_type rack_a None None.
Definition bay : DeviceBay :=
  {| bay_device := 1; bay_name := "Bay 1"; installed_device := Some 2 |}.
Definition housed : Database := database_of [chassis; blade] [bay].

(** The chassis, edited to stand in rack B. *)
Definition chassis_moved : DeviceInstance :=
  {| self_pk := Some 1; self_name := Some "d1"; self_asset_tag := None;
     self_device_type := Some chassis_type; self_rack := Some rack_b;
     self_position := Some 1; self_face := Some RACK_FACE_FRONT |}.

(** The blade, edited to stand in rack B. *)
Definition blade_moved : DeviceInstance :=
  {| self_pk := Some 2; self_name := Some "d2"; self_asset_tag := None;
     self_device_type := Some blade_type; self_rack := Some rack_b;
     self_position := None; self_face := None |}.

End Example_bays.

Module Example_bays_saved.
Import Example Example_bays.

(** The table after the chassis was saved into rack B. *)
Definition chassis_in_b : Device :=
  device_of 1 chassis_type rack_b (Some 1) (Some RACK_FACE_FRONT).
Definition blade_in_b : Device := device_of 2 blade_type rack_b None None.
Definition rehoused : Database := database_of [chassis_in_b; blade_in_b] [bay].

(** The table after the blade alone was saved into rack B. *)
Definition split_up : Database := database_of [chassis; blade_in_b] [bay].

End Example_bays_saved.

(** The percentage of a rack of at most 100U as a user reads it: between 0
    and 100, the exact floor or one below it, 0 only for an empty rack and 100
    only for a full one. *)
Definition percent_in_range (height used : Z) : bool :=
  match float_percent used height with
  | Ok p =>
      bool_decide (0 ≤ p ≤ 100)
      && bool_decide (used * 100 / height - 1 ≤ p ≤ used * 100 / height)
      && eqb (bool_decide (p = 0)) (bool_decide (used = 0))
      && eqb (bool_decide (p = 100)) (bool_decide (used = height))
  | Raise _ => false
  end.

Module Example_empty.
Import Example.

(** A rack whose height was stored as 0. *)
Definition rack0 : Rack := rack_of 8 0.

End Example_empty.

Module Example_placed.
Import Example Example_placement.

(** The table of the 4U rack before and after the newcomer was saved. *)
Definition before : Database := database_of tidy [].
Definition newcomer_row : Device :=
  {| pk := 3; name := None; asset_tag := None; device_type := half_1u; rack := rack4;
     position := Some 3; face := Some RACK_FACE_FRONT |}.
Definition after : Database := database_of (tidy ++ [newcomer_row]) [].

End Example_placed.

(** ** The collapsed elevation, for the statements below *)

(** The units of a device above its position:
    [range(position + 1, position + u_height)]. *)
Definition inner_units (d : Device) : list Z :=
  match position d with
  | Some p => range (p + 1) (p + u_height (device_type d))
  | None => []
  end.

(** Writing each device at its position, in turn. *)
Definition write_positions (ds : list Device) (g : Z → option Device) : Z → option Device :=
  foldl (λ g d, match position d with
                | Some p => write_units d [p] g
                | None => g
                end) g ds.

(** The last of the devices, in the order of the queryset, whose position is
    [u]. *)
Definition holder (ds : list Device) (u : Z) : option Device :=
  last (filter (λ d, position d = Some u) ds).

(** The units of the rack that lie above the position of no device, in the
    order of [units], each with the device positioned there. *)
Definition collapsed_elevation (objects : list Device) (self : Rack) (face' : Face)
    (exclude : option Z) : list RackUnit :=
  (λ u, unit_record face' u (holder (placed_devices objects self face' exclude) u))
    <$> filter (λ u, u ∉ placed_devices objects self face' exclude ≫= inner_units)
          (units self).

Module Example_stacked.
Import Example.

(** The 4U rack with a 2U front device at U1 and a 1U front device at U3. *)
Definition two_high : Device := device_of 1 half_2u rack4 (Some 1) (Some RACK_FACE_FRONT).
Definition one_high : Device := device_of 2 half_1u rack4 (Some 3) (Some RACK_FACE_FRONT).
Definition stacked : list Device := [two_high; one_high].

End Example_stacked.

Module Example_growth_ok.
Import Example.

(** A 42U rack with two 1U devices of one type, at U1 and U10, the type being
    edited to 2U. *)
Definition low : Device :=
  device_of 1 Example_growth.stored_type Example_growth.rack42 (Some 1)
    (Some RACK_FACE_FRONT).
Definition high : Device :=
  device_of 2 Example_growth.stored_type Example_growth.rack42 (Some 10)
    (Some RACK_FACE_FRONT).
Definition stored : Database := database_of [low; high] [].

End Example_growth_ok.

Module Example_templates.
Import Example.

(** A parent type with three interface templates and two bay templates,
    stored in no particular order, no device stored yet, and a first device of
    the type about to be created. *)
Definition IFACE_FF_1GE_FIXED : Z := 1000.
Definition IFACE_FF_10GE_SFP_PLUS : Z := 1200.
Definition enclosure_type : DeviceType :=
  {| dt_pk := Some 30; model := "Enclosure"; u_height := 2; is_full_depth := true;
     is_console_server := false; is_pdu := false; is_network_device := true;
     subdevice_role := SUBDEVICE_ROLE_PARENT; _original_u_height := 2 |}.
Definition catalogue : Database :=
  {| Device_objects := []; DeviceBay_objects := [];
     ConsolePortTemplate_objects := [];
     ConsoleServerPortTemplate_objects := [];
     PowerPortTemplate_objects := []; PowerOutletTemplate_objects := [];
     InterfaceTemplate_objects :=
       [ {| itpl_device_type := 30; itpl_name := "fxp0";
            itpl_form_factor := IFACE_FF_1GE_FIXED; itpl_mgmt_only := true |};
         {| itpl_device_type := 30; itpl_name := "xe-0/0/1";
            itpl_form_factor := IFACE_FF_10GE_SFP_PLUS; itpl_mgmt_only := false |};
         {| itpl_device_type := 30; itpl_name := "xe-0/0/0";
            itpl_form_factor := IFACE_FF_10GE_SFP_PLUS; itpl_mgmt_only := false |} ];
     DeviceBayTemplate_objects :=
       [ {| tpl_device_type := 30; tpl_name := "Bay 2" |};
         {| tpl_device_type := 30; tpl_name := "Bay 1" |} ];
     ConsolePort_objects := []; ConsoleServerPort_objects := [];
     PowerPort_objects := []; PowerOutlet_objects := []; Interface_objects := [];
     text_le := String.leb |}.
Definition enclosure_row : Device :=
  {| pk := 1; name := Some "enc1"; asset_tag := None; device_type := enclosure_type;
     rack := rack4; position := Some 1; face := Some RACK_FACE_FRONT |}.
Definition equipped : Database :=
  {| Device_objects := [enclosure_row];
     DeviceBay_objects :=
       [ {| bay_device := 1; bay_name := "Bay 1"; installed_device := None |};
         {| bay_device := 1; bay_name := "Bay 2"; installed_device := None |} ];
     ConsolePortTemplate_objects := [];
     ConsoleServerPortTemplate_objects := [];
     PowerPortTemplate_objects := []; PowerOutletTemplate_objects := [];
     InterfaceTemplate_objects := InterfaceTemplate_objects catalogue;
     DeviceBayTemplate_objects := DeviceBayTemplate_objects catalogue;
     ConsolePort_objects := []; ConsoleServerPort_objects := [];
     PowerPort_objects := []; PowerOutlet_objects := [];
     Interface_objects :=
       [ {| if_device := 1; if_name := "xe-0/0/0"; form_factor := IFACE_FF_10GE_SFP_PLUS;
            mgmt_only := false |};
         {| if_device := 1; if_name := "xe-0/0/1"; form_factor := IFACE_FF_10GE_SFP_PLUS;
            mgmt_only := false |};
         {| if_device := 1; if_name := "fxp0"; form_factor := IFACE_FF_1GE_FIXED;
            mgmt_only := true |} ];
     text_le := String.leb |}.

End Example_templates.

(** ** The sort key of a row, for the statements below *)

(** The columns [order_interfaces] sorts a row on: the primary ordering, then
    [_id1] to [_id4]. *)
Definition ordering_key {A} (sql_col : A → string) (primary_ordering : list (A → Z))
    (row : A) : Result (list (option Z)) :=
  ids ← interface_ids (sql_col row);
  Ok (((λ field, Some (field row)) <$> primary_ordering) ++ ids).

(** ** The trailing number of a name

    [ConsoleServerPortManager.get_queryset] selects [name_as_integer],
    [CAST(substring(name FROM '[0-9]+$') AS INTEGER)].  A pattern without
    parentheses yields the text of the whole match. *)
Definition pattern_name_as_integer : regex := Group 1 (Seq Digits EndOfString).

Definition name_as_integer (name : string) : Result (option Z) :=
  CAST_integer (SUBSTRING name pattern_name_as_integer).

(** The longest run of digits a text ends with. *)
Fixpoint trailing_digits (s : list ascii) : list ascii :=
  match s with
  | [] => []
  | _ :: s' => if forallb is_digit s then s else trailing_digits s'
  end.

Definition trailing_number (name : string) : option (list ascii) :=
  match trailing_digits (String.list_ascii_of_string name) with
  | [] => None
  | ds => Some ds
  end.

(** The value of a run of digits, as [CAST] reads it. *)
Definition decimal (ds : list ascii) : Z :=
  foldl (λ n c, 10 * n + digit_value c) 0 ds.

Definition INT_MAX : Z := 2147483647.

(** A pattern whose groups are all numbered otherwise than 1. *)
Fixpoint no_group1 (r : regex) : bool :=
  match r with
  | Chr _ | Digits | EndOfString => true
  | Seq r1 r2 => no_group1 r1 && no_group1 r2
  | Opt r' => no_group1 r'
  | Group n r' => negb (n =? 1)%nat && no_group1 r'
  end.

(** ** Connections between interfaces

    An [InterfaceConnection] joins two interfaces, each through a one-to-one
    field; the interfaces are named by their keys. *)

Record InterfaceConnection := {
  interface_a : Z;
  interface_b : Z;
  connection_status : bool;
}.

(** The reverse accessor of a one-to-one field, [self.connected_as_a] or
    [self.connected_as_b]: the connection whose field is [self], and
    [DoesNotExist] without one. *)
Definition connected_as (field : InterfaceConnection → Z)
    (objects : list InterfaceConnection) (self : Z) : Result InterfaceConnection :=
  match filter (λ c, field c = self) objects with
  | c :: _ => Ok c
  | [] => Raise (DoesNotExist "InterfaceConnection")
  end.

Definition connected_as_a := connected_as interface_a.
Definition connected_as_b := connected_as interface_b.

(** [try: body / except ObjectDoesNotExist: pass], followed by [rest]; the
    body yields [Some v] where it returns [v] and [None] where it falls
    through. *)
Definition try_return {A} (body : Result (option A)) (rest : Result A) : Result A :=
  match body with
  | Ok (Some v) => Ok v
  | Ok None => rest
  | Raise (DoesNotExist _) => rest
  | Raise e => Raise e
  end.

(** A model instance is true in a condition. *)
Definition instance_truthy {A} (x : A) : bool := true.

(** [Interface.connection] *)
Definition Interface_connection (objects : list InterfaceConnection) (self : Z)
    : Result (option InterfaceConnection) :=
  try_return (c ← connected_as_a objects self; Ok (Some (Some c)))
    (try_return (c ← connected_as_b objects self; Ok (Some (Some c)))
      (Ok None)).

(** [Interface.connected_interface] *)
Definition Interface_connected_interface (objects : list InterfaceConnection) (self : Z)
    : Result (option Z) :=
  try_return
    (c ← connected_as_a objects self;
     if instance_truthy c then
       c ← connected_as_a objects self; Ok (Some (Some (interface_b c)))
     else Ok None)
    (try_return
      (c ← connected_as_b objects self;
       if instance_truthy c then
         c ← connected_as_b objects self; Ok (Some (Some (interface_a c)))
       else Ok None)
      (Ok None)).

(** Two interfaces are joined when a connection has them as its two ends. *)
Definition joined (objects : list InterfaceConnection) (i j : Z) : Prop :=
  ∃ c, c ∈ objects
       ∧ ((interface_a c = i ∧ interface_b c = j)
          ∨ (interface_b c = i ∧ interface_a c = j)).

(** Every interface is an end of at most one connection. *)
Definition one_connection_each (objects : list InterfaceConnection) : Prop :=
  NoDup ((interface_a <$> objects) ++ (interface_b <$> objects)).

#[global] Instance one_connection_each_dec objects : Decision (one_connection_each objects).
Proof. unfold one_connection_each. apply _. Defined.

Module Example_connections.

Definition link (a b : Z) : InterfaceConnection :=
  {| interface_a := a; interface_b := b; connection_status := true |}.

(** Interfaces 1 and 2 are connected, and so are 3 and 4. *)
Definition patched : list InterfaceConnection := [ link 1 2; link 3 4 ].

End Example_connections.

(** * Properties *)

(** ** The removal loops of [get_available_units] *)

Lemma range_elem a b u : u ∈ range a b ↔ a ≤ u < b.
Proof. unfold range. rewrite elem_of_seqZ. lia. Qed.

Lemma range_NoDup a b : NoDup (range a b).
Proof. apply NoDup_seqZ. Qed.

Lemma filter_keeps_all {A} (P : A → Prop) `{∀ x, Decision (P x)} (l : list A) :
  (∀ x, x ∈ l → P x) → filter P l = l.
Proof.
  induction l as [|x l IH]; intros HP; [done|].
  rewrite filter_cons_True by (apply HP; left).
  f_equal. apply IH. intros y Hy. apply HP. by right.
Qed.

Lemma list_remove_absent u l : u ∉ l → list_remove u l = Raise ValueError.
Proof.
  induction l as [|x l IH]; intros Hu; simpl; [done|].
  rewrite not_elem_of_cons in Hu. destruct Hu as [Hne Hl].
  destruct (decide (x = u)) as [->|_]; [done|].
  by rewrite IH.
Qed.

Lemma list_remove_present u l :
  NoDup l → u ∈ l → list_remove u l = Ok (filter (λ x, x ≠ u) l).
Proof.
  induction l as [|x l IH]; intros Hnd Hu; simpl.
  - by apply elem_of_nil in Hu.
  - apply NoDup_cons in Hnd as [Hx Hnd].
    destruct (decide (x = u)) as [->|Hne].
    + rewrite filter_cons_False by (intros ?; done).
      f_equal. symmetry. apply filter_keeps_all.
      intros y Hy ->. done.
    + apply elem_of_cons in Hu as [->|Hu]; [done|].
      rewrite IH by done. simpl. by rewrite filter_cons_True.
Qed.

(** One guarded removal drops [u] if it is there and changes nothing if not. *)
Lemma remove_tolerant u l :
  NoDup l → try_except_ValueError (list_remove u l) l = Ok (filter (λ x, x ≠ u) l).
Proof.
  intros Hnd. destruct (decide (u ∈ l)) as [Hin|Hout].
  - by rewrite list_remove_present.
  - rewrite list_remove_absent by done. simpl. f_equal. symmetry.
    apply filter_keeps_all. intros y Hy ->. done.
Qed.

Lemma remove_span us l :
  NoDup l →
  for_in us (λ units u, try_except_ValueError (list_remove u units) units) l
  = Ok (filter (λ x, x ∉ us) l).
Proof.
  revert l. induction us as [|u us IH]; intros l Hnd; simpl.
  - f_equal. symmetry. apply filter_keeps_all.
    intros y _. apply not_elem_of_nil.
  - rewrite remove_tolerant by done. simpl.
    rewrite IH by (by apply NoDup_filter).
    f_equal. rewrite list_filter_filter. apply list_filter_iff.
    intros y. rewrite not_elem_of_cons. tauto.
Qed.

Lemma remove_devices (rack_face : option Face) ds l :
  NoDup l →
  for_in ds (λ units d,
    if face_consumed rack_face d then
      for_in (device_units d) (λ units u,
        try_except_ValueError (list_remove u units) units) units
    else Ok units) l
  = Ok (filter (λ x, x ∉ ⋃ ((λ d, list_to_set (C:=gset Z) (device_units d))
                            <$> filter (λ d, face_consumed rack_face d = true) ds)) l).
Proof.
  revert l. induction ds as [|d ds IH]; intros l Hnd; simpl.
  - f_equal. symmetry. apply filter_keeps_all.
    intros y _. set_solver.
  - destruct (face_consumed rack_face d) eqn:Hc.
    + rewrite remove_span by done. simpl.
      rewrite IH by (by apply NoDup_filter).
      rewrite filter_cons_True by done. simpl.
      f_equal. rewrite list_filter_filter. apply list_filter_iff.
      intros y. rewrite not_elem_of_union, elem_of_list_to_set. tauto.
    + simpl. rewrite IH by done.
      rewrite filter_cons_False by (rewrite Hc; done). done.
Qed.

(** The free units after the loops are the units outside the union of the
    spans. *)
Lemma get_available_units_unfold objects self h rack_face exclude :
  get_available_units objects self h rack_face exclude
  = Ok (available_over_union objects self h rack_face exclude).
Proof.
  unfold get_available_units.
  rewrite remove_devices by apply range_NoDup. simpl.
  unfold available_over_union. do 2 f_equal.
  fold (consuming_devices objects self rack_face exclude).
  fold (occupied_units objects self rack_face exclude).
  fold (free_units objects self rack_face exclude).
  apply list_filter_iff. intros u. unfold issubset.
  rewrite <- Is_true_true, forallb_True.
  apply Forall_iff. intros v. by rewrite bool_decide_spec.
Qed.

(** ** Order of the result *)

Lemma range_sorted a b : StronglySorted Z.lt (range a b).
Proof.
  unfold range. remember (Z.to_nat (b - a)) as n eqn:Hn.
  revert a Hn. induction n as [|n IH]; intros a Hn.
  - rewrite seqZ_nil by lia. constructor.
  - rewrite seqZ_cons by lia. constructor.
    + replace (Z.pred (b - a)) with (b - Z.succ a) by lia. apply IH. lia.
    + apply Forall_forall. intros y Hy%elem_of_seqZ. lia.
Qed.

Lemma filter_sorted {A} (R : relation A) (P : A → Prop) `{∀ x, Decision (P x)} l :
  StronglySorted R l → StronglySorted R (filter P l).
Proof.
  induction 1 as [|x l Hl IH Hx]; [constructor|].
  rewrite filter_cons. case_decide; [|done].
  constructor; [done|].
  apply Forall_forall. intros y [_ Hy]%list_elem_of_filter.
  rewrite Forall_forall in Hx. by apply Hx.
Qed.

Lemma reverse_sorted {A} (R : relation A) l :
  StronglySorted R l → StronglySorted (flip R) (reverse l).
Proof.
  induction 1 as [|x l Hl IH Hx]; [constructor|].
  rewrite reverse_cons. apply StronglySorted_app_2.
  - intros y z Hy Hz. rewrite elem_of_reverse in Hy.
    apply list_elem_of_singleton in Hz. subst z.
    rewrite Forall_forall in Hx. unfold flip. by apply Hx.
  - done.
  - repeat constructor.
Qed.

Lemma sorted_weaken {A} (R R' : relation A) l :
  (∀ x y, R x y → R' x y) → StronglySorted R l → StronglySorted R' l.
Proof.
  intros HR. induction 1 as [|x l Hl IH Hx]; constructor; [done|].
  eapply Forall_impl; [exact Hx|]. intros y. apply HR.
Qed.

Lemma available_over_union_sorted objects self h rack_face exclude :
  StronglySorted (λ u u', u > u')
    (available_over_union objects self h rack_face exclude).
Proof.
  unfold available_over_union, free_units.
  apply (sorted_weaken (flip Z.lt)); [unfold flip; intros; lia|].
  apply reverse_sorted. do 2 apply filter_sorted. apply range_sorted.
Qed.

(** ** Membership in the result *)

Lemma device_units_elem d v :
  v ∈ device_units d ↔
  ∃ p, position d = Some p ∧ p ≤ v < p + u_height (device_type d).
Proof.
  unfold device_units. destruct (position d) as [p|].
  - rewrite range_elem. split.
    + intros Hv. by exists p.
    + intros (p' & [= <-] & Hv). done.
  - rewrite elem_of_nil. split; [done|]. by intros (p & [=] & _).
Qed.

Lemma occupied_units_elem objects self rack_face exclude v :
  v ∈ occupied_units objects self rack_face exclude ↔
  ∃ d, d ∈ consuming_devices objects self rack_face exclude ∧ v ∈ device_units d.
Proof.
  unfold occupied_units. rewrite elem_of_union_list. split.
  - intros (X & (d & -> & Hd)%list_elem_of_fmap & Hv).
    exists d. split; [done|]. by apply elem_of_list_to_set in Hv.
  - intros (d & Hd & Hv). exists (list_to_set (device_units d)). split.
    + apply list_elem_of_fmap. by exists d.
    + by apply elem_of_list_to_set.
Qed.

Lemma free_units_elem objects self rack_face exclude v :
  v ∈ free_units objects self rack_face exclude ↔
  1 ≤ v ≤ rack_u_height self ∧ v ∉ occupied_units objects self rack_face exclude.
Proof.
  unfold free_units. rewrite list_elem_of_filter, range_elem. intuition lia.
Qed.

Lemma consuming_devices_elem objects self rack_face exclude d :
  d ∈ consuming_devices objects self rack_face exclude ↔
  d ∈ rack_devices objects self ∧ position_gte 1 d ∧ (pk d ∉ exclude)
  ∧ face_consumed rack_face d = true.
Proof. unfold consuming_devices. rewrite !list_elem_of_filter. tauto. Qed.

Lemma face_consumed_spec rack_face d :
  face_consumed rack_face d = true ↔
  rack_face = None ∨ face d = rack_face ∨ is_full_depth (device_type d) = true.
Proof.
  unfold face_consumed. rewrite !orb_true_iff, !bool_decide_eq_true. tauto.
Qed.

(** With every placed device on a face, a unit outside the union of the spans
    is a unit that is free on the face asked for. *)
Lemma unoccupied_free_on objects self rack_face exclude v :
  faces_given objects self →
  v ∉ occupied_units objects self rack_face exclude ↔
  free_on objects self rack_face exclude v.
Proof.
  intros Hfaces. rewrite occupied_units_elem. split.
  - intros Hno d Hd Hex.
    assert (∀ f, (rack_face = None ∨ rack_face = Some f) → ¬ occupies_cell d f v) as Hcell.
    { intros f Hq (p & Hp & Hp1 & Hv & Hf). apply Hno. exists d. split.
      - apply consuming_devices_elem. repeat split; try done.
        + unfold position_gte. by rewrite Hp.
        + apply face_consumed_spec. destruct Hq as [->| ->]; [by left|].
          destruct Hf; [by right; right|by right; left].
      - apply device_units_elem. by exists p. }
    destruct rack_face as [f|]; [apply Hcell; by right|].
    intros f. apply Hcell. by left.
  - intros Hfree (d & (Hd & Hpos & Hex & Hc)%consuming_devices_elem
                    & (p & Hp & Hv)%device_units_elem).
    specialize (Hfree d Hd Hex).
    assert (1 ≤ p) as Hp1 by (unfold position_gte in Hpos; by rewrite Hp in Hpos).
    apply face_consumed_spec in Hc.
    destruct (Hfaces d Hd Hpos) as [f0 Hf0].
    destruct rack_face as [f|].
    + apply Hfree. exists p. repeat split; try done; try lia.
      destruct Hc as [?|[?|?]]; [done|by right|by left].
    + apply (Hfree f0). exists p. repeat split; try done; try lia. by right.
Qed.

Lemma available_over_union_elem objects self h rack_face exclude u :
  1 ≤ h →
  u ∈ available_over_union objects self h rack_face exclude ↔
  1 ≤ u ≤ rack_u_height self ∧
  ∀ v, u ≤ v < u + h →
    1 ≤ v ≤ rack_u_height self ∧ v ∉ occupied_units objects self rack_face exclude.
Proof.
  intros Hh. unfold available_over_union.
  rewrite elem_of_reverse, list_elem_of_filter, Forall_forall.
  setoid_rewrite range_elem. setoid_rewrite free_units_elem. split.
  - intros [Hwin [Hu _]]. split; [done|]. intros v Hv. apply Hwin. lia.
  - intros [Hu Hwin]. split.
    + intros v Hv. apply Hwin. lia.
    + apply Hwin. lia.
Qed.

(** ** Available units *)

(** C1: on a rack whose placements are valid (each positioned device has a
    face) and do not overlap, and for a required height of 1 or more,
    [get_available_units] returns exactly the starting units [u] of the rack
    whose window [u, u + height - 1] lies in the rack and is free on the face
    asked for, the excluded devices set aside, in strictly descending order. *)
Theorem get_available_units_spec objects self h rack_face exclude :
  no_overlap objects self →
  faces_given objects self →
  1 ≤ h →
  ∃ l, get_available_units objects self h rack_face exclude = Ok l
    ∧ (∀ u, u ∈ l ↔
         1 ≤ u ≤ rack_u_height self ∧
         ∀ v, u ≤ v < u + h →
           1 ≤ v ≤ rack_u_height self ∧ free_on objects self rack_face exclude v)
    ∧ StronglySorted (λ u u', u > u') l.
Proof.
  intros _ Hfaces Hh. eexists. split; [apply get_available_units_unfold|]. split.
  - intros u. rewrite available_over_union_elem by done.
    by setoid_rewrite (unoccupied_free_on objects self rack_face exclude _ Hfaces).
  - apply available_over_union_sorted.
Qed.

Lemma get_available_units_spec_witness :
  no_overlap Example.tidy Example.rack4 ∧
  faces_given Example.tidy Example.rack4 ∧
  1 ≤ 2 ∧
  ∃ l, get_available_units Example.tidy Example.rack4 2 (Some RACK_FACE_FRONT) [] = Ok l
    ∧ (∀ u, u ∈ l ↔
         1 ≤ u ≤ rack_u_height Example.rack4 ∧
         ∀ v, u ≤ v < u + 2 →
           1 ≤ v ≤ rack_u_height Example.rack4
           ∧ free_on Example.tidy Example.rack4 (Some RACK_FACE_FRONT) [] v)
    ∧ StronglySorted (λ u u', u > u') l.
Proof.
  assert (no_overlap Example.tidy Example.rack4) as Hno.
  { intros i j d1 d2 f u H1 H2 Hij [(p1 & Hp1 & ? & ? & Hf1) (p2 & Hp2 & ? & ? & Hf2)].
    destruct i as [|[|i]], j as [|[|j]]; simpl in H1, H2;
      try discriminate; try (exfalso; apply Hij; reflexivity);
      injection H1 as <-; injection H2 as <-; simpl in *;
      injection Hp1 as <-; injection Hp2 as <-; lia. }
  assert (faces_given Example.tidy Example.rack4) as Hfaces.
  { intros d Hd _. apply list_elem_of_In in Hd. simpl in Hd.
    destruct Hd as [<-|[<-|[]]]; simpl; eexists; reflexivity. }
  split; [exact Hno|]. split; [exact Hfaces|]. split; [lia|].
  apply get_available_units_spec; [exact Hno|exact Hfaces|lia].
Defined.

(** On that rack the front face offers U3 for a 2U device. *)
Example get_available_units_tidy :
  get_available_units Example.tidy Example.rack4 2 (Some RACK_FACE_FRONT) [] = Ok [3]
  ∧ get_available_units Example.tidy Example.rack4 1 None [] = Ok [3; 1].
Proof. split; vm_compute; reflexivity. Qed.

(** C9: [get_available_units] returns on every state of the table, overlapping
    spans included, and its result is the one computed from the union of the
    spans of the devices it takes into account: a unit covered by several
    devices leaves the free units once, which hold no unit twice. *)
Theorem get_available_units_total objects self h rack_face exclude :
  get_available_units objects self h rack_face exclude
  = Ok (available_over_union objects self h rack_face exclude)
  ∧ NoDup (free_units objects self rack_face exclude)
  ∧ ∀ v, v ∈ free_units objects self rack_face exclude ↔
         1 ≤ v ≤ rack_u_height self ∧
         ∀ d, d ∈ consuming_devices objects self rack_face exclude → v ∉ device_units d.
Proof.
  split; [apply get_available_units_unfold|]. split.
  - unfold free_units. apply NoDup_filter, range_NoDup.
  - intros v. rewrite free_units_elem, occupied_units_elem.
    split; (intros [Hv Hfree]; split; [done|]).
    + intros d Hd Hin. apply Hfree. by exists d.
    + intros (d & Hd & Hin). by apply (Hfree d).
Qed.

(** Two devices covering U2 of the front face: the call returns, U2 is gone
    once. *)
Example get_available_units_overlapping :
  get_available_units Example.overlapping Example.rack4 1 (Some RACK_FACE_FRONT) []
  = Ok [4; 3].
Proof. vm_compute. reflexivity. Qed.

(** ** Utilization *)

Lemma percent_agrees_checked :
  forallb (λ height, forallb (percent_agrees height) (range 0 (height + 1)))
          (range 1 101) = true.
Proof. vm_compute. reflexivity. Qed.

(** Outside [rounded_down] the float arithmetic gives the exact floor. *)
Lemma float_percent_exact height used :
  1 ≤ height ≤ 100 → 0 ≤ used ≤ height → (used, height) ∉ rounded_down →
  float_percent used height = Ok (used * 100 / height).
Proof.
  intros Hh Hu Hslip. pose proof percent_agrees_checked as Hall.
  rewrite <- Is_true_true, forallb_True, Forall_forall in Hall.
  specialize (Hall height). rewrite range_elem in Hall.
  specialize (Hall ltac:(lia)).
  rewrite forallb_True, Forall_forall in Hall.
  specialize (Hall used). rewrite range_elem in Hall.
  specialize (Hall ltac:(lia)). unfold percent_agrees in Hall.
  apply orb_prop_elim in Hall as [Hin|Heq].
  - apply bool_decide_unpack in Hin. done.
  - by apply bool_decide_unpack in Heq.
Qed.

Lemma free_units_length objects self rack_face exclude :
  1 ≤ rack_u_height self →
  0 ≤ Z.of_nat (length (free_units objects self rack_face exclude)) ≤ rack_u_height self.
Proof.
  intros Hh. unfold free_units. split; [lia|].
  etrans; [apply inj_le, length_filter|].
  unfold range. rewrite length_seqZ. lia.
Qed.

(** With a height of 1 every free unit is a starting unit. *)
Lemma available_one objects self rack_face exclude :
  available_over_union objects self 1 rack_face exclude
  = reverse (free_units objects self rack_face exclude).
Proof.
  unfold available_over_union. f_equal. apply filter_keeps_all.
  intros u Hu. apply Forall_forall. intros v Hv%range_elem.
  by replace v with u by lia.
Qed.

Lemma get_utilization_unfold objects self :
  get_utilization objects self
  = float_percent
      (rack_u_height self - Z.of_nat (length (free_units objects self None [])))
      (rack_u_height self).
Proof.
  unfold get_utilization. rewrite get_available_units_unfold. simpl.
  by rewrite available_one, length_reverse.
Qed.

(** C4, as the code has it: on a rack of 1U to 100U, [get_utilization] returns
    [floor((height - F) * 100 / height)], where [F] counts the units that no
    positioned device of the rack covers on either face (the call of
    [get_available_units] with its defaults, no face asked), for every
    occupancy other than the four of [rounded_down]. *)
Theorem get_utilization_spec objects self :
  1 ≤ rack_u_height self ≤ 100 →
  (rack_u_height self - Z.of_nat (length (free_units objects self None [])),
   rack_u_height self) ∉ rounded_down →
  get_utilization objects self
  = Ok ((rack_u_height self - Z.of_nat (length (free_units objects self None []))) * 100
        / rack_u_height self).
Proof.
  intros Hh Hslip. rewrite get_utilization_unfold.
  pose proof (free_units_length objects self None [] ltac:(lia)).
  apply float_percent_exact; [done|lia|done].
Qed.

Lemma get_utilization_spec_witness :
  1 ≤ rack_u_height Example.rack4 ≤ 100 ∧
  ((rack_u_height Example.rack4
      - Z.of_nat (length (free_units Example.tidy Example.rack4 None [])),
    rack_u_height Example.rack4) ∉ rounded_down) ∧
  get_utilization Example.tidy Example.rack4
  = Ok ((rack_u_height Example.rack4
           - Z.of_nat (length (free_units Example.tidy Example.rack4 None []))) * 100
        / rack_u_height Example.rack4).
Proof.
  assert (1 ≤ rack_u_height Example.rack4 ≤ 100) as Hh by (simpl; lia).
  assert ((rack_u_height Example.rack4
             - Z.of_nat (length (free_units Example.tidy Example.rack4 None [])),
           rack_u_height Example.rack4) ∉ rounded_down) as Hslip.
  { intros Hin. apply list_elem_of_In in Hin. vm_compute in Hin.
    repeat destruct Hin as [Hin|Hin]; try discriminate Hin. exact Hin. }
  split; [exact Hh|]. split; [exact Hslip|].
  apply get_utilization_spec; [exact Hh|exact Hslip].
Defined.

(** The rear device at U4 counts: the rack is half used, whereas the front
    face alone has three free units of four, a quarter used. *)
Lemma get_utilization_not_front_face :
  get_utilization Example.tidy Example.rack4 = Ok 50
  ∧ get_utilization Example.tidy Example.rack4
    ≠ Ok ((rack_u_height Example.rack4
             - Z.of_nat (length (free_units Example.tidy Example.rack4
                                   (Some RACK_FACE_FRONT) []))) * 100
          / rack_u_height Example.rack4).
Proof. split; vm_compute; [reflexivity|discriminate]. Qed.

(** 29 units of 100: [0.29 * 100] is [28.999999999999996] in binary64. *)
Example get_utilization_rounded_down :
  get_utilization Example_utilization.one_chassis Example_utilization.rack100 = Ok 28.
Proof. vm_compute. reflexivity. Qed.

(** ** Resizing a rack *)

(** C2 at a rack whose tallest device does not have the greatest position:
    the device at U3 is the one examined, 3U is found enough, and the resize
    to 3U is accepted although the 4U device at U1 reaches U4. *)
Theorem Rack_clean_misses_tall_device :
  Rack_clean Example_resize.installed Example_resize.resized_rack = Ok ()
  ∧ ∃ d p, d ∈ rack_devices Example_resize.installed Example_resize.resized_rack
           ∧ position d = Some p
           ∧ p + u_height (device_type d) - 1 > rack_u_height Example_resize.resized_rack.
Proof.
  split; [vm_compute; reflexivity|].
  exists (Example.device_of 1 Example_resize.half_4u Example_resize.stored_rack
            (Some 1) (Some RACK_FACE_FRONT)), 1.
  split; [|split; [reflexivity|simpl; lia]].
  apply list_elem_of_In. vm_compute. left. reflexivity.
Qed.

#[local] Instance position_desc_total : Total position_desc.
Proof. intros d1 d2. unfold position_desc. lia. Qed.

#[local] Instance position_desc_trans : Transitive position_desc.
Proof. intros d1 d2 d3. unfold position_desc. lia. Qed.

(** What the check looks at: a positioned device of the rack that no other one
    exceeds in position. *)
Lemma top_device_greatest objects self top :
  top_device objects self = Some top →
  top ∈ rack_devices objects self ∧ position top ≠ None
  ∧ ∀ d, d ∈ rack_devices objects self → position d ≠ None →
         default 0 (position d) ≤ default 0 (position top).
Proof.
  unfold top_device. intros Hhead.
  pose proof (StronglySorted_merge_sort position_desc
                (filter (λ d, position d ≠ None) (rack_devices objects self))) as Hsorted.
  pose proof (merge_sort_Permutation position_desc
                (filter (λ d, position d ≠ None) (rack_devices objects self))) as Hperm.
  apply head_Some in Hhead as [rest Hrest]. rewrite Hrest in Hsorted, Hperm.
  assert (top ∈ filter (λ d, position d ≠ None) (rack_devices objects self)) as Htop
    by (rewrite <- Hperm; left).
  apply list_elem_of_filter in Htop as [Hpos Htop].
  split; [done|]. split; [done|]. intros d Hd Hdpos.
  assert (d ∈ top :: rest) as Hin
    by (rewrite Hperm; apply list_elem_of_filter; done).
  apply StronglySorted_cons in Hsorted as [Hall _].
  apply elem_of_cons in Hin as [->|Hin]; [done|].
  rewrite Forall_forall in Hall. by apply Hall.
Qed.

(** The check compares the new height with the top unit of that one device. *)
Lemma Rack_clean_top objects self top :
  truthy (rack_pk self) = true →
  top_device objects self = Some top →
  Rack_clean objects self = Ok ()
  ↔ default 0 (position top) + u_height (device_type top) - 1 ≤ rack_u_height self.
Proof.
  intros Hpk Htop. unfold Rack_clean. rewrite Hpk, Htop.
  case_bool_decide; split; (done || lia).
Qed.

(** The check does reject when the device of greatest position is too tall. *)
Example Rack_clean_rejects :
  Rack_clean Example_resize.installed (Example.rack_of 2 2)
  = Raise (ValidationError "u_height"
      "Rack must be at least 3U tall to house currently installed devices.").
Proof. vm_compute. reflexivity. Qed.

(** ** Elevations *)

Lemma units_NoDup self : NoDup (units self).
Proof.
  unfold units. destruct (desc_units self).
  - apply range_NoDup.
  - rewrite reverse_Permutation. apply range_NoDup.
Qed.

Lemma units_elem self u : u ∈ units self ↔ 1 ≤ u ≤ rack_u_height self.
Proof.
  unfold units. destruct (desc_units self);
    rewrite ?elem_of_reverse, range_elem; lia.
Qed.

Lemma units_length self : length (units self) = Z.to_nat (rack_u_height self).
Proof.
  unfold units, range. destruct (desc_units self);
    rewrite ?length_reverse, length_seqZ; lia.
Qed.

Lemma elevation_of_ext face' us g g' :
  (∀ u, u ∈ us → g u = g' u) → elevation_of face' us g = elevation_of face' us g'.
Proof.
  intros Hg. unfold elevation_of. apply list_fmap_ext.
  intros i u Hu. rewrite Hg; [done|]. by eapply list_elem_of_lookup_2.
Qed.

(** Filling an empty dictionary with fresh keys keeps their order. *)
Lemma od_setitem_fresh {V} (k : Z) (v : V) (od : OrderedDict V) :
  k ∉ od.*1 → od_setitem k v od = od ++ [(k, v)].
Proof.
  induction od as [|[k' v'] od IH]; intros Hk; simpl; [done|].
  simpl in Hk. apply not_elem_of_cons in Hk as [Hne Hk].
  destruct (decide (k' = k)) as [->|_]; [done|]. by rewrite IH.
Qed.

Lemma skeleton_build face' us (od : OrderedDict RackUnit) :
  NoDup (od.*1 ++ us) →
  foldl (λ elevation u, od_setitem u (unit_record face' u None) elevation) od us
  = od ++ elevation_of face' us (λ _, None).
Proof.
  revert od. induction us as [|u us IH]; intros od Hnd; simpl.
  - by rewrite app_nil_r.
  - rewrite od_setitem_fresh.
    + rewrite IH.
      * by rewrite <- app_assoc.
      * rewrite fmap_app. simpl. by rewrite <- app_assoc.
    + apply NoDup_app in Hnd as (_ & Hdisj & _). intros Hin.
      apply (Hdisj u Hin). left.
Qed.

Lemma od_getitem_elevation face' us g u :
  od_getitem u (elevation_of face' us g)
  = if decide (u ∈ us) then Ok (unit_record face' u (g u)) else Raise (KeyError u).
Proof.
  induction us as [|x us IH].
  - rewrite decide_False by apply not_elem_of_nil. done.
  - cbn [elevation_of fmap list_fmap od_getitem]. fold (elevation_of face' us g).
    destruct (decide (x = u)) as [->|Hne].
    + rewrite decide_True by left. done.
    + rewrite IH. destruct (decide (u ∈ us)) as [Hin|Hout].
      * rewrite decide_True by (by right). done.
      * rewrite decide_False; [done|]. rewrite not_elem_of_cons. split; congruence.
Qed.

Lemma od_setitem_elevation face' us g u d :
  NoDup us →
  od_setitem u (unit_record face' u (Some d)) (elevation_of face' us g)
  = if decide (u ∈ us) then elevation_of face' us (write_units d [u] g)
    else elevation_of face' us g ++ [(u, unit_record face' u (Some d))].
Proof.
  induction us as [|x us IH]; intros Hnd.
  - rewrite decide_False by apply not_elem_of_nil. done.
  - apply NoDup_cons in Hnd as [Hx Hnd].
    cbn [elevation_of fmap list_fmap od_setitem]. fold (elevation_of face' us g).
    destruct (decide (x = u)) as [->|Hne].
    + rewrite decide_True by left.
      transitivity ((u, unit_record face' u (write_units d [u] g u))
                    :: elevation_of face' us (write_units d [u] g)); [|done].
      unfold write_units at 1. rewrite decide_True by (by apply list_elem_of_singleton).
      f_equal. apply elevation_of_ext. intros y Hy. unfold write_units.
      rewrite decide_False; [done|]. rewrite list_elem_of_singleton. congruence.
    + rewrite IH by done. destruct (decide (u ∈ us)) as [Hin|Hout].
      * rewrite decide_True by (by right).
        unfold elevation_of. cbn [fmap list_fmap]. f_equal.
        unfold write_units.
        rewrite decide_False by (rewrite list_elem_of_singleton; congruence). done.
      * rewrite decide_False; [done|]. rewrite not_elem_of_cons. split; congruence.
Qed.

Lemma set_unit_device_elevation face' us g u d :
  NoDup us →
  set_unit_device u d (elevation_of face' us g)
  = if decide (u ∈ us) then Ok (elevation_of face' us (write_units d [u] g))
    else Raise (KeyError u).
Proof.
  intros Hnd. unfold set_unit_device. rewrite od_getitem_elevation.
  destruct (decide (u ∈ us)) as [Hin|Hout]; [|done].
  cbn [mbind Result_bind unit_record ru_id ru_name ru_face].
  fold (unit_record face' u (Some d)).
  rewrite od_setitem_elevation by done. by rewrite decide_True.
Qed.
(** The first unit of [ws] that is no key of the dictionary, if any. *)
Lemma first_missing_cons (us : list Z) u ws :
  head (filter (λ u, u ∉ us) (u :: ws))
  = if decide (u ∈ us) then head (filter (λ u, u ∉ us) ws) else Some u.
Proof.
  rewrite filter_cons. destruct (decide (u ∈ us)) as [Hin|Hout].
  - by rewrite decide_False by (intros Hn; by apply Hn).
  - by rewrite decide_True.
Qed.

Lemma write_units_cons d u ws g x :
  write_units d ws (write_units d [u] g) x = write_units d (u :: ws) g x.
Proof.
  unfold write_units. repeat case_decide; try done.
  - exfalso. apply H0. by right.
  - exfalso. apply H1. apply list_elem_of_singleton in H0 as ->. left.
  - exfalso. apply elem_of_cons in H1 as [->|?]; [|done].
    apply H0. by apply list_elem_of_singleton.
Qed.

(** The loop that writes one device on each unit of its span. *)
Lemma write_span face' us d ws g :
  NoDup us →
  for_in ws (λ elevation u, set_unit_device u d elevation) (elevation_of face' us g)
  = match head (filter (λ u, u ∉ us) ws) with
    | None => Ok (elevation_of face' us (write_units d ws g))
    | Some k => Raise (KeyError k)
    end.
Proof.
  intros Hnd. revert g. induction ws as [|u ws IH]; intros g.
  - reflexivity.
  - cbn [for_in]. rewrite set_unit_device_elevation by done.
    rewrite first_missing_cons.
    destruct (decide (u ∈ us)) as [Hin|Hout]; [|done].
    cbn [mbind Result_bind]. rewrite IH.
    destruct (head _); [done|]. f_equal.
    apply elevation_of_ext. intros x _. apply write_units_cons.
Qed.

Lemma place_device_full face' us d g :
  NoDup us →
  place_device false (elevation_of face' us g) d
  = match head (filter (λ u, u ∉ us) (device_units d)) with
    | None => Ok (elevation_of face' us (write_units d (device_units d) g))
    | Some k => Raise (KeyError k)
    end.
Proof.
  intros Hnd. unfold place_device, device_units.
  destruct (position d) as [p|].
  - by apply write_span.
  - reflexivity.
Qed.

Lemma first_missing_app (us : list Z) ws ws' :
  head (filter (λ u, u ∉ us) (ws ++ ws'))
  = match head (filter (λ u, u ∉ us) ws) with
    | Some k => Some k
    | None => head (filter (λ u, u ∉ us) ws')
    end.
Proof.
  rewrite filter_app. by destruct (filter (λ u, u ∉ us) ws).
Qed.

(** The loop over the devices. *)
Lemma place_devices_full face' us ds g :
  NoDup us →
  for_in ds (place_device false) (elevation_of face' us g)
  = match head (filter (λ u, u ∉ us) (ds ≫= device_units)) with
    | None => Ok (elevation_of face' us (write_devices ds g))
    | Some k => Raise (KeyError k)
    end.
Proof.
  intros Hnd. revert g. induction ds as [|d ds IH]; intros g; [done|].
  cbn [for_in mbind list_bind]. rewrite place_device_full by done.
  rewrite first_missing_app.
  destruct (head (filter _ (device_units d))); [done|].
  cbn [mbind Result_bind]. by rewrite IH.
Qed.

Lemma occupant_cons d ds u :
  occupant (d :: ds) u
  = match occupant ds u with
    | Some d' => Some d'
    | None => if decide (u ∈ device_units d) then Some d else None
    end.
Proof.
  unfold occupant. rewrite filter_cons.
  destruct (decide (u ∈ device_units d)); [|by destruct (last _)].
  rewrite last_cons. by destruct (last _).
Qed.

Lemma write_devices_occupant ds g u :
  write_devices ds g u
  = match occupant ds u with
    | Some d => Some d
    | None => g u
    end.
Proof.
  revert g. induction ds as [|d ds IH]; intros g; [done|].
  unfold write_devices in *. cbn [foldl]. rewrite IH, occupant_cons.
  destruct (occupant ds u); [done|]. unfold write_units. by case_decide.
Qed.

(** The elevation without collapsing, in full: a unit of some span that the
    rack does not have is a [KeyError], and otherwise every unit of the rack
    has its record. *)
Lemma get_rack_units_full objects self face' exclude :
  get_rack_units objects self face' exclude false
  = match head (filter (λ u, u ∉ units self)
                  (placed_devices objects self face' exclude ≫= device_units)) with
    | None => Ok (full_elevation objects self face' exclude)
    | Some k => Raise (KeyError k)
    end.
Proof.
  unfold get_rack_units.
  change (λ elevation u, od_setitem u _ elevation)
    with (λ elevation u, od_setitem u (unit_record face' u None) elevation).
  rewrite (skeleton_build face' (units self) []) by apply units_NoDup.
  rewrite app_nil_l.
  assert (for_in (placed_devices objects self face' exclude) (place_device false)
            (elevation_of face' (units self) (λ _, None))
          = if truthy (rack_pk self)
            then for_in (elevation_devices objects self face' exclude) (place_device false)
                   (elevation_of face' (units self) (λ _, None))
            else Ok (elevation_of face' (units self) (λ _, None))) as <-.
  { unfold placed_devices. by destruct (truthy (rack_pk self)). }
  rewrite place_devices_full by apply units_NoDup.
  destruct (head _); cbn [mbind Result_bind]; [done|]. f_equal.
  unfold od_values, elevation_of, full_elevation. rewrite <- list_fmap_compose.
  apply list_fmap_ext. intros i u _. cbn. f_equal.
  rewrite write_devices_occupant. by destruct (occupant _ u).
Qed.

Lemma full_elevation_length objects self face' exclude :
  length (full_elevation objects self face' exclude) = Z.to_nat (rack_u_height self).
Proof. unfold full_elevation. by rewrite length_fmap, units_length. Qed.

Lemma full_elevation_ids objects self face' exclude :
  ru_id <$> full_elevation objects self face' exclude = units self.
Proof.
  unfold full_elevation. rewrite <- list_fmap_compose.
  rewrite <- (list_fmap_id (units self)) at 2. by apply list_fmap_ext.
Qed.

Lemma occupant_None ds u :
  occupant ds u = None ↔ ∀ d, d ∈ ds → u ∉ device_units d.
Proof.
  unfold occupant. rewrite last_None. split.
  - intros Hnone d Hd Hu.
    assert (d ∈ filter (λ d, u ∈ device_units d) ds) as Hin
      by (by apply list_elem_of_filter).
    rewrite Hnone in Hin. by apply elem_of_nil in Hin.
  - intros Hfree. destruct (filter _ ds) as [|d rest] eqn:Hf; [done|].
    assert (d ∈ filter (λ d, u ∈ device_units d) ds) as Hin by (rewrite Hf; left).
    apply list_elem_of_filter in Hin as [Hu Hd]. by destruct (Hfree d Hd).
Qed.

Lemma occupant_Some ds u d :
  occupant ds u = Some d → d ∈ ds ∧ u ∈ device_units d.
Proof.
  unfold occupant. intros Hlast.
  assert (d ∈ filter (λ d, u ∈ device_units d) ds) as Hin.
  { apply last_Some in Hlast as [l' ->]. apply elem_of_app. right. left. }
  apply list_elem_of_filter in Hin. tauto.
Qed.

(** The devices an elevation goes through, spelled out. *)
Lemma placed_devices_elem objects self face' exclude d :
  d ∈ placed_devices objects self face' exclude ↔
  truthy (rack_pk self) = true
  ∧ d ∈ rack_devices objects self ∧ Some (pk d) ≠ exclude
  ∧ position_gte 1 d
  ∧ (face d = Some face' ∨ is_full_depth (device_type d) = true).
Proof.
  unfold placed_devices. destruct (truthy (rack_pk self)).
  - unfold elevation_devices, rack_devices. rewrite !list_elem_of_filter.
    split; [intros (? & ? & ? & ? & ?)|intros (_ & [? ?] & ? & ? & ?)]; tauto.
  - rewrite elem_of_nil. split; [done|]. by intros [? _].
Qed.

(** For such a device, the units of its span are the cells it fills. *)
Lemma placed_occupies objects self face' exclude d u :
  d ∈ placed_devices objects self face' exclude →
  u ∈ device_units d ↔ occupies_cell d face' u.
Proof.
  intros (_ & _ & _ & Hpos & Hface)%placed_devices_elem.
  rewrite device_units_elem. unfold occupies_cell, position_gte in *. split.
  - intros (p & Hp & Hu). rewrite Hp in Hpos. exists p. tauto.
  - intros (p & Hp & _ & Hu & _). by exists p.
Qed.

(** A device of the rack that fills a cell of the face is gone through. *)
Lemma occupies_placed objects self face' exclude d u :
  truthy (rack_pk self) = true →
  d ∈ rack_devices objects self → Some (pk d) ≠ exclude → occupies_cell d face' u →
  d ∈ placed_devices objects self face' exclude.
Proof.
  intros Hpk Hd Hex (p & Hp & Hp1 & _ & Hface). apply placed_devices_elem.
  split_and!; [done..| |tauto]. unfold position_gte. by rewrite Hp.
Qed.

(** C5: on a rack where every cell a device of the rack fills on the
    face lies within the rack, the elevation without collapsing is returned
    and has one record per unit of the rack, in the order of [units], so as
    many records as the rack has units; the record of a unit holds a device of
    the rack that fills the unit on that face, and none exactly when no device
    does, which repeats a device on every unit of its span. *)
Theorem get_rack_units_length objects self face' exclude :
  (∀ d u, d ∈ rack_devices objects self → Some (pk d) ≠ exclude →
          occupies_cell d face' u → u ≤ rack_u_height self) →
  ∃ l, get_rack_units objects self face' exclude false = Ok l
    ∧ length l = Z.to_nat (rack_u_height self)
    ∧ ru_id <$> l = units self
    ∧ (∀ r, r ∈ l → r = unit_record face' (ru_id r) (ru_device r))
    ∧ (truthy (rack_pk self) = true → ∀ r, r ∈ l →
         match ru_device r with
         | Some d => d ∈ rack_devices objects self ∧ Some (pk d) ≠ exclude
                     ∧ occupies_cell d face' (ru_id r)
         | None => ∀ d, d ∈ rack_devices objects self → Some (pk d) ≠ exclude →
                        ¬ occupies_cell d face' (ru_id r)
         end).
Proof.
  intros Hin. exists (full_elevation objects self face' exclude).
  split_and!.
  - rewrite get_rack_units_full.
    destruct (head _) as [k|] eqn:Hk; [exfalso|done].
    apply head_Some_elem_of in Hk.
    apply list_elem_of_filter in Hk as [Hout (d & Hu & Hd)%list_elem_of_bind].
    apply Hout, units_elem.
    pose proof Hd as (_ & Hrack & Hex & _)%placed_devices_elem.
    apply (placed_occupies _ _ _ _ _ _ Hd) in Hu.
    split; [|by apply (Hin d)].
    destruct Hu as (p & _ & ? & ? & _). lia.
  - apply full_elevation_length.
  - apply full_elevation_ids.
  - unfold full_elevation. by intros r (u & -> & _)%list_elem_of_fmap.
  - intros Hpk r (u & -> & Hu)%list_elem_of_fmap. cbn [ru_device ru_id unit_record].
    destruct (occupant _ u) as [d|] eqn:Hocc.
    + apply occupant_Some in Hocc as [Hd Hdu].
      pose proof Hd as (_ & Hrack & Hex & _)%placed_devices_elem.
      split_and!; [done..|]. by apply (placed_occupies _ _ _ _ _ _ Hd).
    + intros d Hd Hex Hcell.
      pose proof (occupies_placed _ _ _ _ _ _ Hpk Hd Hex Hcell) as Hplaced.
      apply (proj1 (occupant_None _ _) Hocc d Hplaced).
      by apply (placed_occupies _ _ _ _ _ _ Hplaced).
Qed.

Lemma get_rack_units_length_witness :
  ∃ l, get_rack_units Example.tidy Example.rack4 RACK_FACE_FRONT None false = Ok l
    ∧ length l = Z.to_nat (rack_u_height Example.rack4)
    ∧ ru_id <$> l = units Example.rack4
    ∧ (∀ r, r ∈ l → r = unit_record RACK_FACE_FRONT (ru_id r) (ru_device r))
    ∧ (truthy (rack_pk Example.rack4) = true → ∀ r, r ∈ l →
         match ru_device r with
         | Some d => d ∈ rack_devices Example.tidy Example.rack4 ∧ Some (pk d) ≠ None
                     ∧ occupies_cell d RACK_FACE_FRONT (ru_id r)
         | None => ∀ d, d ∈ rack_devices Example.tidy Example.rack4 → Some (pk d) ≠ None →
                        ¬ occupies_cell d RACK_FACE_FRONT (ru_id r)
         end).
Proof.
  apply (get_rack_units_length Example.tidy Example.rack4 RACK_FACE_FRONT None).
  intros d u Hd _ (p & Hp & _ & Hu & _).
  apply list_elem_of_In in Hd. vm_compute in Hd.
  change (rack_u_height Example.rack4) with 4.
  destruct Hd as [<-|[<-|[]]]; injection Hp as <-; cbn in Hu; lia.
Defined.

(** On the rack that [Rack.clean] let shrink to 3U around a 4U device, the
    fourth unit of the device is no key of the elevation: no elevation is
    returned, of any length. *)
Lemma get_rack_units_beyond_rack :
  Rack_clean Example_resize.installed Example_resize.resized_rack = Ok ()
  ∧ get_rack_units Example_resize.installed Example_resize.resized_rack
      RACK_FACE_FRONT None false = Raise (KeyError 4)
  ∧ ¬ ∃ l, get_rack_units Example_resize.installed Example_resize.resized_rack
             RACK_FACE_FRONT None false = Ok l
           ∧ length l = Z.to_nat (rack_u_height Example_resize.resized_rack).
Proof.
  assert (get_rack_units Example_resize.installed Example_resize.resized_rack
            RACK_FACE_FRONT None false = Raise (KeyError 4)) as Hraise
    by (vm_compute; reflexivity).
  split; [vm_compute; reflexivity|]. split; [exact Hraise|].
  intros (l & Hl & _). rewrite Hraise in Hl. discriminate.
Qed.

(** The 4U rack of the example, front face: U2 holds the device, the other
    three units are empty, top unit first. *)
Example get_rack_units_tidy :
  get_rack_units Example.tidy Example.rack4 RACK_FACE_FRONT None false
  = Ok [ unit_record RACK_FACE_FRONT 4 None;
         unit_record RACK_FACE_FRONT 3 None;
         unit_record RACK_FACE_FRONT 2
           (Some (Example.device_of 1 Example.half_1u Example.rack4 (Some 2)
                    (Some RACK_FACE_FRONT)));
         unit_record RACK_FACE_FRONT 1 None ].
Proof. vm_compute. reflexivity. Qed.

(** C3 on two overlapping devices of the front face, a 2U device at U1 and a
    1U device at U2, in that order: the collapsed elevation drops U2 for the
    first device and then fails to find it for the second, a [KeyError]; the
    full elevation gives U2 to the device written last. *)
Theorem get_rack_units_overlap_raises :
  get_rack_units Example.overlapping Example.rack4 RACK_FACE_FRONT None true
  = Raise (KeyError 2)
  ∧ get_front_elevation Example.overlapping Example.rack4 = Raise (KeyError 2)
  ∧ ru_device <$> full_elevation Example.overlapping Example.rack4 RACK_FACE_FRONT None
    = [ None; None;
        Some (Example.device_of 2 Example.half_1u Example.rack4 (Some 2)
                (Some RACK_FACE_FRONT));
        Some (Example.device_of 1 Example.half_2u Example.rack4 (Some 1)
                (Some RACK_FACE_FRONT)) ].
Proof. repeat split; vm_compute; reflexivity. Qed.

(** The other order of the same two devices renders. *)
Example get_rack_units_overlap_other_order :
  get_rack_units (reverse Example.overlapping) Example.rack4 RACK_FACE_FRONT None true
  = Ok [ unit_record RACK_FACE_FRONT 4 None;
         unit_record RACK_FACE_FRONT 3 None;
         unit_record RACK_FACE_FRONT 1
           (Some (Example.device_of 1 Example.half_2u Example.rack4 (Some 1)
                    (Some RACK_FACE_FRONT))) ].
Proof. vm_compute. reflexivity. Qed.

(** ** Ordering of interface names *)

(** A name that ends in digits has a third field even without a slot path. *)
Example interface_ids_vlan10 : interface_ids "vlan10" = Ok [None; None; Some 10; None].
Proof. vm_compute. reflexivity. Qed.

Example interface_ids_subchannel :
  interface_ids "xe-0/1/1:3" = Ok [Some 0; Some 1; Some 1; Some 3].
Proof. vm_compute. reflexivity. Qed.

(** The three VLAN names do not come out in lexical order. *)
Lemma order_interfaces_vlans_not_lexical :
  order_interfaces Example_names.vlans id [] ≠ Ok ["vlan1"; "vlan10"; "vlan2"].
Proof. vm_compute. discriminate. Qed.

(** C6, as the code has it: the ten names of the docstring come out in the
    listed order, from that order as from the reverse one, and their keys are
    strictly increasing, so that no tie is left to the database; the names
    vlan10, vlan1, vlan2 have the keys (NULL, NULL, 10, NULL), (NULL, NULL, 1,
    NULL) and (NULL, NULL, 2, NULL) and come out in numeric order. *)
Theorem order_interfaces_examples :
  order_interfaces Example_names.slotted id [] = Ok Example_names.slotted
  ∧ order_interfaces (reverse Example_names.slotted) id [] = Ok Example_names.slotted
  ∧ (∃ keys, for_each interface_ids Example_names.slotted = Ok keys
             ∧ StronglySorted ordering_lt keys)
  ∧ for_each interface_ids Example_names.vlans
    = Ok [ [None; None; Some 10; None]; [None; None; Some 1; None];
           [None; None; Some 2; None] ]
  ∧ order_interfaces Example_names.vlans id [] = Ok ["vlan1"; "vlan2"; "vlan10"].
Proof.
  split; [vm_compute; reflexivity|]. split; [vm_compute; reflexivity|].
  split; [|split; vm_compute; reflexivity].
  eexists. split; [vm_compute; reflexivity|].
  eapply (bool_decide_unpack _). vm_compute. exact I.
Qed.

(** ** Placing a device *)

Lemma exclude_list_saved self k :
  self_pk self = Some k → k ≠ 0 → exclude_list self = [k].
Proof.
  intros Hk Hne. unfold exclude_list, truthy. rewrite Hk.
  by rewrite bool_decide_eq_true_2.
Qed.

Lemma exclude_list_unsaved self : self_pk self = None → exclude_list self = [].
Proof. intros Hk. unfold exclude_list. by rewrite Hk. Qed.

(** C7, as the code has it, for a device with its type and its rack set, a
    position counting as set when it is neither null nor 0: validation fails on
    [face] when the position is set without a face; fails when the type is a
    child type and the position or the face is set; and otherwise succeeds
    exactly when the position is not set or is one of the available units of
    the rack for the height of the type, the face of the device (none for a
    full-depth type) and the device itself excluded, failing on [position] if
    not. *)
Theorem Device_clean_spec objects self dt r :
  self_device_type self = Some dt →
  self_rack self = Some r →
  ∃ available,
    get_available_units objects r (u_height dt)
      (if is_full_depth dt then None else self_face self) (exclude_list self)
    = Ok available
    ∧ if truthy (self_position self) && bool_decide (self_face self = None) then
        ∃ msg, Device_clean objects self = Raise (ValidationError "face" msg)
      else if is_child_device dt
              && (truthy (self_position self) || bool_decide (self_face self ≠ None)) then
        ∃ msg, Device_clean objects self = Raise (ValidationError "face" msg)
      else if negb (truthy (self_position self))
              || member (self_position self) available then
        Device_clean objects self = Ok ()
      else
        ∃ msg, Device_clean objects self = Raise (ValidationError "position" msg).
Proof.
  intros Hdt Hr. eexists. split; [apply get_available_units_unfold|].
  unfold Device_clean. rewrite Hdt, Hr. cbn [related mbind Result_bind].
  destruct (truthy (self_position self)) eqn:Hpos;
    destruct (bool_decide (self_face self = None)) eqn:Hface;
    cbn [andb orb negb mbind Result_bind].
  - by eexists.
  - assert (bool_decide (self_face self ≠ None) = true) as ->.
    { apply bool_decide_eq_true. by apply bool_decide_eq_false in Hface. }
    destruct (is_child_device dt) eqn:Hchild; cbn [andb orb mbind Result_bind].
    + by eexists.
    + replace (if negb (is_full_depth dt) then self_face self else None)
        with (if is_full_depth dt then None else self_face self)
        by (by destruct (is_full_depth dt)).
      rewrite get_available_units_unfold. cbn [mbind Result_bind].
      destruct (member _ _); cbn [negb]; [done|]. by eexists.
  - assert (bool_decide (self_face self ≠ None) = false) as ->.
    { apply bool_decide_eq_false. apply bool_decide_eq_true in Hface. by intros []. }
    rewrite !andb_false_r. cbn [mbind Result_bind].
    by rewrite get_available_units_unfold.
  - assert (bool_decide (self_face self ≠ None) = true) as ->.
    { apply bool_decide_eq_true. by apply bool_decide_eq_false in Hface. }
    destruct (is_child_device dt) eqn:Hchild; cbn [andb orb mbind Result_bind].
    + by eexists.
    + by rewrite get_available_units_unfold.
Qed.

Lemma Device_clean_spec_witness :
  self_device_type Example_placement.newcomer = Some Example.half_1u ∧
  self_rack Example_placement.newcomer = Some Example.rack4 ∧
  ∃ available,
    get_available_units Example.tidy Example.rack4 (u_height Example.half_1u)
      (if is_full_depth Example.half_1u then None
       else self_face Example_placement.newcomer)
      (exclude_list Example_placement.newcomer)
    = Ok available
    ∧ if truthy (self_position Example_placement.newcomer)
         && bool_decide (self_face Example_placement.newcomer = None) then
        ∃ msg, Device_clean Example.tidy Example_placement.newcomer
               = Raise (ValidationError "face" msg)
      else if is_child_device Example.half_1u
              && (truthy (self_position Example_placement.newcomer)
                  || bool_decide (self_face Example_placement.newcomer ≠ None)) then
        ∃ msg, Device_clean Example.tidy Example_placement.newcomer
               = Raise (ValidationError "face" msg)
      else if negb (truthy (self_position Example_placement.newcomer))
              || member (self_position Example_placement.newcomer) available then
        Device_clean Example.tidy Example_placement.newcomer = Ok ()
      else
        ∃ msg, Device_clean Example.tidy Example_placement.newcomer
               = Raise (ValidationError "position" msg).
Proof.
  split; [reflexivity|]. split; [reflexivity|].
  apply Device_clean_spec; reflexivity.
Defined.

(** U3 of the front face is free, U2 is taken. *)
Example Device_clean_newcomer :
  Device_clean Example.tidy Example_placement.newcomer = Ok ()
  ∧ Device_clean Example.tidy
      (Example_placement.instance_of None Example.half_1u Example.rack4 (Some 2)
         (Some RACK_FACE_FRONT))
    = Raise (ValidationError "position"
        "U2 is already occupied or does not have sufficient space to accommodate a(n) T1 (1U).").
Proof. split; vm_compute; reflexivity. Qed.

(** Position 0 is a value of the column, yet it passes for no position: no
    face is asked for, and 0 is accepted although it is no available unit. *)
Lemma Device_clean_position_zero :
  (self_position Example_placement.zero_faceless = Some 0
   ∧ self_face Example_placement.zero_faceless = None
   ∧ Device_clean Example.tidy Example_placement.zero_faceless = Ok ())
  ∧ (self_position Example_placement.zero_front = Some 0
     ∧ get_available_units Example.tidy Example.rack4 1 (Some RACK_FACE_FRONT) []
       = Ok [4; 3; 1]
     ∧ Device_clean Example.tidy Example_placement.zero_front = Ok ()).
Proof. repeat split; vm_compute; reflexivity. Qed.

(** Without a device type, or without a rack, only the first check applies. *)
Lemma Device_clean_unset_relation objects self :
  self_device_type self = None ∨
  (self_rack self = None ∧ ∃ dt, self_device_type self = Some dt ∧ is_child_device dt = false) →
  Device_clean objects self
  = if truthy (self_position self) && bool_decide (self_face self = None) then
      Raise (ValidationError "face" "Must specify rack face when defining rack position.")
    else Ok ().
Proof.
  intros [Hdt|[Hr (dt & Hdt & Hchild)]]; unfold Device_clean; rewrite Hdt;
    destruct (truthy (self_position self) && bool_decide (self_face self = None));
    try done.
  cbn [related mbind Result_bind]. rewrite Hr, Hchild. done.
Qed.

(** ** Growing a device type *)

Lemma member_spec x l : member x l = true ↔ ∃ p, x = Some p ∧ p ∈ l.
Proof.
  unfold member. destruct x as [p|].
  - rewrite bool_decide_eq_true. split; [by exists p|by intros (? & [= <-] & ?)].
  - split; [done|by intros (? & [=] & _)].
Qed.

Lemma has_room_member db self d :
  has_room db self d ↔
  member (position d)
    (available_over_union (Device_objects db) (rack d) (u_height self)
       (if is_full_depth self then None else face d) [pk d]) = true.
Proof.
  unfold has_room. rewrite member_spec. setoid_rewrite get_available_units_unfold.
  split.
  - intros (l & p & [= <-] & Hp & Hin). by exists p.
  - intros (p & Hp & Hin). by eexists _, p.
Qed.

Lemma instances_with_position_elem db self d :
  dt_pk self ≠ None →
  d ∈ instances_with_position db self ↔ positioned_instance db self d.
Proof.
  intros Hpk. unfold instances_with_position, positioned_instance.
  rewrite list_elem_of_filter, <- !not_eq_None_Some. tauto.
Qed.

Lemma check_room_to_expand_error db self d :
  (has_room db self d ∧ check_room_to_expand db self () d = Ok ())
  ∨ (¬ has_room db self d
     ∧ check_room_to_expand db self () d = Raise (no_room_error self d)).
Proof.
  unfold check_room_to_expand. rewrite get_available_units_unfold.
  cbn [mbind Result_bind]. rewrite has_room_member.
  destruct (member _ _); cbn [negb]; [by left|by right].
Qed.

(** The loop stops at the first instance without room, with its error. *)
Lemma room_loop_error db self ds :
  (Forall (has_room db self) ds ∧ for_in ds (check_room_to_expand db self) () = Ok ())
  ∨ (∃ d, d ∈ ds ∧ ¬ has_room db self d
          ∧ for_in ds (check_room_to_expand db self) () = Raise (no_room_error self d)).
Proof.
  induction ds as [|d ds IH]; [by left|]. cbn [for_in].
  destruct (check_room_to_expand_error db self d) as [[Hd ->]|[Hd ->]];
    cbn [mbind Result_bind].
  - destruct IH as [[Hall ->]|(d' & Hin & Hd' & ->)].
    + left. by split; [constructor|].
    + right. exists d'. split; [by right|done].
  - right. exists d. split; [by left|done].
Qed.

(** When the height is raised the first block of [DeviceType.clean] is the
    loop over the instances. *)
Lemma DeviceType_clean_loop db self :
  dt_pk self ≠ None →
  u_height self > _original_u_height self →
  (∀ e, for_in (instances_with_position db self) (check_room_to_expand db self) ()
        = Raise e → DeviceType_clean db self = Raise e)
  ∧ (for_in (instances_with_position db self) (check_room_to_expand db self) () = Ok () →
     DeviceType_clean db self = DeviceType_clean db (same_height self)).
Proof.
  intros Hpk Hgrow. unfold DeviceType_clean.
  rewrite (bool_decide_eq_false_2 (u_height (same_height self)
                                   > _original_u_height (same_height self)))
    by (cbn; lia).
  rewrite (bool_decide_eq_true_2 (dt_pk self ≠ None)) by done.
  rewrite (bool_decide_eq_true_2 (u_height self > _original_u_height self)) by done.
  rewrite andb_false_r. cbn [andb].
  split; [intros e ->|intros ->]; done.
Qed.

(** Without a raise of the height the first block is skipped, and no later
    check gives the error of the height check. *)
Lemma DeviceType_clean_same_height db self d :
  DeviceType_clean db (same_height self) ≠ Raise (no_room_error self d).
Proof.
  unfold DeviceType_clean, no_room_error.
  rewrite (bool_decide_eq_false_2 (u_height (same_height self)
                                   > _original_u_height (same_height self)))
    by (cbn; lia).
  rewrite andb_false_r. cbn [mbind Result_bind]. intros Herr.
  repeat match type of Herr with
         | context [if ?c then Raise _ else Ok ()] =>
             destruct c; cbn [mbind Result_bind] in Herr
         end;
    first [discriminate Herr
          |injection Herr as Hfield Hmsg; cbn in Hfield, Hmsg; discriminate].
Qed.

(** C8: when the height of an existing device type is raised,
    [DeviceType.clean] fails with the error of insufficient space, on
    [u_height], if and only if some device of that type with a position does
    not have its position among the units available in its own rack for the
    new height, on its face (none for a full-depth type), the device itself
    excluded; the error then names such a device.  When every such device has
    room, the verdict of [clean] is that of its other checks. *)
Theorem DeviceType_clean_growth db self :
  dt_pk self ≠ None →
  u_height self > _original_u_height self →
  ((∃ d, positioned_instance db self d ∧ ¬ has_room db self d) ↔
   ∃ d, DeviceType_clean db self = Raise (no_room_error self d))
  ∧ ((∃ d, positioned_instance db self d ∧ ¬ has_room db self d) →
     ∃ d, positioned_instance db self d ∧ ¬ has_room db self d
          ∧ DeviceType_clean db self = Raise (no_room_error self d))
  ∧ ((∀ d, positioned_instance db self d → has_room db self d) →
     DeviceType_clean db self = DeviceType_clean db (same_height self)).
Proof.
  intros Hpk Hgrow.
  destruct (DeviceType_clean_loop db self Hpk Hgrow) as [Hfail Hpass].
  destruct (room_loop_error db self (instances_with_position db self))
    as [[Hall Hloop]|(d & Hd & Hroom & Hloop)].
  - rewrite Forall_forall in Hall.
    assert (∀ d, positioned_instance db self d → has_room db self d) as Hall'.
    { intros d Hd. by apply Hall, instances_with_position_elem. }
    pose proof (Hpass Hloop) as Hsame.
    split_and!.
    + split.
      * intros (d & Hd & Hno). by destruct Hno; apply Hall'.
      * intros [d Hd]. rewrite Hsame in Hd.
        by apply DeviceType_clean_same_height in Hd.
    + intros (d & Hd & Hno). by destruct Hno; apply Hall'.
    + done.
  - apply instances_with_position_elem in Hd; [|done].
    pose proof (Hfail _ Hloop) as Hclean.
    split_and!.
    + split; [by exists d|by exists d].
    + by exists d.
    + intros Hall. by destruct Hroom; apply Hall.
Qed.

(** The instance at U42 of the 42U rack: U43 is no unit of the rack, so 42 is
    no available unit for 2U, and the growth to 2U is refused. *)
Lemma DeviceType_clean_growth_witness :
  dt_pk Example_growth.edited_type ≠ None ∧
  u_height Example_growth.edited_type > _original_u_height Example_growth.edited_type ∧
  positioned_instance Example_growth.stored Example_growth.edited_type
    Example_growth.top_of_rack ∧
  ¬ has_room Example_growth.stored Example_growth.edited_type Example_growth.top_of_rack ∧
  ∃ d, positioned_instance Example_growth.stored Example_growth.edited_type d
       ∧ ¬ has_room Example_growth.stored Example_growth.edited_type d
       ∧ DeviceType_clean Example_growth.stored Example_growth.edited_type
         = Raise (no_room_error Example_growth.edited_type d).
Proof.
  assert (dt_pk Example_growth.edited_type ≠ None) as Hpk by discriminate.
  assert (u_height Example_growth.edited_type
          > _original_u_height Example_growth.edited_type) as Hgrow by reflexivity.
  assert (positioned_instance Example_growth.stored Example_growth.edited_type
            Example_growth.top_of_rack) as Hin.
  { split; [apply list_elem_of_In; vm_compute; left; reflexivity|].
    split; [reflexivity|by eexists]. }
  assert (¬ has_room Example_growth.stored Example_growth.edited_type
            Example_growth.top_of_rack) as Hroom.
  { rewrite has_room_member. vm_compute. discriminate. }
  split; [exact Hpk|]. split; [exact Hgrow|]. split; [exact Hin|]. split; [exact Hroom|].
  destruct (DeviceType_clean_growth Example_growth.stored Example_growth.edited_type
              Hpk Hgrow) as (_ & Hfails & _).
  exact (Hfails (ex_intro _ Example_growth.top_of_rack (conj Hin Hroom))).
Defined.

(** The console server of the example has room to grow to 2U, and the edit is
    refused all the same, for its port template: validation fails although no
    instance lacks room. *)
Lemma DeviceType_clean_fails_with_room :
  (dt_pk Example_declassified.edited_type ≠ None
   ∧ u_height Example_declassified.edited_type
     > _original_u_height Example_declassified.edited_type)
  ∧ (∃ e, DeviceType_clean Example_declassified.stored Example_declassified.edited_type
          = Raise e)
  ∧ ¬ ∃ d, positioned_instance Example_declassified.stored
             Example_declassified.edited_type d
           ∧ ¬ has_room Example_declassified.stored Example_declassified.edited_type d.
Proof.
  split; [split; [discriminate|reflexivity]|]. split.
  - eexists. vm_compute. reflexivity.
  - intros (d & (Hd & _) & Hroom). apply Hroom.
    apply list_elem_of_In in Hd. vm_compute in Hd. destruct Hd as [<-|[]].
    rewrite has_room_member. vm_compute. reflexivity.
Qed.

Example DeviceType_clean_top_of_rack :
  get_available_units (Device_objects Example_growth.stored) Example_growth.rack42 2
    None [1] = Ok (reverse (range 1 42))
  ∧ DeviceType_clean Example_growth.stored Example_growth.edited_type
    = Raise (ValidationError "u_height"
        "Device d1 in rack R5 does not have sufficient space to accommodate a height of 2U").
Proof. split; vm_compute; reflexivity. Qed.

(** ** Saving a device *)

Lemma Model_save_unfold db self db1 saved :
  Model_save db self = Ok (db1, saved) →
  self_rack self = Some (rack saved)
  ∧ DeviceBay_objects db1 = DeviceBay_objects db
  ∧ saved ∈ Device_objects db1
  ∧ ∀ d, d ∈ Device_objects db1 → pk d ≠ pk saved → d ∈ Device_objects db.
Proof.
  unfold Model_save. destruct (self_device_type self) as [dt|]; [|done].
  destruct (self_rack self) as [r|]; [|done].
  set (k := default (next_pk (Device_objects db)) (self_pk self)).
  set (row := Build_Device k _ _ _ _ _ _).
  set (rows' := if bool_decide (k ∈ pk <$> Device_objects db) then _ else _).
  destruct (decide (constraints_hold rows')) as [_|_]; [|done].
  intros [= <- <-]. split; [done|]. split; [done|]. subst rows'.
  destruct (bool_decide (k ∈ pk <$> Device_objects db)) eqn:Hk; cbn.
  - apply bool_decide_eq_true in Hk. split.
    + apply list_elem_of_fmap in Hk as (d & Hd & Hin).
      apply list_elem_of_fmap. exists d. split; [|done].
      by rewrite decide_True.
    + intros d (d0 & -> & Hin)%list_elem_of_fmap Hne.
      destruct (decide (pk d0 = k)); [done|done].
  - split.
    + apply elem_of_app. right. by apply list_elem_of_singleton.
    + intros d [Hin|Hin%list_elem_of_singleton]%elem_of_app Hne; [done|].
      by subst d.
Qed.

(** The components are created beside the devices, and the new bays are
    empty: they house no device. *)
Lemma create_components_Ok saved db db2 :
  create_components saved db = Ok db2 →
  Device_objects db2 = Device_objects db
  ∧ ∀ parent d, in_bay_of db2 parent d ↔ in_bay_of db parent d.
Proof.
  unfold create_components.
  destruct (interface_templates_all db (device_type saved)) as [ts|]; [|done].
  cbn [mbind Result_bind]. intros [= <-]. split; [done|].
  intros parent d. unfold in_bay_of. cbn [DeviceBay_objects].
  rewrite Exists_app. split; [|by left]. intros [?|Hnew]; [done|].
  apply Exists_exists in Hnew as (b & (t & -> & _)%list_elem_of_fmap & [=] & _).
Qed.

Lemma components_step (is_new : bool) saved db db2 :
  (if is_new then create_components saved db else Ok db) = Ok db2 →
  Device_objects db2 = Device_objects db
  ∧ ∀ parent d, in_bay_of db2 parent d ↔ in_bay_of db parent d.
Proof.
  destruct is_new; [apply create_components_Ok|]. by intros [= <-].
Qed.

Lemma in_bay_of_pk db parent d d' :
  pk d = pk d' → in_bay_of db parent d ↔ in_bay_of db parent d'.
Proof. intros Hpk. unfold in_bay_of. by rewrite Hpk. Qed.

(** C10, the part the code has: once [save] of a device has returned, every
    device housed in one of its bays is in the rack of the saved device, and is
    otherwise the row it was before the save (its other columns unchanged);
    the devices housed elsewhere are left as they were. *)
Theorem Device_save_children db self db' saved :
  Device_save db self = Ok (db', saved) →
  self_rack self = Some (rack saved)
  ∧ saved ∈ Device_objects db'
  ∧ (∀ c, c ∈ get_children db' saved →
       rack c = rack saved
       ∧ (pk c ≠ pk saved →
          ∃ c0, c0 ∈ Device_objects db ∧ c = with_rack (rack saved) c0))
  ∧ (∀ d, d ∈ Device_objects db' → pk d ≠ pk saved → d ∉ get_children db' saved →
       d ∈ Device_objects db).
Proof.
  unfold Device_save. destruct (Model_save db self) as [[db1 saved1]|] eqn:Hbase; [|done].
  cbn [mbind Result_bind].
  destruct (if negb (truthy (self_pk self)) then create_components saved1 db1 else Ok db1)
    as [db2|] eqn:Hcomp; [|done].
  cbn [mbind Result_bind].
  apply components_step in Hcomp as [Hrows Hbay].
  specialize (Hbay (pk saved1)).
  destruct (decide (constraints_hold _)) as [_|_]; [|done].
  intros [= <- <-].
  apply Model_save_unfold in Hbase as (Hrack & _ & Hsaved & Hold).
  set (move := λ d, if decide (in_bay_of db2 (pk saved1) d)
                    then with_rack (rack saved1) d else d).
  assert (∀ d, pk (move d) = pk d) as Hmove_pk
    by (intros d; unfold move; by destruct (decide _)).
  assert (∀ c, in_bay_of (with_devices (move <$> Device_objects db2) db2) (pk saved1) c
               ↔ in_bay_of db2 (pk saved1) c) as Hbay' by done.
  split; [done|]. split; [|split].
  - cbn. apply list_elem_of_fmap. exists saved1. split; [|by rewrite Hrows].
    unfold move. destruct (decide _); [by destruct saved1|done].
  - intros c [Hc (d & -> & Hd)%list_elem_of_fmap]%list_elem_of_filter.
    apply Hbay' in Hc. rewrite (in_bay_of_pk _ _ _ d) in Hc by apply Hmove_pk.
    unfold move. rewrite decide_True by done. split; [done|].
    cbn [with_rack pk]. intros Hne. exists d. split; [|done].
    apply Hold; [by rewrite <- Hrows|done].
  - intros c (d & -> & Hd)%list_elem_of_fmap Hne Hnot.
    rewrite Hmove_pk in Hne.
    assert (¬ in_bay_of db2 (pk saved1) d) as Hout.
    { intros Hin. apply Hnot. apply list_elem_of_filter. split.
      - apply Hbay'. by rewrite (in_bay_of_pk _ _ _ d) by apply Hmove_pk.
      - cbn. apply list_elem_of_fmap. by exists d. }
    unfold move. rewrite decide_False by done.
    apply Hold; [by rewrite <- Hrows|done].
Qed.

Lemma Device_save_children_witness :
  Device_save Example_bays.housed Example_bays.chassis_moved
  = Ok (Example_bays_saved.rehoused, Example_bays_saved.chassis_in_b)
  ∧ self_rack Example_bays.chassis_moved = Some (rack Example_bays_saved.chassis_in_b)
  ∧ Example_bays_saved.chassis_in_b ∈ Device_objects Example_bays_saved.rehoused
  ∧ (∀ c, c ∈ get_children Example_bays_saved.rehoused Example_bays_saved.chassis_in_b →
       rack c = rack Example_bays_saved.chassis_in_b
       ∧ (pk c ≠ pk Example_bays_saved.chassis_in_b →
          ∃ c0, c0 ∈ Device_objects Example_bays.housed
                ∧ c = with_rack (rack Example_bays_saved.chassis_in_b) c0))
  ∧ (∀ d, d ∈ Device_objects Example_bays_saved.rehoused →
       pk d ≠ pk Example_bays_saved.chassis_in_b →
       d ∉ get_children Example_bays_saved.rehoused Example_bays_saved.chassis_in_b →
       d ∈ Device_objects Example_bays.housed).
Proof.
  assert (Device_save Example_bays.housed Example_bays.chassis_moved
          = Ok (Example_bays_saved.rehoused, Example_bays_saved.chassis_in_b)) as Hsave
    by (vm_compute; reflexivity).
  split; [exact Hsave|].
  exact (Device_save_children _ _ _ _ Hsave).
Defined.

(** The blade of the example follows its chassis into rack B. *)
Example Device_save_moves_blade :
  get_children Example_bays_saved.rehoused Example_bays_saved.chassis_in_b
  = [Example_bays_saved.blade_in_b]
  ∧ rack Example_bays_saved.blade_in_b = Example_bays.rack_b.
Proof. split; vm_compute; reflexivity. Qed.

(** Saving the housed device itself with another rack is accepted and leaves
    its parent where it was: after this save the child is in rack B and its
    parent in rack A. *)
Lemma Device_save_child_leaves_parent :
  Device_save Example_bays.housed Example_bays.blade_moved
  = Ok (Example_bays_saved.split_up, Example_bays_saved.blade_in_b)
  ∧ Example_bays.chassis ∈ Device_objects Example_bays_saved.split_up
  ∧ Example_bays_saved.blade_in_b
      ∈ get_children Example_bays_saved.split_up Example_bays.chassis
  ∧ rack Example_bays_saved.blade_in_b ≠ rack Example_bays.chassis.
Proof.
  split; [vm_compute; reflexivity|].
  split; [apply list_elem_of_In; vm_compute; left; reflexivity|].
  split; [apply list_elem_of_In; vm_compute; left; reflexivity|].
  vm_compute. discriminate.
Qed.

(** A new device gets the components of its type and has no child. *)
Lemma Device_save_new_has_no_child db self db' saved :
  self_pk self = None →
  Device_save db self = Ok (db', saved) →
  (∀ b, b ∈ DeviceBay_objects db → bay_device b ≠ pk saved) →
  get_children db' saved = [].
Proof.
  intros Hnew Hsave Hfresh. apply elem_of_nil_inv. intros c.
  intros [Hc _]%list_elem_of_filter. revert Hsave Hc.
  unfold Device_save. rewrite Hnew. cbn [truthy negb].
  destruct (Model_save db self) as [[db1 saved1]|] eqn:Hbase; [|done].
  cbn [mbind Result_bind].
  destruct (create_components saved1 db1) as [db2|] eqn:Hcomp; [|done].
  cbn [mbind Result_bind].
  destruct (decide (constraints_hold _)) as [_|_]; [|done].
  intros [= <- <-].
  apply Model_save_unfold in Hbase as (_ & Hbays & _).
  apply create_components_Ok in Hcomp as [_ Hbay].
  change (in_bay_of db2 (pk saved1) c → False).
  rewrite Hbay. unfold in_bay_of. rewrite Hbays.
  intros (b & Hb & _ & Hparent)%Exists_exists. by apply (Hfresh b).
Qed.

(** * Further properties *)

(** ** Availability: what a query depends on *)

Lemma rack_devices_filter objects self (P : Device → Prop) `{∀ d, Decision (P d)} :
  rack_devices (filter P objects) self = filter P (rack_devices objects self).
Proof.
  unfold rack_devices. rewrite !list_filter_filter. apply list_filter_iff. tauto.
Qed.

Lemma consuming_devices_filter objects self rack_face exclude
    (P : Device → Prop) `{∀ d, Decision (P d)} :
  consuming_devices (filter P objects) self rack_face exclude
  = filter P (consuming_devices objects self rack_face exclude).
Proof.
  unfold consuming_devices. rewrite rack_devices_filter.
  rewrite !list_filter_filter. apply list_filter_iff. tauto.
Qed.

(** The result is a function of the devices taken into account. *)
Lemma available_over_union_devices objects objects' self self' h rack_face rack_face'
    exclude exclude' :
  rack_u_height self = rack_u_height self' →
  consuming_devices objects self rack_face exclude
  = consuming_devices objects' self' rack_face' exclude' →
  available_over_union objects self h rack_face exclude
  = available_over_union objects' self' h rack_face' exclude'.
Proof.
  intros Hh Hds. unfold available_over_union, free_units, occupied_units.
  by rewrite Hh, Hds.
Qed.

(** X1: excluding devices by key gives what the table without these devices
    gives with nothing excluded. *)
Theorem get_available_units_exclude objects self h rack_face exclude :
  get_available_units objects self h rack_face exclude
  = get_available_units (filter (λ d, pk d ∉ exclude) objects) self h rack_face [].
Proof.
  rewrite !get_available_units_unfold. f_equal.
  apply available_over_union_devices; [done|].
  rewrite consuming_devices_filter. unfold consuming_devices.
  rewrite !list_filter_filter. apply list_filter_iff.
  intros d. rewrite elem_of_nil. tauto.
Qed.

(** X2: devices of other racks, devices without a position and devices at
    position 0 change neither the available units nor the elevation. *)
Theorem unracked_devices_ignored objects self h rack_face exclude face' excluded collapse :
  get_available_units objects self h rack_face exclude
  = get_available_units (filter (position_gte 1) (rack_devices objects self))
      self h rack_face exclude
  ∧ get_rack_units objects self face' excluded collapse
    = get_rack_units (filter (position_gte 1) (rack_devices objects self))
        self face' excluded collapse.
Proof.
  split.
  - rewrite !get_available_units_unfold. f_equal.
    apply available_over_union_devices; [done|].
    unfold consuming_devices, rack_devices.
    rewrite !list_filter_filter. apply list_filter_iff. tauto.
  - assert (elevation_devices (filter (position_gte 1) (rack_devices objects self))
              self face' excluded
            = elevation_devices objects self face' excluded) as Hds.
    { unfold elevation_devices, rack_devices. rewrite !list_filter_filter.
      apply list_filter_iff. tauto. }
    unfold get_rack_units. by rewrite Hds.
Qed.

Lemma available_over_union_window objects self h rack_face exclude u :
  u ∈ available_over_union objects self h rack_face exclude ↔
  u ∈ free_units objects self rack_face exclude
  ∧ ∀ v, u ≤ v < u + h → v ∈ free_units objects self rack_face exclude.
Proof.
  unfold available_over_union.
  rewrite elem_of_reverse, list_elem_of_filter, Forall_forall.
  setoid_rewrite range_elem. tauto.
Qed.

(** X3: a unit available to a query stays available when less height is asked
    for, when devices are added to the exclusion, and when one face is asked
    for instead of both. *)
Theorem get_available_units_monotone objects self h h' rack_face rack_face'
    exclude exclude' :
  h ≤ h' →
  rack_face' = None ∨ rack_face' = rack_face →
  exclude' ⊆ exclude →
  ∃ available available',
    get_available_units objects self h rack_face exclude = Ok available
    ∧ get_available_units objects self h' rack_face' exclude' = Ok available'
    ∧ available' ⊆ available.
Proof.
  intros Hh Hface Hex. eexists _, _.
  split; [apply get_available_units_unfold|]. split; [apply get_available_units_unfold|].
  assert (∀ v, v ∈ free_units objects self rack_face' exclude' →
               v ∈ free_units objects self rack_face exclude) as Hfree.
  { intros v. rewrite !free_units_elem, !occupied_units_elem.
    intros [Hv Hno]. split; [done|].
    intros (d & (Hd & Hpos & Hpk & Hc)%consuming_devices_elem & Hin).
    apply Hno. exists d. split; [|done].
    apply consuming_devices_elem. repeat split; try done.
    - intros Hin'. apply Hpk. by apply Hex.
    - apply face_consumed_spec. apply face_consumed_spec in Hc.
      destruct Hface as [->| ->]; [by left|done]. }
  intros u. rewrite !available_over_union_window. intros [Hu Hwin].
  split; [by apply Hfree|]. intros v Hv. apply Hfree, Hwin. lia.
Qed.

Lemma get_available_units_monotone_witness :
  1 ≤ 2 ∧
  (@None Face = None ∨ @None Face = Some RACK_FACE_FRONT) ∧
  [] ⊆ [1] ∧
  ∃ available available',
    get_available_units Example.tidy Example.rack4 1 (Some RACK_FACE_FRONT) [1]
    = Ok available
    ∧ get_available_units Example.tidy Example.rack4 2 None [] = Ok available'
    ∧ available' ⊆ available.
Proof.
  assert (([] : list Z) ⊆ [1]) as Hex by (intros x Hx; inversion Hx).
  split; [lia|]. split; [left; reflexivity|]. split; [exact Hex|].
  apply get_available_units_monotone; [lia|left; reflexivity|exact Hex].
Defined.

(** ** Utilization: range and edge *)

Lemma percent_in_range_checked :
  forallb (λ height, forallb (percent_in_range height) (range 0 (height + 1)))
          (range 1 101) = true.
Proof. vm_compute. reflexivity. Qed.

Lemma float_percent_range height used :
  1 ≤ height ≤ 100 → 0 ≤ used ≤ height →
  ∃ p, float_percent used height = Ok p
       ∧ 0 ≤ p ≤ 100
       ∧ used * 100 / height - 1 ≤ p ≤ used * 100 / height
       ∧ (p = 0 ↔ used = 0) ∧ (p = 100 ↔ used = height).
Proof.
  intros Hh Hu. pose proof percent_in_range_checked as Hall.
  rewrite <- Is_true_true, forallb_True, Forall_forall in Hall.
  specialize (Hall height). rewrite range_elem in Hall.
  specialize (Hall ltac:(lia)).
  rewrite forallb_True, Forall_forall in Hall.
  specialize (Hall used). rewrite range_elem in Hall.
  specialize (Hall ltac:(lia)). unfold percent_in_range in Hall.
  destruct (float_percent used height) as [p|]; [|done].
  exists p. split; [done|].
  repeat (apply andb_prop_elim in Hall as [Hall ?]).
  repeat match goal with
         | H : Is_true (bool_decide _) |- _ => apply bool_decide_unpack in H
         | H : Is_true (eqb _ _) |- _ =>
             apply Is_true_true, eqb_prop in H
         end.
  split; [done|]. split; [done|]. split.
  - rewrite <- (bool_decide_spec (p = 0)), <- (bool_decide_spec (used = 0)).
    by rewrite H0.
  - rewrite <- (bool_decide_spec (p = 100)), <- (bool_decide_spec (used = height)).
    by rewrite H.
Qed.

Lemma filter_length_all {A} (P : A → Prop) `{∀ x, Decision (P x)} (l : list A) :
  length (filter P l) = length l ↔ ∀ x, x ∈ l → P x.
Proof.
  split.
  - intros Hlen x Hx. destruct (decide (P x)) as [|Hn]; [done|].
    pose proof (length_filter_lt P l x Hx Hn). lia.
  - intros Hall. by rewrite filter_keeps_all.
Qed.

(** X4: on a rack of 1U to 100U the utilization is a percentage between 0 and
    100, equal to the exact floor of the occupied share or one below it; it is
    0 exactly when every unit of the rack is free on both faces, and 100
    exactly when none is. *)
Theorem get_utilization_range objects self :
  1 ≤ rack_u_height self ≤ 100 →
  ∃ p, get_utilization objects self = Ok p
       ∧ 0 ≤ p ≤ 100
       ∧ (let used := rack_u_height self
                      - Z.of_nat (length (free_units objects self None [])) in
          used * 100 / rack_u_height self - 1 ≤ p ≤ used * 100 / rack_u_height self)
       ∧ (p = 0 ↔ ∀ u, 1 ≤ u ≤ rack_u_height self → u ∈ free_units objects self None [])
       ∧ (p = 100 ↔ free_units objects self None [] = []).
Proof.
  intros Hh. rewrite get_utilization_unfold.
  pose proof (free_units_length objects self None [] ltac:(lia)) as Hlen.
  destruct (float_percent_range (rack_u_height self)
              (rack_u_height self - Z.of_nat (length (free_units objects self None [])))
              Hh ltac:(lia)) as (p & -> & Hrange & Hexact & Hzero & Hfull).
  exists p. split; [done|]. split; [done|]. split; [done|]. split.
  - rewrite Hzero.
    assert (Z.of_nat (length (range 1 (rack_u_height self + 1))) = rack_u_height self)
      as Hunits by (unfold range; rewrite length_seqZ; lia).
    split.
    + intros Hused u Hu.
      assert (length (free_units objects self None [])
              = length (range 1 (rack_u_height self + 1))) as Hsame by lia.
      unfold free_units in Hsame |- *.
      pose proof (proj1 (filter_length_all _ _) Hsame) as Hevery.
      apply list_elem_of_filter. split; [|apply range_elem; lia].
      apply Hevery, range_elem. lia.
    + intros Hall.
      assert (length (free_units objects self None [])
              = length (range 1 (rack_u_height self + 1))) as Hsame; [|lia].
      unfold free_units. apply filter_length_all. intros u Hu%range_elem.
      specialize (Hall u ltac:(lia)). unfold free_units in Hall.
      by apply list_elem_of_filter in Hall as [? _].
  - rewrite Hfull. split.
    + intros Hl. apply nil_length_inv. lia.
    + intros ->. simpl. lia.
Qed.

Lemma get_utilization_range_witness :
  1 ≤ rack_u_height Example.rack4 ≤ 100 ∧
  ∃ p, get_utilization Example.tidy Example.rack4 = Ok p
       ∧ 0 ≤ p ≤ 100
       ∧ (let used := rack_u_height Example.rack4
                      - Z.of_nat (length (free_units Example.tidy Example.rack4 None [])) in
          used * 100 / rack_u_height Example.rack4 - 1 ≤ p
          ≤ used * 100 / rack_u_height Example.rack4)
       ∧ (p = 0 ↔ ∀ u, 1 ≤ u ≤ rack_u_height Example.rack4 →
                       u ∈ free_units Example.tidy Example.rack4 None [])
       ∧ (p = 100 ↔ free_units Example.tidy Example.rack4 None [] = []).
Proof.
  assert (1 ≤ rack_u_height Example.rack4 ≤ 100) as Hh by (simpl; lia).
  split; [exact Hh|]. apply get_utilization_range. exact Hh.
Defined.

(** X5: a rack whose height is 0 has no utilization: the division raises. *)
Theorem get_utilization_zero_height objects self :
  rack_u_height self = 0 →
  get_utilization objects self = Raise ZeroDivisionError.
Proof.
  intros Hh. rewrite get_utilization_unfold. unfold free_units, range.
  rewrite Hh. reflexivity.
Qed.

Lemma get_utilization_zero_height_witness :
  rack_u_height Example_empty.rack0 = 0
  ∧ get_utilization Example.tidy Example_empty.rack0 = Raise ZeroDivisionError.
Proof.
  split; [reflexivity|]. apply get_utilization_zero_height. reflexivity.
Defined.

(** ** Resizing a rack: what an accepted height guarantees *)

(** X6: when the rack has a key, every device in it is 1U or more, and the new
    height is accepted, every positioned device of the rack starts at a unit
    the rack still has. *)
Theorem Rack_clean_positions objects self :
  truthy (rack_pk self) = true →
  (∀ d, d ∈ rack_devices objects self → 1 ≤ u_height (device_type d)) →
  Rack_clean objects self = Ok () →
  ∀ d p, d ∈ rack_devices objects self → position d = Some p → p ≤ rack_u_height self.
Proof.
  intros Hpk Htall Hok d p Hd Hp.
  destruct (top_device objects self) as [top|] eqn:Htop.
  - apply (Rack_clean_top objects self top Hpk Htop) in Hok.
    destruct (top_device_greatest objects self top Htop) as (Htopin & _ & Hmax).
    specialize (Hmax d Hd). rewrite Hp in Hmax. specialize (Hmax ltac:(done)).
    specialize (Htall top Htopin). simpl in Hmax. lia.
  - unfold top_device in Htop. apply head_None in Htop.
    assert (d ∈ merge_sort position_desc
                  (filter (λ d, position d ≠ None) (rack_devices objects self))) as Hin.
    { rewrite merge_sort_Permutation. apply list_elem_of_filter.
      split; [by rewrite Hp|done]. }
    rewrite Htop in Hin. by apply elem_of_nil in Hin.
Qed.

Lemma Rack_clean_positions_witness :
  truthy (rack_pk Example_resize.resized_rack) = true ∧
  (∀ d, d ∈ rack_devices Example_resize.installed Example_resize.resized_rack →
        1 ≤ u_height (device_type d)) ∧
  Rack_clean Example_resize.installed Example_resize.resized_rack = Ok () ∧
  ∀ d p, d ∈ rack_devices Example_resize.installed Example_resize.resized_rack →
         position d = Some p → p ≤ rack_u_height Example_resize.resized_rack.
Proof.
  assert (∀ d, d ∈ rack_devices Example_resize.installed Example_resize.resized_rack →
               1 ≤ u_height (device_type d)) as Htall.
  { intros d Hd. apply list_elem_of_In in Hd. vm_compute in Hd.
    destruct Hd as [<-|[<-|[]]]; vm_compute; discriminate. }
  split; [reflexivity|]. split; [exact Htall|]. split; [vm_compute; reflexivity|].
  apply Rack_clean_positions; [reflexivity|exact Htall|vm_compute; reflexivity].
Defined.

(** ** Placement: what an accepted device guarantees *)

(** What [Device.clean] has checked when it returns, for a device with its type
    set. *)
Lemma Device_clean_accepted objects self dt :
  self_device_type self = Some dt →
  Device_clean objects self = Ok () →
  (truthy (self_position self) = true → self_face self ≠ None)
  ∧ (is_child_device dt = true →
     truthy (self_position self) = false ∧ self_face self = None)
  ∧ ∀ r, self_rack self = Some r → truthy (self_position self) = true →
      member (self_position self)
        (available_over_union objects r (u_height dt)
           (if is_full_depth dt then None else self_face self) (exclude_list self))
      = true.
Proof.
  intros Hdt. unfold Device_clean. rewrite Hdt. cbn [related mbind Result_bind].
  destruct (truthy (self_position self)) eqn:Hpos;
    destruct (bool_decide (self_face self = None)) eqn:Hface;
    cbn [andb orb negb mbind Result_bind]; [done| | |].
  - apply bool_decide_eq_false in Hface.
    rewrite (bool_decide_eq_true_2 (self_face self ≠ None)) by done.
    destruct (is_child_device dt); cbn [andb orb mbind Result_bind]; [done|].
    intros Hok. split; [done|]. split; [done|]. intros r Hr _.
    rewrite Hr in Hok. cbn [related mbind Result_bind] in Hok.
    replace (if negb (is_full_depth dt) then self_face self else None)
      with (if is_full_depth dt then None else self_face self) in Hok
      by (by destruct (is_full_depth dt)).
    rewrite get_available_units_unfold in Hok. cbn [mbind Result_bind] in Hok.
    by destruct (member _ _).
  - apply bool_decide_eq_true in Hface. intros _.
    split; [done|]. split; [done|]. done.
  - apply bool_decide_eq_false in Hface.
    rewrite (bool_decide_eq_true_2 (self_face self ≠ None)) by done.
    destruct (is_child_device dt); cbn [andb orb mbind Result_bind]; [done|].
    intros _. split; [done|]. split; [done|]. done.
Qed.

(** A position among the available units has its whole span in the rack, clear
    of every device taken into account. *)
Lemma member_available objects r h rack_face exclude p :
  p ∈ available_over_union objects r h rack_face exclude →
  1 ≤ p ≤ rack_u_height r
  ∧ (∀ u, p ≤ u < p + h → 1 ≤ u ≤ rack_u_height r)
  ∧ ∀ d u, d ∈ consuming_devices objects r rack_face exclude →
           p ≤ u < p + h → u ∉ device_units d.
Proof.
  rewrite available_over_union_window. intros [Hp Hwin].
  split; [by apply free_units_elem in Hp as [? _]|]. split.
  - intros u Hu. by apply Hwin, free_units_elem in Hu as [? _].
  - intros d u Hd Hu Hin. apply Hwin, free_units_elem in Hu as [_ Hfree].
    apply Hfree, occupied_units_elem. by exists d.
Qed.

Lemma accepted_position_clear objects self dt r p :
  self_device_type self = Some dt →
  self_rack self = Some r →
  self_position self = Some p → p ≠ 0 →
  Device_clean objects self = Ok () →
  is_Some (self_face self)
  ∧ 1 ≤ p ≤ rack_u_height r
  ∧ (∀ u, p ≤ u < p + u_height dt → 1 ≤ u ≤ rack_u_height r)
  ∧ ∀ d f u, d ∈ rack_devices objects r → pk d ∉ exclude_list self →
       p ≤ u < p + u_height dt →
       is_full_depth dt = true ∨ self_face self = Some f →
       ¬ occupies_cell d f u.
Proof.
  intros Hdt Hr Hp Hp0 Hok.
  assert (truthy (self_position self) = true) as Htruthy
    by (rewrite Hp; by apply bool_decide_eq_true).
  destruct (Device_clean_accepted objects self dt Hdt Hok) as (Hface & _ & Hin).
  specialize (Hin r Hr Htruthy). rewrite Hp in Hin. apply bool_decide_eq_true in Hin.
  apply member_available in Hin as (Hbounds & Hspan & Hclear).
  split; [|split; [done|split; [done|]]].
  - specialize (Hface Htruthy). by destruct (self_face self).
  - intros d f u Hd Hex Hu Hf (p' & Hp' & Hp'1 & Hu' & Hf').
    apply (Hclear d u); [|done|apply device_units_elem; by exists p'].
    apply consuming_devices_elem. repeat split; try done.
    + unfold position_gte. by rewrite Hp'.
    + apply face_consumed_spec.
      destruct (is_full_depth dt); [by left|].
      destruct Hf as [?|Hf]; [done|]. rewrite Hf.
      destruct Hf' as [?|?]; [by right; right|by right; left].
Qed.

(** X7: a device that passes [Device.clean] with a position, its type and rack
    set, has a face; its span lies within the rack; and no other device of the
    rack fills a cell of that span on the face of the device, or on either
    face when its type is full depth. *)
Theorem Device_clean_placement objects self dt r p :
  self_device_type self = Some dt →
  self_rack self = Some r →
  self_position self = Some p → p ≠ 0 →
  Device_clean objects self = Ok () →
  is_Some (self_face self)
  ∧ (∀ u, p ≤ u < p + u_height dt → 1 ≤ u ≤ rack_u_height r)
  ∧ ∀ d f u, d ∈ rack_devices objects r → pk d ∉ exclude_list self →
       p ≤ u < p + u_height dt →
       is_full_depth dt = true ∨ self_face self = Some f →
       ¬ occupies_cell d f u.
Proof.
  intros Hdt Hr Hp Hp0 Hok.
  destruct (accepted_position_clear objects self dt r p Hdt Hr Hp Hp0 Hok)
    as (? & _ & ? & ?).
  done.
Qed.

Lemma Device_clean_placement_witness :
  self_device_type Example_placement.newcomer = Some Example.half_1u ∧
  self_rack Example_placement.newcomer = Some Example.rack4 ∧
  self_position Example_placement.newcomer = Some 3 ∧ 3 ≠ 0 ∧
  Device_clean Example.tidy Example_placement.newcomer = Ok () ∧
  is_Some (self_face Example_placement.newcomer)
  ∧ (∀ u, 3 ≤ u < 3 + u_height Example.half_1u → 1 ≤ u ≤ rack_u_height Example.rack4)
  ∧ ∀ d f u, d ∈ rack_devices Example.tidy Example.rack4 →
       pk d ∉ exclude_list Example_placement.newcomer →
       3 ≤ u < 3 + u_height Example.half_1u →
       is_full_depth Example.half_1u = true
       ∨ self_face Example_placement.newcomer = Some f →
       ¬ occupies_cell d f u.
Proof.
  assert (Device_clean Example.tidy Example_placement.newcomer = Ok ()) as Hok
    by (vm_compute; reflexivity).
  split; [reflexivity|]. split; [reflexivity|]. split; [reflexivity|].
  split; [discriminate|]. split; [exact Hok|].
  apply Device_clean_placement; [reflexivity|reflexivity|reflexivity|discriminate|exact Hok].
Defined.

(** X8: a device of a child type that passes [Device.clean] has no face and no
    position that counts (none, or 0): child devices are not racked. *)
Theorem Device_clean_child objects self dt :
  self_device_type self = Some dt →
  is_child_device dt = true →
  Device_clean objects self = Ok () →
  truthy (self_position self) = false ∧ self_face self = None.
Proof.
  intros Hdt Hchild Hok.
  destruct (Device_clean_accepted objects self dt Hdt Hok) as (_ & Hnone & _).
  by apply Hnone.
Qed.

Lemma Device_clean_child_witness :
  self_device_type Example_bays.blade_moved = Some Example_bays.blade_type ∧
  is_child_device Example_bays.blade_type = true ∧
  Device_clean (Device_objects Example_bays.housed) Example_bays.blade_moved = Ok () ∧
  truthy (self_position Example_bays.blade_moved) = false
  ∧ self_face Example_bays.blade_moved = None.
Proof.
  assert (Device_clean (Device_objects Example_bays.housed) Example_bays.blade_moved
          = Ok ()) as Hok by (vm_compute; reflexivity).
  split; [reflexivity|]. split; [reflexivity|]. split; [exact Hok|].
  apply (Device_clean_child (Device_objects Example_bays.housed)
           Example_bays.blade_moved Example_bays.blade_type);
    [reflexivity|reflexivity|exact Hok].
Defined.

(** ** Validation followed by a save *)

(** The row that the base save writes is the instance. *)
Lemma Model_save_row db self db1 saved :
  Model_save db self = Ok (db1, saved) →
  self_device_type self = Some (device_type saved)
  ∧ self_rack self = Some (rack saved)
  ∧ self_position self = position saved
  ∧ self_face self = face saved
  ∧ ∀ k, self_pk self = Some k → pk saved = k.
Proof.
  unfold Model_save. destruct (self_device_type self) as [dt|]; [|done].
  destruct (self_rack self) as [r|]; [|done].
  destruct (decide (constraints_hold _)) as [_|_]; [|done].
  intros [= <- <-]. cbn. repeat split. by intros k ->.
Qed.

(** X9: when a device has passed [Device.clean] and is then saved, and the
    devices housed in its bays have no position, its span lies within its rack
    and it shares no cell with any other device of that rack. *)
Theorem Device_save_after_clean db self db' saved :
  Device_clean (Device_objects db) self = Ok () →
  Device_save db self = Ok (db', saved) →
  (∀ c, c ∈ Device_objects db → in_bay_of db (pk saved) c → position c = None) →
  (∀ u, position_gte 1 saved → u ∈ device_units saved →
        1 ≤ u ≤ rack_u_height (rack saved))
  ∧ ∀ d f u, d ∈ rack_devices (Device_objects db') (rack saved) → pk d ≠ pk saved →
       ¬ (occupies_cell saved f u ∧ occupies_cell d f u).
Proof.
  intros Hclean Hsave Hunracked.
  unfold Device_save in Hsave.
  destruct (Model_save db self) as [[db1 saved1]|] eqn:Hbase; [|done].
  cbn [mbind Result_bind] in Hsave.
  destruct (if negb (truthy (self_pk self)) then create_components saved1 db1 else Ok db1)
    as [db2|] eqn:Hcomp; [|done].
  cbn [mbind Result_bind] in Hsave.
  apply components_step in Hcomp as [Hrows Hbay].
  specialize (Hbay (pk saved1)).
  destruct (decide (constraints_hold _)) as [_|_]; [|done].
  injection Hsave as <- <-.
  destruct (Model_save_row _ _ _ _ Hbase) as (Hdt & Hr & Hpos & Hface & Hpk).
  apply Model_save_unfold in Hbase as (_ & Hbays & _ & Hold).
  assert (∀ p, position saved1 = Some p → 1 ≤ p →
            (∀ u, p ≤ u < p + u_height (device_type saved1) →
                  1 ≤ u ≤ rack_u_height (rack saved1))
            ∧ ∀ d f u, d ∈ rack_devices (Device_objects db) (rack saved1) →
                pk d ∉ exclude_list self →
                p ≤ u < p + u_height (device_type saved1) →
                is_full_depth (device_type saved1) = true ∨ self_face self = Some f →
                ¬ occupies_cell d f u) as Hclear.
  { intros p Hp Hp1. rewrite <- Hpos in Hp.
    destruct (accepted_position_clear _ _ _ _ p Hdt Hr Hp ltac:(lia) Hclean)
      as (_ & _ & ? & ?). done. }
  split.
  - intros u Hgte Hu. apply device_units_elem in Hu as (p & Hp & Hu).
    unfold position_gte in Hgte. rewrite Hp in Hgte.
    by apply (Hclear p Hp Hgte).
  - intros d f u Hd Hne [(p & Hp & Hp1 & Hu & Hf) Hocc].
    unfold rack_devices in Hd. apply list_elem_of_filter in Hd as [[Hsome Hrack] Hd].
    cbn in Hd. apply list_elem_of_fmap in Hd as (d0 & -> & Hd0).
    rewrite Hrows in Hd0.
    revert Hne Hocc Hrack.
    destruct (decide (in_bay_of db2 (pk saved1) d0)) as [Hin|Hout];
      intros Hne Hocc Hrack.
    + destruct Hocc as (p' & Hp' & _). cbn in Hp'.
      rewrite (Hunracked d0) in Hp'; [done| |].
      * by apply Hold.
      * apply Hbay in Hin. unfold in_bay_of in Hin |- *. by rewrite <- Hbays.
    + apply (proj2 (Hclear p Hp Hp1) d0 f u); try done.
      * apply list_elem_of_filter. split; [done|by apply Hold].
      * unfold exclude_list. destruct (self_pk self) as [k|] eqn:Hk;
          cbn [truthy default]; [|apply not_elem_of_nil].
        destruct (bool_decide (k ≠ 0)); [|apply not_elem_of_nil].
        rewrite list_elem_of_singleton. by rewrite (Hpk k eq_refl) in Hne.
      * by rewrite Hface.
Qed.

Lemma Device_save_after_clean_witness :
  Device_clean (Device_objects Example_placed.before) Example_placement.newcomer = Ok () ∧
  Device_save Example_placed.before Example_placement.newcomer
  = Ok (Example_placed.after, Example_placed.newcomer_row) ∧
  (∀ c, c ∈ Device_objects Example_placed.before →
        in_bay_of Example_placed.before (pk Example_placed.newcomer_row) c →
        position c = None) ∧
  (∀ u, position_gte 1 Example_placed.newcomer_row →
        u ∈ device_units Example_placed.newcomer_row →
        1 ≤ u ≤ rack_u_height (rack Example_placed.newcomer_row))
  ∧ ∀ d f u, d ∈ rack_devices (Device_objects Example_placed.after)
                   (rack Example_placed.newcomer_row) →
       pk d ≠ pk Example_placed.newcomer_row →
       ¬ (occupies_cell Example_placed.newcomer_row f u ∧ occupies_cell d f u).
Proof.
  assert (Device_clean (Device_objects Example_placed.before) Example_placement.newcomer
          = Ok ()) as Hclean by (vm_compute; reflexivity).
  assert (Device_save Example_placed.before Example_placement.newcomer
          = Ok (Example_placed.after, Example_placed.newcomer_row)) as Hsave
    by (vm_compute; reflexivity).
  assert (∀ c, c ∈ Device_objects Example_placed.before →
               in_bay_of Example_placed.before (pk Example_placed.newcomer_row) c →
               position c = None) as Hbays.
  { intros c _ Hin. unfold in_bay_of in Hin. simpl in Hin. inversion Hin. }
  split; [exact Hclean|]. split; [exact Hsave|]. split; [exact Hbays|].
  exact (Device_save_after_clean _ _ _ _ Hclean Hsave Hbays).
Defined.

(** ** The collapsed elevation of a valid rack *)

Lemma od_pop_elevation face' us g u :
  NoDup us →
  od_pop u (elevation_of face' us g) = elevation_of face' (filter (λ x, x ≠ u) us) g.
Proof.
  induction us as [|x us IH]; intros Hnd; [done|].
  apply NoDup_cons in Hnd as [Hx Hnd].
  cbn [elevation_of fmap list_fmap od_pop]. fold (elevation_of face' us g).
  rewrite filter_cons. destruct (decide (x = u)) as [->|Hne].
  - rewrite decide_False by (intros Hn; by apply Hn).
    f_equal. symmetry. apply filter_keeps_all. by intros y Hy ->.
  - rewrite decide_True by done. rewrite IH by done. done.
Qed.

Lemma pop_span face' us g ws :
  NoDup us →
  foldl (λ elevation u, od_pop u elevation) (elevation_of face' us g) ws
  = elevation_of face' (filter (λ x, x ∉ ws) us) g.
Proof.
  revert us. induction ws as [|w ws IH]; intros us Hnd; cbn [foldl].
  - f_equal. symmetry. apply filter_keeps_all. intros y _. apply not_elem_of_nil.
  - rewrite od_pop_elevation by done. rewrite IH by (by apply NoDup_filter).
    f_equal. rewrite list_filter_filter. apply list_filter_iff.
    intros y. rewrite not_elem_of_cons. tauto.
Qed.

(** One device in the collapsed mode, its position being a key. *)
Lemma place_device_collapsed face' us g d p :
  NoDup us → position d = Some p → p ∈ us →
  place_device true (elevation_of face' us g) d
  = Ok (elevation_of face' (filter (λ x, x ∉ inner_units d) us) (write_units d [p] g)).
Proof.
  intros Hnd Hp Hin. unfold place_device, inner_units. rewrite Hp.
  rewrite set_unit_device_elevation by done. rewrite decide_True by done.
  cbn [mbind Result_bind]. by rewrite pop_span.
Qed.

Lemma place_devices_collapsed face' us ds g :
  NoDup us →
  (∀ d p, d ∈ ds → position d = Some p → p ∈ us) →
  (∀ d d' p, d ∈ ds → d' ∈ ds → position d = Some p → p ∉ inner_units d') →
  for_in ds (place_device true) (elevation_of face' us g)
  = Ok (elevation_of face' (filter (λ x, x ∉ ds ≫= inner_units) us)
          (write_positions ds g)).
Proof.
  intros Hnd. revert us g Hnd. induction ds as [|d ds IH]; intros us g Hnd Hkeys Hclear.
  - cbn. f_equal. f_equal. symmetry. apply filter_keeps_all.
    intros y _. apply not_elem_of_nil.
  - cbn [for_in]. destruct (position d) as [p|] eqn:Hp.
    + assert (p ∈ us) as Hpin by (apply (Hkeys d); [left|done]).
      rewrite (place_device_collapsed face' us g d p) by done.
      cbn [mbind Result_bind]. rewrite IH.
      * unfold write_positions. cbn [foldl]. rewrite Hp. f_equal. f_equal.
        rewrite list_filter_filter. apply list_filter_iff.
        intros y. cbn [mbind list_bind]. rewrite elem_of_app. tauto.
      * by apply NoDup_filter.
      * intros d' p' Hd' Hp'. apply list_elem_of_filter. split.
        -- apply (Hclear d' d p'); [by right|left|done].
        -- apply (Hkeys d'); [by right|done].
      * intros d1 d2 p1 Hd1 Hd2. apply Hclear; by right.
    + assert (place_device true (elevation_of face' us g) d
              = Ok (elevation_of face' us g)) as ->
        by (unfold place_device; by rewrite Hp).
      cbn [mbind Result_bind]. rewrite IH.
      * unfold write_positions. cbn [foldl]. rewrite Hp. f_equal. f_equal.
        apply list_filter_iff. intros y. cbn [mbind list_bind].
        unfold inner_units at 2. rewrite Hp. by rewrite app_nil_l.
      * done.
      * intros d' p' Hd'. apply Hkeys. by right.
      * intros d1 d2 p1 Hd1 Hd2. apply Hclear; by right.
Qed.

Lemma holder_cons d ds u :
  holder (d :: ds) u
  = match holder ds u with
    | Some d' => Some d'
    | None => if decide (position d = Some u) then Some d else None
    end.
Proof.
  unfold holder. rewrite filter_cons.
  destruct (decide (position d = Some u)); [|by destruct (last _)].
  rewrite last_cons. by destruct (last _).
Qed.

Lemma write_positions_holder ds g u :
  write_positions ds g u
  = match holder ds u with
    | Some d => Some d
    | None => g u
    end.
Proof.
  revert g. induction ds as [|d ds IH]; intros g; [done|].
  unfold write_positions in *. cbn [foldl]. rewrite IH, holder_cons.
  destruct (holder ds u); [done|].
  destruct (position d) as [p|]; [|by rewrite decide_False].
  unfold write_units.
  destruct (decide (u ∈ [p])) as [Hin|Hout].
  - apply list_elem_of_singleton in Hin as ->. by rewrite decide_True.
  - rewrite decide_False; [done|]. intros [= ->]. apply Hout. by apply list_elem_of_singleton.
Qed.

(** X10: on a rack where each device gone through has its position within the
    rack and above the position of no device gone through (as when the spans
    lie in the rack and do not overlap), the collapsed elevation is returned:
    it lists, in the order of [units], the units that lie above the position
    of no device, each with the device positioned there. *)
Theorem get_rack_units_collapsed objects self face' exclude :
  (∀ d p, d ∈ placed_devices objects self face' exclude → position d = Some p →
          p ≤ rack_u_height self) →
  (∀ d d' p, d ∈ placed_devices objects self face' exclude →
             d' ∈ placed_devices objects self face' exclude →
             position d = Some p → p ∉ inner_units d') →
  get_rack_units objects self face' exclude true
  = Ok (collapsed_elevation objects self face' exclude).
Proof.
  intros Hin Hclear. unfold get_rack_units.
  change (λ elevation u, od_setitem u _ elevation)
    with (λ elevation u, od_setitem u (unit_record face' u None) elevation).
  rewrite (skeleton_build face' (units self) []) by apply units_NoDup.
  rewrite app_nil_l.
  assert (for_in (placed_devices objects self face' exclude) (place_device true)
            (elevation_of face' (units self) (λ _, None))
          = if truthy (rack_pk self)
            then for_in (elevation_devices objects self face' exclude) (place_device true)
                   (elevation_of face' (units self) (λ _, None))
            else Ok (elevation_of face' (units self) (λ _, None))) as <-.
  { unfold placed_devices. by destruct (truthy (rack_pk self)). }
  rewrite place_devices_collapsed; [|apply units_NoDup| |done].
  - cbn [mbind Result_bind]. f_equal.
    unfold od_values, elevation_of, collapsed_elevation. rewrite <- list_fmap_compose.
    apply list_fmap_ext. intros i u _. cbn. f_equal.
    rewrite write_positions_holder. by destruct (holder _ u).
  - intros d p Hd Hp. apply units_elem. split; [|by apply (Hin d)].
    unfold placed_devices in Hd. destruct (truthy (rack_pk self)); [|by apply elem_of_nil in Hd].
    unfold elevation_devices in Hd.
    apply list_elem_of_filter in Hd as [_ [Hgte _]%list_elem_of_filter].
    unfold position_gte in Hgte. by rewrite Hp in Hgte.
Qed.

Lemma get_rack_units_collapsed_witness :
  (∀ d p, d ∈ placed_devices Example_stacked.stacked Example.rack4 RACK_FACE_FRONT None →
          position d = Some p → p ≤ rack_u_height Example.rack4) ∧
  (∀ d d' p, d ∈ placed_devices Example_stacked.stacked Example.rack4 RACK_FACE_FRONT None →
             d' ∈ placed_devices Example_stacked.stacked Example.rack4 RACK_FACE_FRONT None →
             position d = Some p → p ∉ inner_units d') ∧
  get_rack_units Example_stacked.stacked Example.rack4 RACK_FACE_FRONT None true
  = Ok (collapsed_elevation Example_stacked.stacked Example.rack4 RACK_FACE_FRONT None).
Proof.
  assert (∀ d, d ∈ placed_devices Example_stacked.stacked Example.rack4 RACK_FACE_FRONT None →
               d = Example_stacked.two_high ∨ d = Example_stacked.one_high) as Hcases.
  { intros d Hd. apply list_elem_of_In in Hd. vm_compute in Hd.
    destruct Hd as [<-|[<-|[]]]; [left|right]; reflexivity. }
  assert (∀ d p, d ∈ placed_devices Example_stacked.stacked Example.rack4 RACK_FACE_FRONT None →
                 position d = Some p → p ≤ rack_u_height Example.rack4) as Hin.
  { intros d p Hd Hp. destruct (Hcases d Hd) as [-> | ->];
      injection Hp as <-; simpl; lia. }
  assert (∀ d d' p,
            d ∈ placed_devices Example_stacked.stacked Example.rack4 RACK_FACE_FRONT None →
            d' ∈ placed_devices Example_stacked.stacked Example.rack4 RACK_FACE_FRONT None →
            position d = Some p → p ∉ inner_units d') as Hclear.
  { intros d d' p Hd Hd' Hp Hinner.
    destruct (Hcases d Hd) as [-> | ->]; injection Hp as <-;
      destruct (Hcases d' Hd') as [-> | ->];
      apply list_elem_of_In in Hinner; vm_compute in Hinner;
      repeat (destruct Hinner as [Hinner|Hinner]; try discriminate Hinner);
      exact Hinner. }
  split; [exact Hin|]. split; [exact Hclear|].
  apply get_rack_units_collapsed; [exact Hin|exact Hclear].
Defined.

(** The 2U device of the example takes one line, at U1; U2 is left out. *)
Example collapsed_elevation_stacked :
  collapsed_elevation Example_stacked.stacked Example.rack4 RACK_FACE_FRONT None
  = [ unit_record RACK_FACE_FRONT 4 None;
      unit_record RACK_FACE_FRONT 3 (Some Example_stacked.one_high);
      unit_record RACK_FACE_FRONT 1 (Some Example_stacked.two_high) ].
Proof. vm_compute. reflexivity. Qed.

(** ** Growing a device type: what an accepted height guarantees *)

(** After an accepted growth every positioned instance has its position among
    the available units of its rack for the new height. *)
Lemma growth_accepted db self d p :
  dt_pk self ≠ None →
  u_height self > _original_u_height self →
  DeviceType_clean db self = Ok () →
  d ∈ Device_objects db → dt_pk (device_type d) = dt_pk self → position d = Some p →
  p ∈ available_over_union (Device_objects db) (rack d) (u_height self)
        (if is_full_depth self then None else face d) [pk d].
Proof.
  intros Hpk Hgrow Hclean Hd Htype Hp.
  destruct (DeviceType_clean_loop db self Hpk Hgrow) as [Hfail _].
  destruct (room_loop_error db self (instances_with_position db self))
    as [[Hall _]|(d' & _ & _ & Hloop)];
    [|by rewrite (Hfail _ Hloop) in Hclean].
  rewrite Forall_forall in Hall. specialize (Hall d).
  rewrite has_room_member in Hall. rewrite Hp in Hall.
  eapply bool_decide_eq_true_1, Hall.
  unfold instances_with_position. apply list_elem_of_filter. split; [|done].
  split; [|by rewrite Hp]. split; [|done]. by destruct (dt_pk self).
Qed.

(** X11: when the growth of an existing device type passes
    [DeviceType.clean], every positioned device of the type has its new span
    within its rack, and no other device of that rack fills, with its stored
    height, a cell of the new span on the face of the device (on either face
    when the type is now full depth). *)
Theorem DeviceType_clean_growth_clear db self d p :
  dt_pk self ≠ None →
  u_height self > _original_u_height self →
  DeviceType_clean db self = Ok () →
  d ∈ Device_objects db → dt_pk (device_type d) = dt_pk self → position d = Some p →
  (∀ u, p ≤ u < p + u_height self → 1 ≤ u ≤ rack_u_height (rack d))
  ∧ ∀ d' f u, d' ∈ rack_devices (Device_objects db) (rack d) → pk d' ≠ pk d →
       p ≤ u < p + u_height self →
       is_full_depth self = true ∨ face d = Some f →
       ¬ occupies_cell d' f u.
Proof.
  intros Hpk Hgrow Hclean Hd Htype Hp.
  pose proof (growth_accepted db self d p Hpk Hgrow Hclean Hd Htype Hp) as Hin.
  apply member_available in Hin as (_ & Hspan & Hclear).
  split; [done|].
  intros d' f u Hd' Hne Hu Hf (p' & Hp' & Hp'1 & Hu' & Hf').
  apply (Hclear d' u); [|done|apply device_units_elem; by exists p'].
  apply consuming_devices_elem. repeat split; try done.
  - unfold position_gte. by rewrite Hp'.
  - by rewrite list_elem_of_singleton.
  - apply face_consumed_spec.
    destruct (is_full_depth self); [by left|].
    destruct Hf as [?|Hf]; [done|]. rewrite Hf.
    destruct Hf' as [?|?]; [by right; right|by right; left].
Qed.

(** X12: after an accepted growth two positioned devices of the type in one
    rack, on the same face or the type being full depth, do not meet with
    their new spans, provided the stored height of each is 1U or more. *)
Theorem DeviceType_clean_growth_apart db self d1 d2 p1 p2 :
  dt_pk self ≠ None →
  u_height self > _original_u_height self →
  DeviceType_clean db self = Ok () →
  d1 ∈ Device_objects db → d2 ∈ Device_objects db →
  dt_pk (device_type d1) = dt_pk self → dt_pk (device_type d2) = dt_pk self →
  is_Some (rack_pk (rack d1)) → rack_pk (rack d1) = rack_pk (rack d2) →
  pk d1 ≠ pk d2 →
  position d1 = Some p1 → position d2 = Some p2 →
  1 ≤ u_height (device_type d1) → 1 ≤ u_height (device_type d2) →
  is_full_depth self = true ∨ face d1 = face d2 →
  ∀ u, ¬ (p1 ≤ u < p1 + u_height self ∧ p2 ≤ u < p2 + u_height self).
Proof.
  intros Hpk Hgrow Hclean Hd1 Hd2 Ht1 Ht2 Hsome Hrack Hne Hp1 Hp2 Hh1 Hh2 Hface u [Hu1 Hu2].
  pose proof (growth_accepted db self d1 p1 Hpk Hgrow Hclean Hd1 Ht1 Hp1) as Hin1.
  pose proof (growth_accepted db self d2 p2 Hpk Hgrow Hclean Hd2 Ht2 Hp2) as Hin2.
  apply member_available in Hin1 as ([Hp1' _] & _ & Hclear1).
  apply member_available in Hin2 as ([Hp2' _] & _ & Hclear2).
  assert (p2 ∉ device_units d2 ∨ ¬ p1 ≤ p2 < p1 + u_height self) as [Hn|Hn].
  { destruct (decide (p1 ≤ p2 < p1 + u_height self)) as [Hin|]; [left|by right].
    apply (Hclear1 d2 p2); [|done].
    apply consuming_devices_elem. repeat split.
    - apply list_elem_of_filter. split; [|done]. split; [done|]. by rewrite Hrack.
    - unfold position_gte. by rewrite Hp2.
    - rewrite list_elem_of_singleton. congruence.
    - apply face_consumed_spec. destruct (is_full_depth self); [by left|].
      destruct Hface as [?|Hface]; [done|]. right. left. by rewrite Hface. }
  { apply Hn, device_units_elem. exists p2. split; [done|lia]. }
  assert (p1 ∉ device_units d1 ∨ ¬ p2 ≤ p1 < p2 + u_height self) as [Hn'|Hn'].
  { destruct (decide (p2 ≤ p1 < p2 + u_height self)) as [Hin|]; [left|by right].
    apply (Hclear2 d1 p1); [|done].
    apply consuming_devices_elem. repeat split.
    - apply list_elem_of_filter. split; [|done]. split; [by rewrite <- Hrack|done].
    - unfold position_gte. by rewrite Hp1.
    - rewrite list_elem_of_singleton. congruence.
    - apply face_consumed_spec. destruct (is_full_depth self); [by left|].
      destruct Hface as [?|Hface]; [done|]. right. left. by rewrite Hface. }
  { apply Hn', device_units_elem. exists p1. split; [done|lia]. }
  lia.
Qed.

Lemma DeviceType_clean_growth_clear_witness :
  dt_pk Example_growth.edited_type ≠ None ∧
  u_height Example_growth.edited_type > _original_u_height Example_growth.edited_type ∧
  DeviceType_clean Example_growth_ok.stored Example_growth.edited_type = Ok () ∧
  Example_growth_ok.low ∈ Device_objects Example_growth_ok.stored ∧
  dt_pk (device_type Example_growth_ok.low) = dt_pk Example_growth.edited_type ∧
  position Example_growth_ok.low = Some 1 ∧
  (∀ u, 1 ≤ u < 1 + u_height Example_growth.edited_type →
        1 ≤ u ≤ rack_u_height (rack Example_growth_ok.low))
  ∧ ∀ d' f u,
      d' ∈ rack_devices (Device_objects Example_growth_ok.stored)
             (rack Example_growth_ok.low) →
      pk d' ≠ pk Example_growth_ok.low →
      1 ≤ u < 1 + u_height Example_growth.edited_type →
      is_full_depth Example_growth.edited_type = true
      ∨ face Example_growth_ok.low = Some f →
      ¬ occupies_cell d' f u.
Proof.
  assert (DeviceType_clean Example_growth_ok.stored Example_growth.edited_type = Ok ())
    as Hclean by (vm_compute; reflexivity).
  assert (Example_growth_ok.low ∈ Device_objects Example_growth_ok.stored) as Hin
    by (apply list_elem_of_In; left; reflexivity).
  split; [discriminate|]. split; [reflexivity|]. split; [exact Hclean|].
  split; [exact Hin|]. split; [reflexivity|]. split; [reflexivity|].
  apply DeviceType_clean_growth_clear;
    [discriminate|reflexivity|exact Hclean|exact Hin|reflexivity|reflexivity].
Defined.

Lemma DeviceType_clean_growth_apart_witness :
  dt_pk Example_growth.edited_type ≠ None ∧
  u_height Example_growth.edited_type > _original_u_height Example_growth.edited_type ∧
  DeviceType_clean Example_growth_ok.stored Example_growth.edited_type = Ok () ∧
  Example_growth_ok.low ∈ Device_objects Example_growth_ok.stored ∧
  Example_growth_ok.high ∈ Device_objects Example_growth_ok.stored ∧
  dt_pk (device_type Example_growth_ok.low) = dt_pk Example_growth.edited_type ∧
  dt_pk (device_type Example_growth_ok.high) = dt_pk Example_growth.edited_type ∧
  is_Some (rack_pk (rack Example_growth_ok.low)) ∧
  rack_pk (rack Example_growth_ok.low) = rack_pk (rack Example_growth_ok.high) ∧
  pk Example_growth_ok.low ≠ pk Example_growth_ok.high ∧
  position Example_growth_ok.low = Some 1 ∧
  position Example_growth_ok.high = Some 10 ∧
  1 ≤ u_height (device_type Example_growth_ok.low) ∧
  1 ≤ u_height (device_type Example_growth_ok.high) ∧
  (is_full_depth Example_growth.edited_type = true
   ∨ face Example_growth_ok.low = face Example_growth_ok.high) ∧
  ∀ u, ¬ (1 ≤ u < 1 + u_height Example_growth.edited_type
          ∧ 10 ≤ u < 10 + u_height Example_growth.edited_type).
Proof.
  assert (DeviceType_clean Example_growth_ok.stored Example_growth.edited_type = Ok ())
    as Hclean by (vm_compute; reflexivity).
  assert (Example_growth_ok.low ∈ Device_objects Example_growth_ok.stored) as Hlow
    by (apply list_elem_of_In; left; reflexivity).
  assert (Example_growth_ok.high ∈ Device_objects Example_growth_ok.stored) as Hhigh
    by (apply list_elem_of_In; right; left; reflexivity).
  assert (is_Some (rack_pk (rack Example_growth_ok.low))) as Hsome
    by (eexists; reflexivity).
  assert (pk Example_growth_ok.low ≠ pk Example_growth_ok.high) as Hne by discriminate.
  assert (1 ≤ u_height (device_type Example_growth_ok.low)) as Hh1 by (simpl; lia).
  assert (1 ≤ u_height (device_type Example_growth_ok.high)) as Hh2 by (simpl; lia).
  split; [discriminate|]. split; [reflexivity|]. split; [exact Hclean|].
  split; [exact Hlow|]. split; [exact Hhigh|]. split; [reflexivity|].
  split; [reflexivity|]. split; [exact Hsome|]. split; [reflexivity|].
  split; [exact Hne|]. split; [reflexivity|]. split; [reflexivity|].
  split; [exact Hh1|]. split; [exact Hh2|]. split; [left; reflexivity|].
  apply (DeviceType_clean_growth_apart Example_growth_ok.stored
           Example_growth.edited_type Example_growth_ok.low Example_growth_ok.high);
    [discriminate|reflexivity|exact Hclean|exact Hlow|exact Hhigh|reflexivity
    |reflexivity|exact Hsome|reflexivity|exact Hne|reflexivity|reflexivity
    |exact Hh1|exact Hh2|left; reflexivity].
Defined.

(** ** Child device types *)

(** X13: a device whose type is a child type that passed [DeviceType.clean]
    fills no cell of its rack, whatever position is stored for it. *)
Theorem child_type_occupies_nothing db t d :
  DeviceType_clean db t = Ok () →
  is_child_device t = true →
  device_type d = t →
  ∀ f u, ¬ occupies_cell d f u.
Proof.
  intros Hclean Hchild Htype f u (p & _ & _ & Hu & _).
  assert (u_height t = 0) as Hzero.
  { unfold DeviceType_clean in Hclean.
    repeat match type of Hclean with
           | (?m ≫= _) = Ok () => destruct m as [[]|]; [cbn [mbind Result_bind] in Hclean|done]
           end.
    apply bool_decide_eq_true in Hchild.
    unfold SUBDEVICE_ROLE_CHILD in Hclean.
    rewrite (bool_decide_eq_true_2 (subdevice_role t = Some false)) in Hclean by done.
    rewrite andb_true_r in Hclean.
    destruct (bool_decide (u_height t ≠ 0)) eqn:Hh; [done|].
    apply bool_decide_eq_false in Hh. by apply dec_stable in Hh. }
  rewrite Htype, Hzero in Hu. lia.
Qed.

Lemma child_type_occupies_nothing_witness :
  DeviceType_clean Example_bays.housed Example_bays.blade_type = Ok () ∧
  is_child_device Example_bays.blade_type = true ∧
  device_type Example_bays.blade = Example_bays.blade_type ∧
  ∀ f u, ¬ occupies_cell Example_bays.blade f u.
Proof.
  assert (DeviceType_clean Example_bays.housed Example_bays.blade_type = Ok ()) as Hclean
    by (vm_compute; reflexivity).
  split; [exact Hclean|]. split; [reflexivity|]. split; [reflexivity|].
  apply (child_type_occupies_nothing Example_bays.housed Example_bays.blade_type);
    [exact Hclean|reflexivity|reflexivity].
Defined.

(** ** Saving a device: the components *)



(** The base save touches the table of devices only. *)
Lemma Model_save_tables db self db1 saved :
  Model_save db self = Ok (db1, saved) →
  db1 = with_devices (Device_objects db1) db
  ∧ pk saved = default (next_pk (Device_objects db)) (self_pk self).
Proof.
  unfold Model_save. destruct (self_device_type self) as [dt|]; [|done].
  destruct (self_rack self) as [r|]; [|done].
  destruct (decide (constraints_hold _)) as [_|_]; [|done].
  by intros [= <- <-].
Qed.

(** X14: the save of a device that has a key changes the table of devices
    only: no component, bay or template is created, changed or removed. *)
Theorem Device_save_update_components db self k db' saved :
  self_pk self = Some k → k ≠ 0 →
  Device_save db self = Ok (db', saved) →
  pk saved = k ∧ db' = with_devices (Device_objects db') db.
Proof.
  intros Hk Hne. unfold Device_save. rewrite Hk. cbn [truthy].
  rewrite bool_decide_eq_true_2 by done. cbn [negb].
  destruct (Model_save db self) as [[db1 saved1]|] eqn:Hbase; [|done].
  cbn [mbind Result_bind].
  destruct (decide (constraints_hold _)) as [_|_]; [|done].
  intros [= <- <-].
  apply Model_save_tables in Hbase as [Hdb1 Hpk]. rewrite Hk in Hpk.
  split; [done|]. rewrite Hdb1 at 2. done.
Qed.

Lemma Device_save_update_components_witness :
  self_pk Example_bays.chassis_moved = Some 1 ∧ 1 ≠ 0 ∧
  Device_save Example_bays.housed Example_bays.chassis_moved
  = Ok (Example_bays_saved.rehoused, Example_bays_saved.chassis_in_b) ∧
  pk Example_bays_saved.chassis_in_b = 1
  ∧ Example_bays_saved.rehoused
    = with_devices (Device_objects Example_bays_saved.rehoused) Example_bays.housed.
Proof.
  assert (Device_save Example_bays.housed Example_bays.chassis_moved
          = Ok (Example_bays_saved.rehoused, Example_bays_saved.chassis_in_b)) as Hsave
    by (vm_compute; reflexivity).
  split; [reflexivity|]. split; [discriminate|]. split; [exact Hsave|].
  apply (Device_save_update_components Example_bays.housed Example_bays.chassis_moved 1);
    [reflexivity|discriminate|exact Hsave].
Defined.

(** ** Ordering of interfaces: the result of the query *)

Lemma nulls_last_trichotomy x y : nulls_last_lt x y ∨ x = y ∨ nulls_last_lt y x.
Proof.
  destruct x as [a|], y as [b|]; cbn; try tauto.
  destruct (Z.lt_trichotomy a b) as [?|[->|?]]; tauto.
Qed.

#[local] Instance ordering_le_total : Total ordering_le.
Proof.
  intros k1. induction k1 as [|x k1 IH]; intros [|y k2]; cbn; try tauto.
  destruct (nulls_last_trichotomy x y) as [?|[->|?]]; [tauto| |tauto].
  destruct (IH k2); tauto.
Qed.

#[local] Instance row_le_total {A} : Total (@row_le A).
Proof. intros r1 r2. unfold row_le. apply ordering_le_total. Qed.

(** The rows the query sorts: each row of the queryset with its key. *)
Lemma keyed_rows {A} (sql_col : A → string) (primary_ordering : list (A → Z)) qs rows :
  for_each (λ row, ids ← interface_ids (sql_col row);
                   Ok (((λ field, Some (field row)) <$> primary_ordering) ++ ids, row))
    qs = Ok rows →
  rows.*2 = qs
  ∧ ∀ r, r ∈ rows → ordering_key sql_col primary_ordering r.2 = Ok r.1.
Proof.
  revert rows. induction qs as [|row qs IH]; intros rows; cbn [for_each].
  - intros [= <-]. split; [done|]. intros r Hr. by apply elem_of_nil in Hr.
  - unfold ordering_key in *.
    destruct (interface_ids (sql_col row)) as [ids|] eqn:Hids; [|done].
    cbn [mbind Result_bind].
    destruct (for_each _ qs) as [rows'|]; [|done]. cbn [mbind Result_bind].
    intros [= <-]. destruct (IH rows' eq_refl) as [Hsnd Hkeys].
    split; [cbn; by rewrite Hsnd|].
    intros r [->|Hr]%elem_of_cons; [cbn; by rewrite Hids|by apply Hkeys].
Qed.

Lemma for_each_keys {A} (sql_col : A → string) (primary_ordering : list (A → Z))
    (rows : list (list (option Z) * A)) :
  (∀ r, r ∈ rows → ordering_key sql_col primary_ordering r.2 = Ok r.1) →
  for_each (ordering_key sql_col primary_ordering) rows.*2 = Ok rows.*1.
Proof.
  induction rows as [|r rows IH]; intros Hkeys; [done|].
  cbn [fmap list_fmap for_each]. rewrite (Hkeys r) by left.
  cbn [mbind Result_bind]. fold (rows.*2). rewrite IH by (intros; apply Hkeys; by right).
  done.
Qed.

(** X16: when the query of [order_interfaces] returns, its rows are the rows
    of the queryset, each once, in an order in which the keys (primary
    ordering, then the four numbers cut out of the name, NULL last) never
    decrease. *)
Theorem order_interfaces_sorted {A} (queryset : list A) (sql_col : A → string)
    (primary_ordering : list (A → Z)) (result : list A) :
  order_interfaces queryset sql_col primary_ordering = Ok result →
  result ≡ₚ queryset
  ∧ ∃ keys, for_each (ordering_key sql_col primary_ordering) result = Ok keys
            ∧ Sorted ordering_le keys.
Proof.
  unfold order_interfaces.
  destruct (for_each _ queryset) as [rows|] eqn:Hrows; [|done].
  cbn [mbind Result_bind]. intros [= <-].
  apply keyed_rows in Hrows as [Hsnd Hkeys].
  pose proof (merge_sort_Permutation row_le rows) as Hperm.
  split.
  - rewrite <- Hsnd. by apply fmap_Permutation.
  - exists ((merge_sort row_le rows).*1). split.
    + apply for_each_keys. intros r Hr. apply Hkeys. by rewrite <- Hperm.
    + apply (Sorted_fmap fst row_le ordering_le); [done|apply Sorted_merge_sort, _].
Qed.

Lemma order_interfaces_sorted_witness :
  order_interfaces (reverse Example_names.slotted) id [] = Ok Example_names.slotted
  ∧ Example_names.slotted ≡ₚ reverse Example_names.slotted
  ∧ ∃ keys, for_each (ordering_key id []) Example_names.slotted = Ok keys
            ∧ Sorted ordering_le keys.
Proof.
  assert (order_interfaces (reverse Example_names.slotted) id []
          = Ok Example_names.slotted) as Hq by (vm_compute; reflexivity).
  split; [exact Hq|].
  exact (order_interfaces_sorted _ _ _ _ Hq).
Defined.

(** ** Ordering of interfaces: when the query fails *)

Ltac in_list := repeat first [apply list_elem_of_here | apply list_elem_of_further].

Lemma CAST_integer_Raise text e :
  CAST_integer text = Raise e ↔
  e = DataError ∧ ∃ ds, text = Some ds ∧ INT_MAX < decimal ds.
Proof.
  unfold CAST_integer, decimal, INT_MAX. destruct text as [ds|].
  - case_bool_decide as Hn; split.
    + done.
    + intros [_ (ds' & [= <-] & Hbig)]. lia.
    + intros [= <-]. split; [done|]. exists ds. split; [done|lia].
    + by intros [-> _].
  - split; [done|]. by intros [_ (ds & ? & _)].
Qed.

Lemma CAST_integer_cases text :
  (∃ n, CAST_integer text = Ok n) ∨ CAST_integer text = Raise DataError.
Proof.
  destruct (CAST_integer text) as [n|e] eqn:Hc; [left; by exists n|right].
  by apply CAST_integer_Raise in Hc as [-> _].
Qed.

Lemma interface_ids_Raise col e :
  interface_ids col = Raise e ↔
  e = DataError
  ∧ ∃ pattern ds, pattern ∈ [pattern_id1; pattern_id2; pattern_id3; pattern_id4]
                  ∧ SUBSTRING col pattern = Some ds ∧ INT_MAX < decimal ds.
Proof.
  assert (∀ pattern,
    CAST_integer (SUBSTRING col pattern) = Raise DataError ↔
    ∃ ds, SUBSTRING col pattern = Some ds ∧ INT_MAX < decimal ds) as Hone.
  { intros pattern. split.
    - intros Hc. apply CAST_integer_Raise in Hc as [_ (ds & Hs & Hbig)]. eauto.
    - intros (ds & Hs & Hbig). apply CAST_integer_Raise. eauto. }
  unfold interface_ids. split.
  - intros Hraise.
    destruct (CAST_integer_cases (SUBSTRING col pattern_id1)) as [[n1 H1]|H1];
      rewrite H1 in Hraise; cbn [mbind Result_bind] in Hraise.
    2:{ injection Hraise as <-. split; [done|]. destruct (proj1 (Hone _) H1) as (ds & ? & ?).
        exists pattern_id1, ds. split; [in_list|done]. }
    destruct (CAST_integer_cases (SUBSTRING col pattern_id2)) as [[n2 H2]|H2];
      rewrite H2 in Hraise; cbn [mbind Result_bind] in Hraise.
    2:{ injection Hraise as <-. split; [done|]. destruct (proj1 (Hone _) H2) as (ds & ? & ?).
        exists pattern_id2, ds. split; [in_list|done]. }
    destruct (CAST_integer_cases (SUBSTRING col pattern_id3)) as [[n3 H3]|H3];
      rewrite H3 in Hraise; cbn [mbind Result_bind] in Hraise.
    2:{ injection Hraise as <-. split; [done|]. destruct (proj1 (Hone _) H3) as (ds & ? & ?).
        exists pattern_id3, ds. split; [in_list|done]. }
    destruct (CAST_integer_cases (SUBSTRING col pattern_id4)) as [[n4 H4]|H4];
      rewrite H4 in Hraise; cbn [mbind Result_bind] in Hraise; [done|].
    injection Hraise as <-. split; [done|]. destruct (proj1 (Hone _) H4) as (ds & ? & ?).
    exists pattern_id4, ds. split; [in_list|done].
  - intros [-> (pattern & ds & Hin & Hsub & Hbig)].
    assert (CAST_integer (SUBSTRING col pattern) = Raise DataError) as Hraise
      by (apply Hone; eauto).
    destruct (CAST_integer_cases (SUBSTRING col pattern_id1)) as [[n1 H1]|H1];
      rewrite H1; cbn [mbind Result_bind]; [|done].
    destruct (CAST_integer_cases (SUBSTRING col pattern_id2)) as [[n2 H2]|H2];
      rewrite H2; cbn [mbind Result_bind]; [|done].
    destruct (CAST_integer_cases (SUBSTRING col pattern_id3)) as [[n3 H3]|H3];
      rewrite H3; cbn [mbind Result_bind]; [|done].
    destruct (CAST_integer_cases (SUBSTRING col pattern_id4)) as [[n4 H4]|H4];
      rewrite H4; cbn [mbind Result_bind]; [|done].
    exfalso. set_unfold in Hin. destruct Hin as [->|[->|[->|[->|[]]]]]; congruence.
Qed.

Lemma for_each_Raise {A B} (f : A → Result B) l e :
  for_each f l = Raise e → ∃ x, x ∈ l ∧ f x = Raise e.
Proof.
  induction l as [|x l IH]; cbn [for_each]; [done|].
  destruct (f x) as [y|e'] eqn:Hx; cbn [mbind Result_bind].
  - destruct (for_each f l) as [ys|e'']; cbn [mbind Result_bind]; [done|].
    intros [= <-]. destruct (IH eq_refl) as (x' & ? & ?). exists x'. set_solver.
  - intros [= <-]. exists x. set_solver.
Qed.

Lemma for_each_Raise_only {A B} (f : A → Result B) l e x :
  (∀ y e', f y = Raise e' → e' = e) → x ∈ l → f x = Raise e →
  for_each f l = Raise e.
Proof.
  intros Honly Hin Hx. induction l as [|y l IH]; [by apply elem_of_nil in Hin|].
  cbn [for_each]. destruct (f y) as [z|e'] eqn:Hy; cbn [mbind Result_bind].
  - apply elem_of_cons in Hin as [->|Hin]; [congruence|]. by rewrite IH.
  - f_equal. by eapply Honly.
Qed.

(** X17: the query of [order_interfaces] fails exactly when, for some row,
    one of the four patterns cuts a number above 2147483647 out of the name;
    the error is then the DataError of the cast, whatever the other rows
    are. *)
Theorem order_interfaces_raises {A} (queryset : list A) (sql_col : A → string)
    (primary_ordering : list (A → Z)) (e : Exception) :
  order_interfaces queryset sql_col primary_ordering = Raise e ↔
  e = DataError
  ∧ ∃ row pattern ds,
      row ∈ queryset
      ∧ pattern ∈ [pattern_id1; pattern_id2; pattern_id3; pattern_id4]
      ∧ SUBSTRING (sql_col row) pattern = Some ds
      ∧ INT_MAX < decimal ds.
Proof.
  unfold order_interfaces.
  set (keyed := λ row : A, _).
  assert (∀ row e', keyed row = Raise e' ↔ interface_ids (sql_col row) = Raise e')
    as Hkeyed.
  { intros row e'. unfold keyed.
    destruct (interface_ids (sql_col row)); cbn [mbind Result_bind];
      split; congruence. }
  split.
  - destruct (for_each keyed queryset) as [rows|e'] eqn:Hrows;
      cbn [mbind Result_bind]; [done|].
    intros [= ->]. apply for_each_Raise in Hrows as (row & Hin & Hrow).
    apply Hkeyed, interface_ids_Raise in Hrow as [-> (pattern & ds & ? & ? & ?)].
    split; [done|]. by exists row, pattern, ds.
  - intros [-> (row & pattern & ds & Hin & Hpat & Hsub & Hbig)].
    assert (for_each keyed queryset = Raise DataError) as ->; [|done].
    apply (for_each_Raise_only keyed queryset DataError row); [|done|].
    + intros y e' Hy. apply Hkeyed, interface_ids_Raise in Hy. tauto.
    + apply Hkeyed, interface_ids_Raise. split; [done|]. by exists pattern, ds.
Qed.

(** ** The trailing number of a name *)

(** [[0-9]+] before a continuation that only accepts the end of the text:
    the whole text has to be digits. *)
Lemma digits_plus_end {X} (s : list ascii) (k : list ascii → option X) :
  (∀ s', s' ≠ [] → s' `suffix_of` s → k s' = None) →
  digits_plus s k = if forallb is_digit s && bool_decide (s ≠ []) then k [] else None.
Proof.
  induction s as [|c s IH]; intros Hk; [done|].
  cbn [digits_plus forallb]. destruct (is_digit c); [|done].
  rewrite IH by (intros s' ? ?; apply Hk; [done|by apply suffix_cons_r]).
  rewrite (bool_decide_true (c :: s ≠ [])) by done. rewrite !andb_true_l, andb_true_r.
  destruct s as [|c' s]; [done|].
  rewrite (bool_decide_true (c' :: s ≠ [])) by done. rewrite andb_true_r.
  destruct (forallb is_digit (c' :: s)).
  - destruct (k []) eqn:Hend; [done|].
    apply Hk; [done|]. by apply suffix_cons_r.
  - apply Hk; [done|]. by apply suffix_cons_r.
Qed.

(** [[0-9]+] before a continuation that accepts nothing. *)
Lemma digits_plus_none {X} (s : list ascii) (k : list ascii → option X) :
  (∀ s', s' `suffix_of` s → k s' = None) → digits_plus s k = None.
Proof.
  induction s as [|c s IH]; intros Hk; [done|].
  cbn [digits_plus]. destruct (is_digit c); [|done].
  rewrite IH by (intros s' ?; apply Hk; by apply suffix_cons_r).
  apply Hk. by apply suffix_cons_r.
Qed.

(** The leftmost match of a pattern that matches exactly the texts made of
    digits: the longest run of digits at the end. *)
Lemma search_trailing (r : regex) (s : list ascii) :
  (∀ t, t `suffix_of` s →
     rmatch r t [] (λ _ caps, Some caps)
     = if forallb is_digit t && bool_decide (t ≠ []) then Some [(1%nat, t)] else None) →
  search r s = match trailing_digits s with
               | [] => None
               | ds => Some [(1%nat, ds)]
               end.
Proof.
  induction s as [|c s IH]; intros Hr.
  - cbn [search trailing_digits]. by rewrite Hr.
  - cbn [search]. rewrite Hr by done.
    rewrite (bool_decide_true (c :: s ≠ [])) by done. rewrite andb_true_r.
    cbn [trailing_digits]. destruct (forallb is_digit (c :: s)); [done|].
    apply IH. intros t Ht. apply Hr. by apply suffix_cons_r.
Qed.

Lemma search_none (r : regex) (s : list ascii) :
  (∀ t, t `suffix_of` s → rmatch r t [] (λ _ caps, Some caps) = None) →
  search r s = None.
Proof.
  induction s as [|c s IH]; intros Hr.
  - cbn [search]. by rewrite Hr.
  - cbn [search]. rewrite Hr by done. apply IH.
    intros t Ht. apply Hr. by apply suffix_cons_r.
Qed.

Lemma SUBSTRING_trailing (r : regex) (col : string) :
  search r (String.list_ascii_of_string col)
  = match trailing_digits (String.list_ascii_of_string col) with
    | [] => None
    | ds => Some [(1%nat, ds)]
    end →
  SUBSTRING col r = trailing_number col.
Proof.
  unfold SUBSTRING, trailing_number. intros ->.
  by destruct (trailing_digits _).
Qed.

(** X18: [name_as_integer], the key of the console server ports, is the
    number the name ends with: the longest run of digits at its end, read in
    base ten; NULL when the name does not end with a digit, and an error of
    the query above 2147483647. *)
Theorem name_as_integer_trailing (name : string) :
  name_as_integer name
  = match trailing_number name with
    | None => Ok None
    | Some ds => if bool_decide (decimal ds ≤ INT_MAX) then Ok (Some (decimal ds))
                 else Raise DataError
    end.
Proof.
  unfold name_as_integer. rewrite (SUBSTRING_trailing pattern_name_as_integer).
  - by destruct (trailing_number name).
  - apply search_trailing. intros t _.
    unfold pattern_name_as_integer. cbn [rmatch].
    rewrite digits_plus_end.
    + destruct (forallb is_digit t && bool_decide (t ≠ [])); [|done].
      cbn. by rewrite Nat.sub_0_r, firstn_all.
    + by intros [|c s'] ? _.
Qed.

(** ** Names without slots *)

Lemma suffix_head_elem (c : ascii) (s' t s : list ascii) :
  c :: s' `suffix_of` t → t `suffix_of` s → c ∈ s.
Proof. intros [k1 ->] [k2 ->]. set_solver. Qed.

(** A pattern that needs a slash after its first run of digits finds nothing
    in a text without one. *)
Lemma search_slash (rest : regex) (s : list ascii) :
  "/"%char ∉ s →
  search (Seq (Group 1 Digits) (Seq slash rest)) s = None.
Proof.
  intros Hslash. apply search_none. intros t Ht.
  cbn [rmatch]. apply digits_plus_none. intros [|c s'] Hs'; [done|].
  unfold slash. cbn [rmatch]. case_decide as Hc; [|done].
  subst c. destruct Hslash. by eapply suffix_head_elem.
Qed.

Lemma search_colon (rest : regex) (s : list ascii) :
  ":"%char ∉ s →
  search (Seq (Chr ":"%char) rest) s = None.
Proof.
  intros Hcolon. apply search_none. intros [|c s'] Ht; [done|].
  cbn [rmatch]. case_decide as Hc; [|done].
  subst c. destruct Hcolon. by eapply (suffix_head_elem _ s' (":"%char :: s')).
Qed.

(** X19: for a name with neither a slash nor a colon, the first, second and
    fourth keys of [order_interfaces] are NULL and the third one is the number
    the name ends with, NULL when it ends with no digit; a number above
    2147483647 is an error of the query. *)
Theorem interface_ids_plain (col : string) :
  "/"%char ∉ String.list_ascii_of_string col →
  ":"%char ∉ String.list_ascii_of_string col →
  interface_ids col
  = match trailing_number col with
    | None => Ok [None; None; None; None]
    | Some ds => if bool_decide (decimal ds ≤ INT_MAX)
                 then Ok [None; None; Some (decimal ds); None]
                 else Raise DataError
    end.
Proof.
  intros Hslash Hcolon. unfold interface_ids.
  assert (SUBSTRING col pattern_id1 = None) as ->.
  { unfold SUBSTRING, pattern_id1. by rewrite search_slash. }
  assert (SUBSTRING col pattern_id2 = None) as ->.
  { unfold SUBSTRING, pattern_id2. by rewrite search_slash. }
  assert (SUBSTRING col pattern_id4 = None) as ->.
  { unfold SUBSTRING, pattern_id4. by rewrite search_colon. }
  rewrite (SUBSTRING_trailing pattern_id3).
  - destruct (trailing_number col) as [ds|]; [|done].
    unfold CAST_integer. fold (decimal ds). fold INT_MAX.
    cbn [mbind Result_bind]. by case_bool_decide.
  - apply search_trailing. intros t Ht.
    unfold pattern_id3, subchannel. cbn [rmatch].
    rewrite digits_plus_end.
    + destruct (forallb is_digit t && bool_decide (t ≠ [])); [|done].
      cbn. by rewrite Nat.sub_0_r, firstn_all.
    + intros [|c s'] ? Hs'; [done|].
      case_decide as Hc; [|done].
      subst c. destruct Hcolon. by eapply suffix_head_elem.
Qed.

Lemma interface_ids_plain_witness :
  ("/"%char ∉ String.list_ascii_of_string "vlan10")
  ∧ (":"%char ∉ String.list_ascii_of_string "vlan10")
  ∧ interface_ids "vlan10" = Ok [None; None; Some 10; None].
Proof.
  assert ("/"%char ∉ String.list_ascii_of_string "vlan10") as Hslash
    by (eapply (bool_decide_unpack _); vm_compute; exact I).
  assert (":"%char ∉ String.list_ascii_of_string "vlan10") as Hcolon
    by (eapply (bool_decide_unpack _); vm_compute; exact I).
  split; [exact Hslash|split; [exact Hcolon|]].
  exact (interface_ids_plain "vlan10" Hslash Hcolon).
Defined.

(** ** The keys are runs of digits of the name *)

(** What [[0-9]+] hands over: the rest of the text after a run of digits. *)
Lemma digits_plus_Some {X} (s : list ascii) (k : list ascii → option X) x :
  digits_plus s k = Some x →
  ∃ ds s', s = ds ++ s' ∧ ds ≠ [] ∧ forallb is_digit ds = true ∧ k s' = Some x.
Proof.
  revert x. induction s as [|c s IH]; intros x; [done|].
  cbn [digits_plus]. destruct (is_digit c) eqn:Hc; [|done].
  destruct (digits_plus s k) as [y|] eqn:Hrun.
  - intros [= <-]. destruct (IH y eq_refl) as (ds & s' & -> & _ & Hds & Hk).
    exists (c :: ds), s'. cbn [forallb]. by rewrite Hc, Hds.
  - intros Hk. exists [c], s. cbn [forallb]. by rewrite Hc.
Qed.

(** A pattern without a group 1 leaves the text of group 1 alone. *)
Lemma rmatch_keeps_group1 (r : regex) :
  no_group1 r = true →
  ∀ s caps k out,
    rmatch r s caps k = Some out →
    ∃ s' caps', k s' caps' = Some out
      ∧ filter (λ c : nat * list ascii, c.1 = 1%nat) caps'
        = filter (λ c : nat * list ascii, c.1 = 1%nat) caps.
Proof.
  induction r as [c| |r1 IH1 r2 IH2|r IH|n r IH|]; cbn [no_group1 rmatch];
    intros Hno s caps k out Hm.
  - destruct s as [|c' s]; [done|]. case_decide; [|done]. eauto.
  - apply digits_plus_Some in Hm as (ds & s' & _ & _ & _ & Hk). eauto.
  - apply andb_true_iff in Hno as [Hno1 Hno2].
    apply (IH1 Hno1) in Hm as (s1 & caps1 & Hm & Heq1).
    apply (IH2 Hno2) in Hm as (s2 & caps2 & Hm & Heq2).
    exists s2, caps2. split; [done|congruence].
  - destruct (rmatch r s caps k) as [out'|] eqn:Hin.
    + injection Hm as ->. by apply (IH Hno) in Hin.
    + eauto.
  - apply andb_true_iff in Hno as [Hn Hno].
    apply (IH Hno) in Hm as (s1 & caps1 & Hm & Heq1).
    exists s1, ((n, take (length s - length s1) s) :: caps1). split; [exact Hm|].
    rewrite <- Heq1. apply filter_cons_False.
    cbn. intros ->. done.
  - destruct s; [|done]. eauto.
Qed.

(** A pattern that opens with [([0-9]+)] and has no other group 1: the text
    [SUBSTRING] returns is a run of digits inside the text searched. *)
Lemma rmatch_group1_digits (rest : regex) (t : list ascii) out :
  no_group1 rest = true →
  rmatch (Seq (Group 1 Digits) rest) t [] (λ _ caps, Some caps) = Some out →
  ∃ ds, snd <$> head (filter (λ c : nat * list ascii, c.1 = 1%nat) out) = Some ds
        ∧ forallb is_digit ds = true ∧ (length ds ≤ length t)%nat.
Proof.
  intros Hno. cbn [rmatch]. intros Hm.
  apply digits_plus_Some in Hm as (ds & s' & -> & _ & Hds & Hm).
  apply (rmatch_keeps_group1 rest Hno) in Hm as (s'' & caps' & [= ->] & Heq).
  exists ds. rewrite Heq.
  rewrite length_app, Nat.add_sub, take_app_length.
  split; [reflexivity|]. split; [done|lia].
Qed.

Lemma search_Some (r : regex) (s : list ascii) out :
  search r s = Some out →
  ∃ t, t `suffix_of` s ∧ rmatch r t [] (λ _ caps, Some caps) = Some out.
Proof.
  induction s as [|c s IH]; cbn [search].
  - destruct (rmatch r [] _ _) eqn:Hm; [|done]. intros [= <-]. by exists [].
  - destruct (rmatch r (c :: s) _ _) eqn:Hm.
    + intros [= <-]. by exists (c :: s).
    + intros (t & Ht & Hmt)%IH. exists t. split; [by apply suffix_cons_r|done].
Qed.

Lemma SUBSTRING_digits (col : string) (pattern : regex) ds :
  pattern ∈ [pattern_id1; pattern_id2; pattern_id3; pattern_id4] →
  SUBSTRING col pattern = Some ds →
  forallb is_digit ds = true
  ∧ (length ds ≤ length (String.list_ascii_of_string col))%nat.
Proof.
  intros Hpat. unfold SUBSTRING.
  destruct (search pattern _) as [out|] eqn:Hsearch; [|done].
  apply search_Some in Hsearch as (t & Ht & Hm).
  apply suffix_length in Ht. intros Hsub.
  assert (∀ rest t', no_group1 rest = true → (length t' ≤ length t)%nat →
    rmatch (Seq (Group 1 Digits) rest) t' [] (λ _ caps, Some caps) = Some out →
    forallb is_digit ds = true
    ∧ (length ds ≤ length (String.list_ascii_of_string col))%nat) as Hopen.
  { intros rest t' Hno Hlen Hm'.
    apply rmatch_group1_digits in Hm' as (ds' & Hds' & ? & ?); [|done].
    rewrite Hsub in Hds'. injection Hds' as <-. split; [done|lia]. }
  set_unfold in Hpat. destruct Hpat as [->|[->|[->|[->|[]]]]].
  - by apply (Hopen _ t) in Hm.
  - by apply (Hopen _ t) in Hm.
  - by apply (Hopen _ t) in Hm.
  - unfold pattern_id4 in Hm. cbn [rmatch] in Hm.
    destruct t as [|c t']; [done|]. case_decide; [|done].
    apply (Hopen EndOfString t'); [done|cbn; lia|done].
Qed.

Lemma decimal_bound (ds : list ascii) :
  forallb is_digit ds = true → 0 ≤ decimal ds < 10 ^ Z.of_nat (length ds).
Proof.
  unfold decimal. intros Hds.
  assert (∀ n, 0 ≤ n →
    0 ≤ foldl (λ n c, 10 * n + digit_value c) n ds
      < (n + 1) * 10 ^ Z.of_nat (length ds)) as Hgen.
  { induction ds as [|c ds IH]; intros n Hn; [cbn; lia|].
    cbn [forallb] in Hds. apply andb_true_iff in Hds as [Hc Hds].
    assert (0 ≤ digit_value c ≤ 9) as Hval.
    { unfold is_digit in Hc. unfold digit_value.
      apply andb_true_iff in Hc as [?%Nat.leb_le ?%Nat.leb_le]. lia. }
    cbn [foldl length]. specialize (IH Hds (10 * n + digit_value c) ltac:(lia)).
    rewrite Nat2Z.inj_succ, Z.pow_succ_r by lia.
    assert (0 < 10 ^ Z.of_nat (length ds)) by (apply Z.pow_pos_nonneg; lia).
    nia. }
  specialize (Hgen 0 ltac:(lia)). lia.
Qed.

Lemma length_list_ascii (s : string) :
  length (String.list_ascii_of_string s) = String.length s.
Proof. induction s as [|c s IH]; cbn; [done|by rewrite IH]. Qed.

(** X20: names of at most nine characters never make the query of
    [order_interfaces] fail: every key is the value of a run of digits of the
    name, so below 10^9, which a 32-bit integer holds. *)
Theorem order_interfaces_short_names {A} (queryset : list A) (sql_col : A → string)
    (primary_ordering : list (A → Z)) :
  (∀ row, row ∈ queryset → (String.length (sql_col row) ≤ 9)%nat) →
  ∃ result, order_interfaces queryset sql_col primary_ordering = Ok result.
Proof.
  intros Hshort. unfold order_interfaces.
  destruct (for_each _ queryset) as [rows|e] eqn:Hrows; cbn [mbind Result_bind];
    [by eexists|].
  exfalso. apply for_each_Raise in Hrows as (row & Hin & Hrow).
  assert (interface_ids (sql_col row) = Raise e) as Hids.
  { destruct (interface_ids (sql_col row)); cbn [mbind Result_bind] in Hrow;
      congruence. }
  apply interface_ids_Raise in Hids as [_ (pattern & ds & Hpat & Hsub & Hbig)].
  apply (SUBSTRING_digits _ _ _ Hpat) in Hsub as [Hds Hlen].
  apply decimal_bound in Hds. specialize (Hshort row Hin).
  rewrite length_list_ascii in Hlen.
  assert (10 ^ Z.of_nat (length ds) ≤ 10 ^ 9)
    by (apply Z.pow_le_mono_r; lia).
  unfold INT_MAX in Hbig. lia.
Qed.

Lemma order_interfaces_short_names_witness :
  ∃ result, order_interfaces Example_names.vlans id [] = Ok result.
Proof.
  apply (order_interfaces_short_names Example_names.vlans id []).
  intros row Hrow. unfold Example_names.vlans in Hrow.
  repeat (apply elem_of_cons in Hrow as [->|Hrow]; [vm_compute; lia|]).
  by apply elem_of_nil in Hrow.
Defined.

(** ** Connections between interfaces *)

Lemma connected_as_Ok field objects self c :
  connected_as field objects self = Ok c → c ∈ objects ∧ field c = self.
Proof.
  unfold connected_as.
  destruct (filter _ objects) as [|c' rest] eqn:Hf; [done|]. intros [= <-].
  assert (c' ∈ filter (λ c, field c = self) objects) as Hin by (rewrite Hf; left).
  by apply list_elem_of_filter in Hin as [? ?].
Qed.

Lemma connected_as_Raise field objects self e :
  connected_as field objects self = Raise e →
  e = DoesNotExist "InterfaceConnection" ∧ ∀ c, c ∈ objects → field c ≠ self.
Proof.
  unfold connected_as.
  destruct (filter _ objects) as [|c' rest] eqn:Hf; [|done]. intros [= <-].
  split; [done|]. intros c Hc Heq.
  assert (c ∈ filter (λ c, field c = self) objects) as Hin
    by (by apply list_elem_of_filter).
  rewrite Hf in Hin. by apply elem_of_nil in Hin.
Qed.

Lemma NoDup_fmap_elem {A B} (f : A → B) (l : list A) x y :
  NoDup (f <$> l) → x ∈ l → y ∈ l → f x = f y → x = y.
Proof.
  induction l as [|z l IH]; [by intros _ ?%elem_of_nil|].
  cbn [fmap list_fmap]. intros [Hz Hl]%NoDup_cons Hx Hy Heq.
  apply elem_of_cons in Hx as [->|Hx]; apply elem_of_cons in Hy as [->|Hy].
  - done.
  - destruct Hz. rewrite Heq. by apply list_elem_of_fmap_2.
  - destruct Hz. rewrite <- Heq. by apply list_elem_of_fmap_2.
  - by apply IH.
Qed.

Lemma connected_as_unique field objects c :
  NoDup (field <$> objects) → c ∈ objects →
  connected_as field objects (field c) = Ok c.
Proof.
  intros Hnd Hc. destruct (connected_as field objects (field c)) as [c'|e] eqn:Hget.
  - apply connected_as_Ok in Hget as [Hc' Heq]. f_equal.
    by apply (NoDup_fmap_elem field objects).
  - apply connected_as_Raise in Hget as [_ Hnone]. by destruct (Hnone c Hc).
Qed.

Lemma one_connection_each_columns objects :
  one_connection_each objects →
  NoDup (interface_a <$> objects) ∧ NoDup (interface_b <$> objects)
  ∧ ∀ c c', c ∈ objects → c' ∈ objects → interface_a c ≠ interface_b c'.
Proof.
  unfold one_connection_each. intros (Ha & Hdisj & Hb)%NoDup_app.
  split; [done|]. split; [done|]. intros c c' Hc Hc' Heq.
  apply (Hdisj (interface_a c)); [by apply list_elem_of_fmap_2|].
  rewrite Heq. by apply list_elem_of_fmap_2.
Qed.

(** What [connected_interface] returns, read off the two accessors. *)
Lemma connected_interface_unfold objects self :
  Interface_connected_interface objects self
  = match connected_as_a objects self with
    | Ok c => Ok (Some (interface_b c))
    | Raise _ =>
        match connected_as_b objects self with
        | Ok c => Ok (Some (interface_a c))
        | Raise _ => Ok None
        end
    end.
Proof.
  unfold Interface_connected_interface, instance_truthy.
  destruct (connected_as_a objects self) as [c|e] eqn:Ha; cbn [mbind Result_bind].
  - done.
  - apply connected_as_Raise in Ha as [-> _]. cbn [try_return].
    destruct (connected_as_b objects self) as [c|e] eqn:Hb; cbn [mbind Result_bind].
    + done.
    + by apply connected_as_Raise in Hb as [-> _].
Qed.

Lemma connection_unfold objects self :
  Interface_connection objects self
  = match connected_as_a objects self with
    | Ok c => Ok (Some c)
    | Raise _ =>
        match connected_as_b objects self with
        | Ok c => Ok (Some c)
        | Raise _ => Ok None
        end
    end.
Proof.
  unfold Interface_connection.
  destruct (connected_as_a objects self) as [c|e] eqn:Ha; cbn [mbind Result_bind];
    [done|].
  apply connected_as_Raise in Ha as [-> _]. cbn [try_return].
  destruct (connected_as_b objects self) as [c|e] eqn:Hb; cbn [mbind Result_bind];
    [done|].
  by apply connected_as_Raise in Hb as [-> _].
Qed.

(** X21: where every interface is an end of at most one connection,
    [connected_interface] is the other end of the connection of an interface,
    whichever side it is on, and so it is symmetric: the interface connected
    to [j] is [i] whenever the one connected to [i] is [j]. *)
Theorem connected_interface_symmetric (objects : list InterfaceConnection) (i j : Z) :
  one_connection_each objects →
  (Interface_connected_interface objects i = Ok (Some j) ↔ joined objects i j)
  ∧ (Interface_connected_interface objects i = Ok (Some j) →
     Interface_connected_interface objects j = Ok (Some i)).
Proof.
  intros (Ha & Hb & Hdisj)%one_connection_each_columns.
  assert (∀ i j, Interface_connected_interface objects i = Ok (Some j) ↔
                 joined objects i j) as Hspec.
  { clear i j. intros i j. rewrite connected_interface_unfold. unfold joined. split.
    - destruct (connected_as_a objects i) as [c|e] eqn:Hga.
      + apply connected_as_Ok in Hga as [Hc Hi]. intros [= <-]. exists c. tauto.
      + destruct (connected_as_b objects i) as [c|e'] eqn:Hgb; [|done].
        apply connected_as_Ok in Hgb as [Hc Hi]. intros [= <-]. exists c. tauto.
    - intros (c & Hc & [[<- <-]|[<- <-]]).
      + unfold connected_as_a. by rewrite connected_as_unique.
      + destruct (connected_as_a objects (interface_b c)) as [c'|e] eqn:Hga.
        * apply connected_as_Ok in Hga as [Hc' Heq]. by destruct (Hdisj c' c).
        * unfold connected_as_b. by rewrite connected_as_unique. }
  split; [apply Hspec|].
  intros (c & Hc & Hends)%Hspec. apply Hspec. exists c. tauto.
Qed.

Lemma connected_interface_symmetric_witness :
  one_connection_each Example_connections.patched
  ∧ (Interface_connected_interface Example_connections.patched 3 = Ok (Some 4)
     ↔ joined Example_connections.patched 3 4)
  ∧ (Interface_connected_interface Example_connections.patched 3 = Ok (Some 4) →
     Interface_connected_interface Example_connections.patched 4 = Ok (Some 3)).
Proof.
  assert (one_connection_each Example_connections.patched) as Hone
    by (eapply (bool_decide_unpack _); vm_compute; exact I).
  split; [exact Hone|].
  exact (connected_interface_symmetric Example_connections.patched 3 4 Hone).
Defined.

(** X22: [connection] and [connected_interface] never raise, and both are
    None exactly for an interface that is an end of no connection; a
    connection that is returned is in the table and has the interface as one
    of its ends. *)
Theorem connection_spec (objects : list InterfaceConnection) (self : Z) :
  (Interface_connection objects self = Ok None
   ↔ ∀ c, c ∈ objects → interface_a c ≠ self ∧ interface_b c ≠ self)
  ∧ (Interface_connected_interface objects self = Ok None
     ↔ Interface_connection objects self = Ok None)
  ∧ (∀ c, Interface_connection objects self = Ok (Some c) →
       c ∈ objects ∧ (interface_a c = self ∨ interface_b c = self))
  ∧ (∃ r, Interface_connection objects self = Ok r)
  ∧ (∃ r, Interface_connected_interface objects self = Ok r).
Proof.
  rewrite connection_unfold, connected_interface_unfold.
  destruct (connected_as_a objects self) as [ca|ea] eqn:Hga.
  - apply connected_as_Ok in Hga as [Hca Ha].
    split_and!; [split; [done|intros Hnone; by destruct (Hnone ca Hca)]
                |done| |by eexists..].
    intros c [= <-]. tauto.
  - apply connected_as_Raise in Hga as [_ Hnoa].
    destruct (connected_as_b objects self) as [cb|eb] eqn:Hgb.
    + apply connected_as_Ok in Hgb as [Hcb Hb].
      split_and!; [split; [done|intros Hnone; by destruct (Hnone cb Hcb)]
                  |done| |by eexists..].
      intros c [= <-]. tauto.
    + apply connected_as_Raise in Hgb as [_ Hnob].
      split_and!; [split; [intros _ c Hc; split; [by apply Hnoa|by apply Hnob]|done]
                  |done|done|by eexists..].
Qed.

(** ** The elevation and the available units agree *)

(** The devices an elevation goes through are the ones the available units
    of that face take into account. *)
Lemma placed_consuming objects self face' exclude d :
  truthy (rack_pk self) = true →
  d ∈ placed_devices objects self face' exclude ↔
  d ∈ consuming_devices objects self (Some face') (option_list exclude).
Proof.
  intros Hpk. unfold placed_devices. rewrite Hpk.
  unfold elevation_devices, rack_devices.
  rewrite consuming_devices_elem, face_consumed_spec.
  unfold rack_devices. rewrite !list_elem_of_filter.
  assert (Some (pk d) ≠ exclude ↔ pk d ∉ option_list exclude) as ->.
  { destruct exclude as [k|]; cbn.
    - rewrite list_elem_of_singleton. split; congruence.
    - rewrite elem_of_nil. split; [tauto|done]. }
  split.
  - intuition.
  - intros (? & ? & ? & [?|?]); [done|intuition].
Qed.

(** X23: on a stored rack, when [get_rack_units] returns the elevation of a
    face without collapsing, the units it shows without a device are exactly
    the units [get_available_units] returns for a device of height 1 on that
    face, the same device set aside in both. *)
Theorem elevation_shows_available objects self face' exclude l :
  truthy (rack_pk self) = true →
  get_rack_units objects self face' exclude false = Ok l →
  ∃ available,
    get_available_units objects self 1 (Some face') (option_list exclude) = Ok available
    ∧ ∀ u, u ∈ available ↔ ∃ r, r ∈ l ∧ ru_id r = u ∧ ru_device r = None.
Proof.
  intros Hpk Hl. rewrite get_rack_units_full in Hl.
  destruct (head _); [done|]. injection Hl as <-.
  eexists. split; [apply get_available_units_unfold|].
  intros u. rewrite available_one, elem_of_reverse, free_units_elem.
  rewrite occupied_units_elem. unfold full_elevation. split.
  - intros [Hu Hfree]. exists (unit_record face' u
      (occupant (placed_devices objects self face' exclude) u)).
    split; [|split; [done|]].
    + apply list_elem_of_fmap. exists u. split; [done|by apply units_elem].
    + cbn. apply occupant_None. intros d Hd Hdu. apply Hfree. exists d.
      split; [by apply placed_consuming|done].
  - intros (r & (u' & -> & Hu')%list_elem_of_fmap & <- & Hnone). cbn in *.
    split; [by apply units_elem|].
    intros (d & Hd & Hdu).
    apply (proj1 (occupant_None _ _) Hnone d); [by apply placed_consuming|done].
Qed.

Lemma elevation_shows_available_witness :
  ∃ available,
    get_available_units Example.tidy Example.rack4 1 (Some RACK_FACE_FRONT)
      (option_list None) = Ok available
    ∧ ∀ u, u ∈ available ↔
        ∃ r, r ∈ [ unit_record RACK_FACE_FRONT 4 None;
                   unit_record RACK_FACE_FRONT 3 None;
                   unit_record RACK_FACE_FRONT 2
                     (Some (Example.device_of 1 Example.half_1u Example.rack4 (Some 2)
                              (Some RACK_FACE_FRONT)));
                   unit_record RACK_FACE_FRONT 1 None ]
             ∧ ru_id r = u ∧ ru_device r = None.
Proof.
  apply (elevation_shows_available Example.tidy Example.rack4 RACK_FACE_FRONT None).
  - reflexivity.
  - vm_compute. reflexivity.
Defined.

(** ** Saving a new device: the components created *)





(** The order of creation in the example. *)
Example Device_save_creates_sorted :
  if_name <$> Interface_objects Example_templates.equipped
  = ["xe-0/0/0"; "xe-0/0/1"; "fxp0"]
  ∧ itpl_name <$> InterfaceTemplate_objects Example_templates.catalogue
    = ["fxp0"; "xe-0/0/1"; "xe-0/0/0"]
  ∧ bay_name <$> DeviceBay_objects Example_templates.equipped = ["Bay 1"; "Bay 2"]
  ∧ tpl_name <$> DeviceBayTemplate_objects Example_templates.catalogue
    = ["Bay 2"; "Bay 1"].
Proof. repeat split. Qed.
